(** * Transcode job orchestration: a shallow embedding of the JavaScript sources

    The development follows the repository file by file:
    - [JS]              the fragment of JavaScript values and built-ins the sources use;
    - [Path]            Node's POSIX [path.parse] / [path.basename], used for the output key;
    - [FFmpegUtils]     src/utils/ffmpeg-utils.js (codec and preset tables, filter chain,
                        validation, [createTranscodingConfig]);
    - [DataAccess]      the [transcoding_jobs] table behind the data access layer;
    - [VideoController] src/controllers/videoController.js ([transcodeStart],
                        [getJobStatus], [jobCallback]);
    - [Worker]          src/workers/video-transcode-worker.js ([processVideoFile]);
    - [QueryBuilder]    src/data-access/data-access.js (the statement builders);
    - [SQLiteDataAccess] src/data-access/sqlite-data-access.js ([update], [delete]:
                        the statements they hand to the SQLite service);
    - [FluentCommand]   the loops of [createFluentFFmpegIns] over the additional arguments;
    - [VideoTranscoder] [cleanup] of the worker's transcoder class;
    - [Notions], [Samples], [Runs], [Pipeline], [Statements], [Resolving], [Cases],
      [Keys]
                        the vocabulary and the concrete inputs of the properties,
                        which follow them. *)

From Stdlib Require Import ZArith String Ascii List Bool Lia DecimalString Sorted.
From Stdlib Require DecimalPos DecimalZ.
From stdpp Require Import base option list gmap strings.

Set Warnings "-register-all".

Local Open Scope string_scope.
Local Open Scope Z_scope.

(* ===================================================================== *)
(** ** JavaScript values *)
(* ===================================================================== *)

Module JS.

(** Values that reach the modelled code: what a JSON body parser produces,
    plus [undefined] and built-in functions (the members of [Object.prototype]).
    Numbers are the integers JavaScript prints in plain decimal; the sources
    only test numbers for truthiness, compare them with constants and print
    them. Objects keep their own properties in enumeration order, one entry
    per key. *)
Inductive value : Type :=
| VUndefined
| VNull
| VBool (b : bool)
| VNum (n : Z)
| VStr (s : string)
| VArr (xs : list value)
| VObj (props : list (string * value))
| VFun (name : string).

(** An [Error] instance: [stack] is the header [name: message] followed by
    the call frames. *)
Record js_error : Type := JsError {
  err_name : string;
  err_message : string;
  err_frames : string
}.

Definition error_header (e : js_error) : string :=
  if String.eqb (err_name e) "" then err_message e
  else if String.eqb (err_message e) "" then err_name e
  else err_name e +:+ ": " +:+ err_message e.

Definition error_stack (e : js_error) : string :=
  error_header e +:+ err_frames e.

(** [new Error(msg)] and the engine's [TypeError]. Frames of errors raised
    inside the modelled code all start with a line break and "    at ". *)
Definition frames_here : string := String (ascii_of_nat 10) "    at <anonymous>".
Definition Error (msg : string) : js_error := JsError "Error" msg frames_here.
Definition TypeError (msg : string) : js_error := JsError "TypeError" msg frames_here.

(** Completion of a computation that may throw. *)
Inductive Result (A : Type) : Type :=
| Ok (a : A)
| Throw (e : js_error).
Arguments Ok {A} a.
Arguments Throw {A} e.

#[global] Instance Result_ret : MRet Result := fun A a => Ok a.
#[global] Instance Result_bind : MBind Result := fun A B k r =>
  match r with
  | Ok a => k a
  | Throw e => Throw e
  end.

(** ToBoolean. Objects, arrays and functions are always truthy. *)
Definition truthy (v : value) : bool :=
  match v with
  | VUndefined | VNull => false
  | VBool b => b
  | VNum n => negb (n =? 0)
  | VStr s => negb (String.eqb s "")
  | VArr _ | VObj _ | VFun _ => true
  end.

(** [typeof v] *)
Definition typeof (v : value) : string :=
  match v with
  | VUndefined => "undefined"
  | VNull | VArr _ | VObj _ => "object"
  | VBool _ => "boolean"
  | VNum _ => "number"
  | VStr _ => "string"
  | VFun _ => "function"
  end.

(** [a || b] *)
Definition or_else (a b : value) : value := if truthy a then a else b.

(** Own property of an object literal / parsed object: first entry for the key. *)
Fixpoint assoc (k : string) (props : list (string * value)) : option value :=
  match props with
  | [] => None
  | (k', v) :: rest => if String.eqb k k' then Some v else assoc k rest
  end.

(** The members every plain object inherits from [Object.prototype]. *)
Definition Object_prototype : list (string * value) :=
  [ ("constructor", VFun "Object");
    ("__proto__", VObj []);
    ("hasOwnProperty", VFun "hasOwnProperty");
    ("isPrototypeOf", VFun "isPrototypeOf");
    ("propertyIsEnumerable", VFun "propertyIsEnumerable");
    ("toLocaleString", VFun "toLocaleString");
    ("toString", VFun "toString");
    ("valueOf", VFun "valueOf");
    ("__defineGetter__", VFun "__defineGetter__");
    ("__defineSetter__", VFun "__defineSetter__");
    ("__lookupGetter__", VFun "__lookupGetter__");
    ("__lookupSetter__", VFun "__lookupSetter__") ].

(** [o[k]] / [o.k]: own property first, then the prototype; a missing key
    reads as [undefined]; reading a property of [undefined] or [null] throws.
    Of the properties of primitives, arrays and functions the sources could
    reach only a function's [name] is defined. *)
Definition get (o : value) (k : string) : Result value :=
  match o with
  | VUndefined =>
      Throw (TypeError ("Cannot read properties of undefined (reading '" +:+ k +:+ "')"))
  | VNull =>
      Throw (TypeError ("Cannot read properties of null (reading '" +:+ k +:+ "')"))
  | VObj props =>
      match assoc k props with
      | Some v => Ok v
      | None => Ok (default VUndefined (assoc k Object_prototype))
      end
  | VFun name => Ok (if String.eqb k "name" then VStr name else VUndefined)
  | _ => Ok VUndefined
  end.

(** [o?.k] *)
Definition get_opt (o : value) (k : string) : Result value :=
  match o with
  | VUndefined | VNull => Ok VUndefined
  | _ => get o k
  end.

(** [Object.keys(o)] of an object literal. *)
Definition Object_keys (props : list (string * value)) : list string := map fst props.

(** Decimal text of an integer-valued number. *)
Definition string_of_Z (n : Z) : string := NilZero.string_of_int (Z.to_int n).

Fixpoint join (sep : string) (parts : list string) : string :=
  match parts with
  | [] => ""
  | [p] => p
  | p :: rest => p +:+ sep +:+ join sep rest
  end.

(** ToString, as applied by template literals and [Array.prototype.join]. *)
Fixpoint to_string (v : value) : string :=
  match v with
  | VUndefined => "undefined"
  | VNull => "null"
  | VBool true => "true"
  | VBool false => "false"
  | VNum n => string_of_Z n
  | VStr s => s
  | VArr xs =>
      join "," (map (fun x => match x with
                              | VUndefined | VNull => ""
                              | _ => to_string x
                              end) xs)
  | VObj _ => "[object Object]"
  | VFun name => "function " +:+ name +:+ "() { [native code] }"
  end.

(** [arr.join(sep)] on an array of values. *)
Definition array_join (sep : string) (xs : list value) : string :=
  join sep (map (fun x => match x with
                          | VUndefined | VNull => ""
                          | _ => to_string x
                          end) xs).

(** A default [= d], of a parameter or of a destructured property: it
    applies to [undefined] only. *)
Definition param_default (p d : value) : value :=
  match p with VUndefined => d | _ => p end.

(** A destructuring pattern entry [{ k = d } = o]: the default applies when
    the property reads as [undefined]; destructuring [undefined] or [null]
    throws. *)
Definition destructure (o : value) (k : string) (d : value) : Result value :=
  match o with
  | VUndefined | VNull =>
      Throw (TypeError ("Cannot destructure property '" +:+ k +:+ "' of object as it is "
                        +:+ to_string o +:+ "."))
  | _ =>
      v ← get o k;
      mret (param_default v d)
  end.

(** [o[k] = v] on the own properties: an existing key keeps its position, a
    new one goes last. *)
Fixpoint obj_set (props : list (string * value)) (k : string) (v : value)
  : list (string * value) :=
  match props with
  | [] => [(k, v)]
  | (k', v') :: rest =>
      if String.eqb k k' then (k', v) :: rest else (k', v') :: obj_set rest k v
  end.

Definition is_continuation (c : ascii) : bool :=
  ((128 <=? nat_of_ascii c) && (nat_of_ascii c <? 192))%nat.

(** The characters of a string, as its iterator yields them (the text is
    held as UTF-8 bytes, continuation bytes stay with their lead byte). *)
Fixpoint string_chars (s : string) : list string :=
  match s with
  | EmptyString => []
  | String c rest =>
      let r := string_chars rest in
      match rest, r with
      | String c' _, p :: ps =>
          if is_continuation c' then String c p :: ps else String c "" :: p :: ps
      | _, _ => String c "" :: r
      end
  end.

(** Own enumerable properties, as copied by object spread [{ ...v }]. *)
Definition indexed (xs : list value) : list (string * value) :=
  imap (fun i x => (string_of_Z (Z.of_nat i), x)) xs.

Definition own_enumerable (v : value) : list (string * value) :=
  match v with
  | VObj props => props
  | VArr xs => indexed xs
  | VStr s => indexed (map VStr (string_chars s))
  | _ => []
  end.

(** [{ ...base, ...v }] *)
Definition spread_into (base : list (string * value)) (v : value)
  : list (string * value) :=
  fold_left (fun acc kv => obj_set acc (fst kv) (snd kv)) (own_enumerable v) base.

(** Iteration, as used by call spread [f(...v)]. *)
Definition iterate (v : value) : Result (list value) :=
  match v with
  | VArr xs => Ok xs
  | VStr s => Ok (map VStr (string_chars s))
  | _ => Throw (TypeError "Spread syntax requires ...iterable[Symbol.iterator] to be a function")
  end.

(** [base.concat(arr)] where [arr] is an array. *)
Definition concat_array (base : value) (arr : list value) : Result value :=
  match base with
  | VArr xs => Ok (VArr (xs ++ arr)%list)
  | VStr s => Ok (VStr (s +:+ to_string (VArr arr)))
  | VUndefined | VNull => get base "concat"
  | _ => Throw (TypeError "(intermediate value).concat is not a function")
  end.

(** *** JSON texts

    A JSON text is represented by the value it denotes: [JSON.stringify]
    drops what JSON cannot express ([undefined] and functions: omitted from
    objects, [null] inside arrays, no text at all at top level) and
    [JSON.parse] gives the denoted value back. Two texts produced by
    [JSON.stringify] are equal exactly when they denote the same value with
    the same key order. *)
Record json_text : Type := JsonText { denotes : value }.

Fixpoint normalize (v : value) : option value :=
  match v with
  | VUndefined | VFun _ => None
  | VNull => Some VNull
  | VBool b => Some (VBool b)
  | VNum n => Some (VNum n)
  | VStr s => Some (VStr s)
  | VArr xs => Some (VArr (map (fun x => default VNull (normalize x)) xs))
  | VObj props =>
      Some (VObj ((fix members (ps : list (string * value)) : list (string * value) :=
                     match ps with
                     | [] => []
                     | (k, x) :: rest =>
                         match normalize x with
                         | Some x' => (k, x') :: members rest
                         | None => members rest
                         end
                     end) props))
  end.

Definition JSON_stringify (v : value) : option json_text := JsonText <$> normalize v.
Definition JSON_parse (t : json_text) : value := denotes t.

(** Structural equality of values; on JSON texts it is [===] of the strings. *)
Fixpoint value_eqb (a b : value) {struct a} : bool :=
  match a, b with
  | VUndefined, VUndefined => true
  | VNull, VNull => true
  | VBool x, VBool y => Bool.eqb x y
  | VNum x, VNum y => x =? y
  | VStr x, VStr y => String.eqb x y
  | VFun x, VFun y => String.eqb x y
  | VArr xs, VArr ys =>
      (fix all2 (l : list value) (r : list value) {struct l} : bool :=
         match l, r with
         | [], [] => true
         | x :: l', y :: r' => value_eqb x y && all2 l' r'
         | _, _ => false
         end) xs ys
  | VObj ps, VObj qs =>
      (fix all2 (l : list (string * value)) (r : list (string * value)) {struct l} : bool :=
         match l, r with
         | [], [] => true
         | (k, x) :: l', (k', y) :: r' => String.eqb k k' && value_eqb x y && all2 l' r'
         | _, _ => false
         end) ps qs
  | _, _ => false
  end.

(** [JSON.stringify(a) === JSON.stringify(b)] *)
Definition same_json (a b : value) : bool :=
  match JSON_stringify a, JSON_stringify b with
  | Some s, Some t => value_eqb (denotes s) (denotes t)
  | None, None => true
  | _, _ => false
  end.

(** [a || b] and [a && b] where [b] is only evaluated (and may throw) when
    [a] does not decide the result. *)
Definition or_lazy (a b : Result value) : Result value :=
  v ← a;
  if truthy v then mret v else b.

Definition and_lazy (a b : Result value) : Result value :=
  v ← a;
  if truthy v then b else mret v.

Definition bytes (codes : list nat) : string :=
  fold_right (fun n s => String (ascii_of_nat n) s) "" codes.

(** WhiteSpace and LineTerminator code points, in UTF-8. *)
Definition white_space : list string :=
  map bytes
    [ [9]; [10]; [11]; [12]; [13]; [32]; [194; 160]; [225; 154; 128];
      [226; 128; 128]; [226; 128; 129]; [226; 128; 130]; [226; 128; 131];
      [226; 128; 132]; [226; 128; 133]; [226; 128; 134]; [226; 128; 135];
      [226; 128; 136]; [226; 128; 137]; [226; 128; 138];
      [226; 128; 168]; [226; 128; 169]; [226; 128; 175]; [226; 129; 159];
      [227; 128; 128]; [239; 187; 191] ]%nat.

Definition is_white_space (c : string) : bool :=
  existsb (String.eqb c) white_space.

Fixpoint drop_while {A} (p : A -> bool) (l : list A) : list A :=
  match l with
  | [] => []
  | x :: rest => if p x then drop_while p rest else l
  end.

(** [s.trim()] *)
Definition trim (s : string) : string :=
  String.concat ""
    (rev (drop_while is_white_space (rev (drop_while is_white_space (string_chars s))))).

End JS.

(* ===================================================================== *)
(** ** Node's POSIX path functions *)
(* ===================================================================== *)

Module Path.

(** [path.slice(a, b)] for [0 <= a <= b]. *)
Definition slice (path : string) (a b : Z) : string :=
  substring (Z.to_nat a) (Z.to_nat (b - a)) path.

Definition CHAR_FORWARD_SLASH : ascii := "/"%char.
Definition CHAR_DOT : ascii := "."%char.

Definition char_is (c : ascii) (o : option ascii) : bool :=
  match o with
  | Some c' => Ascii.eqb c c'
  | None => false
  end.

(** The local variables of the scanning loop of [path.parse]. *)
Record scan : Type := Scan {
  startDot : Z;
  startPart : Z;
  end_ : Z;
  matchedSlash : bool;
  preDotState : Z
}.

Definition scan_init : scan := Scan (-1) 0 (-1) true 0.

(** [for (i = n - 1; i >= start; --i) { ... }] of [path.parse]: the loop walks
    the path backwards, [n] is one more than the index examined next. *)
Fixpoint parse_loop (path : string) (start : nat) (n : nat) (st : scan) : scan :=
  match n with
  | O => st
  | S i =>
      if (i <? start)%nat then st
      else if char_is CHAR_FORWARD_SLASH (String.get i path) then
        if negb (matchedSlash st)
        then Scan (startDot st) (Z.of_nat i + 1) (end_ st) (matchedSlash st) (preDotState st)
        else parse_loop path start i st
      else
        let st1 :=
          if end_ st =? -1
          then Scan (startDot st) (startPart st) (Z.of_nat i + 1) false (preDotState st)
          else st in
        let st2 :=
          if char_is CHAR_DOT (String.get i path) then
            if startDot st1 =? -1
            then Scan (Z.of_nat i) (startPart st1) (end_ st1) (matchedSlash st1) (preDotState st1)
            else if negb (preDotState st1 =? 1)
            then Scan (startDot st1) (startPart st1) (end_ st1) (matchedSlash st1) 1
            else st1
          else if negb (startDot st1 =? -1)
          then Scan (startDot st1) (startPart st1) (end_ st1) (matchedSlash st1) (-1)
          else st1 in
        parse_loop path start i st2
  end.

Record parsed : Type := Parsed {
  root : string;
  dir : string;
  base : string;
  ext : string;
  name : string
}.

(** [path.parse(path)] *)
Definition parse (path : string) : parsed :=
  if (String.length path =? 0)%nat then Parsed "" "" "" "" ""
  else
    let isAbsolute := char_is CHAR_FORWARD_SLASH (String.get 0 path) in
    let ret_root := if isAbsolute then "/" else "" in
    let start := if isAbsolute then 1%nat else 0%nat in
    let st := parse_loop path start (String.length path) scan_init in
    let '(ret_base, ret_ext, ret_name) :=
      if negb (end_ st =? -1) then
        let start' := if (startPart st =? 0) && isAbsolute then 1 else startPart st in
        if (startDot st =? -1)
           || (preDotState st =? 0)
           || ((preDotState st =? 1)
               && (startDot st =? end_ st - 1)
               && (startDot st =? startPart st + 1))
        then (slice path start' (end_ st), "", slice path start' (end_ st))
        else (slice path start' (end_ st),
              slice path (startDot st) (end_ st),
              slice path start' (startDot st))
      else ("", "", "") in
    let ret_dir :=
      if 0 <? startPart st then slice path 0 (startPart st - 1)
      else if isAbsolute then "/"
      else "" in
    Parsed ret_root ret_dir ret_base ret_ext ret_name.

(** The scanning loop of [path.basename(path)]: [(start, end, matchedSlash)]. *)
Fixpoint basename_loop (path : string) (n : nat) (st : Z * Z * bool) : Z * Z * bool :=
  match n with
  | O => st
  | S i =>
      let '(start, e, matched) := st in
      if char_is CHAR_FORWARD_SLASH (String.get i path) then
        if negb matched then (Z.of_nat i + 1, e, matched)
        else basename_loop path i st
      else if e =? -1 then basename_loop path i (start, Z.of_nat i + 1, false)
      else basename_loop path i st
  end.

(** [path.basename(path)] *)
Definition basename (path : string) : string :=
  let '(start, e, _) := basename_loop path (String.length path) (0, -1, true) in
  if e =? -1 then "" else slice path start e.

End Path.

(* ===================================================================== *)
(** ** src/utils/ffmpeg-utils.js *)
(* ===================================================================== *)

Module FFmpegUtils.
Import JS.

(** Video codec configurations *)
Definition VIDEO_CODECS_entries : list (string * value) :=
       [ ("av1", VObj [
      ("name", VStr "libsvtav1");
      ("extension", VStr "mp4");
      ("quality", VObj [ ("min", VNum 0); ("max", VNum 63); ("default", VNum 49) ]);
      ("presets", VArr (map VStr
         ["0"; "1"; "2"; "3"; "4"; "5"; "6"; "7"; "8"; "9"; "10"; "11"; "12"; "13"]));
      ("default", VObj [ ("crf", VNum 60); ("preset", VStr "16");
                         ("width", VNum 896); ("height", VNum 504) ]) ]) ].

Definition VIDEO_CODECS : value := VObj VIDEO_CODECS_entries.

(** Audio codec configurations *)
Definition AUDIO_CODECS_entries : list (string * value) :=
       [ ("aac", VObj [
      ("name", VStr "aac");
      ("bitrates", VArr [VStr "96k"; VStr "128k"; VStr "320k"]);
      ("default", VObj [ ("bitrate", VStr "96k") ]) ]) ].

Definition AUDIO_CODECS : value := VObj AUDIO_CODECS_entries.

Definition quality_preset (width height crf : Z) (preset : string) (fps : Z)
    (svtav1_params : string) : value :=
  VObj [ ("width", VNum width);
         ("height", VNum height);
         ("crf", VNum crf);
         ("preset", VStr preset);
         ("filters", VObj [ ("fps", VNum fps) ]);
         ("advanced", VObj [ ("additionalArgs",
                              VArr [VStr "-svtav1-params"; VStr svtav1_params]) ]) ].

(** Common quality presets *)
Definition QUALITY_TO_PRESETS_entries : list (string * value) :=
  [ ("1080p60av1", quality_preset 1920 1080 49 "10" 60
       "hierarchical-levels=3:keyint=180:lookahead=11:lp=14:scm=0");
    ("1080p30av1", quality_preset 1920 1080 49 "10" 30
       "hierarchical-levels=2:keyint=90:lookahead=11:lp=10:scm=0:enable-tf=0");
    ("720p30av1", quality_preset 1280 720 49 "12" 30
       "hierarchical-levels=2:keyint=90:lookahead=11:lp=10:scm=0:enable-tf=0") ].

Definition QUALITY_TO_PRESETS : value := VObj QUALITY_TO_PRESETS_entries.

(** [table[key]] with a computed key: the key is converted to a string. *)
Definition get_computed (table key : value) : Result value :=
  get table (to_string key).

(** [generateScaleFilter(targetWidth, targetHeight, options = {})] *)
Definition generateScaleFilter (targetWidth targetHeight options : value) : Result string :=
  let options := param_default options (VObj []) in
  maintainAspectRatio ← destructure options "maintainAspectRatio" (VBool true);
  force ← destructure options "force" (VBool false);
  algorithm ← destructure options "algorithm" (VStr "bicubic");
  if truthy maintainAspectRatio && negb (truthy force) then
    mret ("scale=" +:+ to_string targetWidth +:+ ":" +:+ to_string targetHeight
          +:+ ":force_original_aspect_ratio=decrease:flags=" +:+ to_string algorithm)
  else
    mret ("scale=" +:+ to_string targetWidth +:+ ":" +:+ to_string targetHeight
          +:+ ":flags=" +:+ to_string algorithm).

(** [filterChain.push(x)] *)
Definition push (chain : list value) (x : value) : list value := (chain ++ [x])%list.

(** [generateVideoFilters(filters)]: [filterChain] is threaded through the
    seven [if] statements in their textual order. *)
Definition generateVideoFilters (filters : value) : Result (list value) :=
  let filterChain : list value := [] in
  scale ← get filters "scale";
  filterChain ←
    (if truthy scale then
       width ← get scale "width";
       height ← get scale "height";
       options ← get scale "options";
       s ← generateScaleFilter width height options;
       mret (push filterChain (VStr s))
     else mret filterChain);
  fps ← get filters "fps";
  filterChain ←
    (if truthy fps then mret (push filterChain (VStr ("fps=" +:+ to_string fps)))
     else mret filterChain);
  deinterlace ← get filters "deinterlace";
  filterChain ←
    (if truthy deinterlace then mret (push filterChain (VStr "yadif"))
     else mret filterChain);
  denoise ← get filters "denoise";
  filterChain ←
    (if truthy denoise then
       strength ← get denoise "strength";
       mret (push filterChain
               (VStr ("hqdn3d=" +:+ to_string (or_else strength (VStr "default")))))
     else mret filterChain);
  crop ← get filters "crop";
  filterChain ←
    (if truthy crop then
       width ← destructure crop "width" VUndefined;
       height ← destructure crop "height" VUndefined;
       x ← destructure crop "x" (VNum 0);
       y ← destructure crop "y" (VNum 0);
       mret (push filterChain
               (VStr ("crop=" +:+ to_string width +:+ ":" +:+ to_string height
                      +:+ ":" +:+ to_string x +:+ ":" +:+ to_string y)))
     else mret filterChain);
  pad ← get filters "pad";
  filterChain ←
    (if truthy pad then
       width ← destructure pad "width" VUndefined;
       height ← destructure pad "height" VUndefined;
       x ← destructure pad "x" (VNum 0);
       y ← destructure pad "y" (VNum 0);
       color ← destructure pad "color" (VStr "black");
       mret (push filterChain
               (VStr ("pad=" +:+ to_string width +:+ ":" +:+ to_string height
                      +:+ ":" +:+ to_string x +:+ ":" +:+ to_string y
                      +:+ ":" +:+ to_string color)))
     else mret filterChain);
  custom ← get filters "custom";
  filterChain ←
    (if truthy custom then
       items ← iterate custom;
       mret (filterChain ++ items)%list
     else mret filterChain);
  mret (if (0 <? length filterChain)%nat
        then [VStr "-vf"; VStr (array_join "," filterChain)]
        else []).

(** [validateInput(input)] *)
Definition validateInput (input : value) : Result unit :=
  path ← get input "path";
  if negb (truthy path) then Throw (Error "Input path is required")
  else if negb (String.eqb (typeof path) "string")
  then Throw (Error "Input path must be a string")
  else mret tt.

(** [typeof v !== "number" || v <= 0] *)
Definition not_positive_number (v : value) : bool :=
  match v with
  | VNum n => n <=? 0
  | _ => true
  end.

(** [typeof v !== "number" || v < 0 || v > 51] *)
Definition not_crf_number (v : value) : bool :=
  match v with
  | VNum n => (n <? 0) || (51 <? n)
  | _ => true
  end.

(** [validateOutput(output)] *)
Definition validateOutput (output : value) : Result unit :=
  width ← get output "width";
  if truthy width && not_positive_number width
  then Throw (Error "Output width must be a positive number")
  else
  height ← get output "height";
  if truthy height && not_positive_number height
  then Throw (Error "Output height must be a positive number")
  else
  framerate ← get output "framerate";
  if truthy framerate && not_positive_number framerate
  then Throw (Error "Output framerate must be a positive number")
  else
  crf ← get output "crf";
  if truthy crf && not_crf_number crf
  then Throw (Error "CRF must be a number between 0 and 51")
  else mret tt.

(** [createTranscodingConfig(options)] *)
Definition createTranscodingConfig (options : value) : Result value :=
  input ← destructure options "input" VUndefined;
  quality ← destructure options "quality" (VStr "720p30av1");
  videoCodec ← destructure options "videoCodec" (VStr "av1");
  audioCodec ← destructure options "audioCodec" (VStr "aac");
  format ← destructure options "format" (VStr "mp4");
  filters ← destructure options "filters" (VObj []);
  advanced ← destructure options "advanced" (VObj []);
  validateInput input;;
  videoCodecConfig ← get_computed VIDEO_CODECS videoCodec;
  audioCodecConfig ← get_computed AUDIO_CODECS audioCodec;
  qualityConfig ← get_computed QUALITY_TO_PRESETS quality;
  if negb (truthy videoCodecConfig)
  then Throw (Error ("Unsupported video codec: " +:+ to_string videoCodec))
  else if negb (truthy audioCodecConfig)
  then Throw (Error ("Unsupported audio codec: " +:+ to_string audioCodec))
  else
  mutateFilters ←
    (if same_json filters (VObj []) then get qualityConfig "filters" else mret filters);
  mutateAdvanced ←
    (if same_json advanced (VObj []) then get qualityConfig "advanced" else mret advanced);
  out_videoCodec ← get videoCodecConfig "name";
  out_audioCodec ← get audioCodecConfig "name";
  out_crf ← or_lazy (get_opt qualityConfig "crf")
                    (d ← get videoCodecConfig "default"; get d "crf");
  out_preset ← or_lazy (get_opt qualityConfig "preset")
                       (d ← get videoCodecConfig "default"; get d "preset");
  out_width ← or_lazy (get_opt qualityConfig "width")
                      (d ← get videoCodecConfig "default"; get d "width");
  out_height ← or_lazy (get_opt qualityConfig "height")
                       (d ← get videoCodecConfig "default"; get d "height");
  out_audioBitrate ← or_lazy (get_opt qualityConfig "audioBitrate")
                             (d ← get audioCodecConfig "default"; get d "bitrate");
  let output :=
    spread_into
      [ ("videoCodec", out_videoCodec);
        ("audioCodec", out_audioCodec);
        ("format", format);
        ("crf", out_crf);
        ("preset", out_preset);
        ("width", out_width);
        ("height", out_height);
        ("audioBitrate", out_audioBitrate) ]
      mutateAdvanced in
  filterArgs ← generateVideoFilters mutateFilters;
  output ←
    (if (0 <? length filterArgs)%nat then
       additionalArgs ← get (VObj output) "additionalArgs";
       merged ← concat_array (or_else additionalArgs (VArr [])) filterArgs;
       mret (obj_set output "additionalArgs" merged)
     else mret output);
  validateOutput (VObj output);;
  mret (VObj [ ("input", input); ("output", VObj output) ]).

End FFmpegUtils.

(* ===================================================================== *)
(** ** The transcoding_jobs table (scripts/create-sqlite-db.sh) *)
(* ===================================================================== *)

Module DataAccess.
Import JS.

(** [job_state TEXT CHECK (job_state IN ('waiting', 'progressing',
    'completed', 'failed'))] *)
Inductive job_state : Type := waiting | progressing | completed | failed.

Definition state_text (s : job_state) : string :=
  match s with
  | waiting => "waiting"
  | progressing => "progressing"
  | completed => "completed"
  | failed => "failed"
  end.

#[global] Instance job_state_eq_dec : EqDecision job_state.
Proof. solve_decision. Defined.

(** One row. The key columns hold the values the statements bind;
    [callback_data] is NULL ([None]) or a JSON text. *)
Record job_row : Type := JobRow {
  job_id : string;
  job_state_of : job_state;
  input_s3_key : value;
  output_s3_key : value;
  target_quality : value;
  submit_ts : Z;
  callback_data : option json_text
}.

(** The columns an UPDATE statement of the controller may set. *)
Record update_data : Type := UpdateData {
  set_job_state : option job_state;
  set_callback_data : option (option json_text);
  set_output_s3_key : option value
}.

Definition apply_update (u : update_data) (r : job_row) : job_row :=
  JobRow (job_id r)
         (default (job_state_of r) (set_job_state u))
         (input_s3_key r)
         (default (output_s3_key r) (set_output_s3_key u))
         (target_quality r)
         (submit_ts r)
         (default (callback_data r) (set_callback_data u)).

(** Result objects of the data access layer: [{success, changes}] for
    statements, [{success, data}] for [readOne]. *)
Record write_result : Type := WriteResult { w_success : bool; w_changes : Z }.
Record read_result : Type := ReadResult { r_success : bool; r_data : option job_row }.

(** The database is connected and holds the table; a statement fails only
    when it violates a constraint of the table.

    [dataAccess.create("transcoding_jobs", row)]: the INSERT fails on a
    [job_id] already present (PRIMARY KEY). *)
Definition create (row : job_row) (t : gmap string job_row)
  : write_result * gmap string job_row :=
  match t !! job_id row with
  | Some _ => (WriteResult false 0, t)
  | None => (WriteResult true 1, <[job_id row := row]> t)
  end.

(** [dataAccess.readOne("transcoding_jobs", { job_id })] *)
Definition readOne (jobId : string) (t : gmap string job_row) : read_result :=
  ReadResult true (t !! jobId).

(** [dataAccess.update("transcoding_jobs", data, { job_id })]: an UPDATE that
    matches no row succeeds with zero changes. *)
Definition update (u : update_data) (jobId : string) (t : gmap string job_row)
  : write_result * gmap string job_row :=
  match t !! jobId with
  | Some r => (WriteResult true 1, <[jobId := apply_update u r]> t)
  | None => (WriteResult true 0, t)
  end.

End DataAccess.

(* ===================================================================== *)
(** ** src/controllers/videoController.js *)
(* ===================================================================== *)

Module VideoController.
Import JS DataAccess.

(** [res.status(code).json(body)] *)
Record response : Type := Response { status : Z; json : value }.

(** What a request handler reads from its surroundings: the clock, the
    random source and whether [spawn] throws. *)
Record environment : Type := Environment {
  Date_now : Z;
  Date_now_submit : Z;
  toISOString : string;
  random_base36 : string;
  spawn_throws : option js_error
}.

(** The state the controller acts on: the job table and the worker
    processes launched so far, each with its argument vector. *)
Record server : Type := Server {
  jobs : gmap string job_row;
  workers : list (list value)
}.

(** A handler step finishes normally, returns a response early, or throws. *)
Inductive completion (A : Type) : Type :=
| Next (a : A)
| Return (r : response)
| Raised (e : js_error).
Arguments Next {A} a.
Arguments Return {A} r.
Arguments Raised {A} e.

Definition handler (A : Type) : Type := server -> completion A * server.

#[global] Instance handler_ret : MRet handler := fun A a s => (Next a, s).
#[global] Instance handler_bind : MBind handler := fun A B k h s =>
  match h s with
  | (Next a, s') => k a s'
  | (Return r, s') => (Return r, s')
  | (Raised e, s') => (Raised e, s')
  end.

Definition respond {A} (code : Z) (body : list (string * value)) : handler A :=
  fun s => (Return (Response code (VObj body)), s).

Definition eval {A} (r : Result A) : handler A :=
  fun s => match r with
           | Ok a => (Next a, s)
           | Throw e => (Raised e, s)
           end.

Definition db_create (row : job_row) : handler write_result :=
  fun s => let '(w, t) := create row (jobs s) in (Next w, Server t (workers s)).

Definition db_readOne (jobId : string) : handler read_result :=
  fun s => (Next (readOne jobId (jobs s)), s).

Definition db_update (u : update_data) (jobId : string) : handler write_result :=
  fun s => let '(w, t) := update u jobId (jobs s) in (Next w, Server t (workers s)).

(** [spawn('node', [workerPath, ...workerArgs], ...)] *)
Definition spawn (env : environment) (workerArgs : list value) : handler unit :=
  fun s => match spawn_throws env with
           | Some e => (Raised e, s)
           | None => (Next tt, Server (jobs s) (workers s ++ [workerArgs]))
           end.

(** [try { body } catch (error) { handle(error) }] around a whole handler. *)
Definition try_catch (body : handler response) (handle : js_error -> response)
  : server -> response * server :=
  fun s => match body s with
           | (Next r, s') => (r, s')
           | (Return r, s') => (r, s')
           | (Raised e, s') => (handle e, s')
           end.

(** The row of a read that passed [if (!jobResult.success || !jobResult.data)
    return 404]. *)
Definition found (jobResult : read_result) : option job_row :=
  if negb (r_success jobResult) then None else r_data jobResult.

Definition termState : list job_state := [failed; completed].

(** [getJobStatus]: GET /jobs/:jobId *)
Definition getJobStatus (env : environment) (jobId : string)
  : server -> response * server :=
  try_catch
    (jobResult ← db_readOne jobId;
     match found jobResult with
     | None =>
         respond 404 [ ("error", VStr "Job not found");
                       ("message", VStr ("Job ID " +:+ jobId +:+ " does not exist"));
                       ("timestamp", VStr (toISOString env)) ]
     | Some job =>
         let response := [ ("jobId", VStr (job_id job));
                           ("state", VStr (state_text (job_state_of job))) ] in
         response ←
           (if bool_decide (job_state_of job ∈ termState) then
              let callbackData :=
                match callback_data job with
                | Some text => JSON_parse text
                | None => VNull
                end in
              if truthy callbackData then
                success ← eval (get callbackData "success");
                detail ← eval (get callbackData "detail");
                mret (obj_set response "callback"
                        (VObj [ ("success", success); ("detail", detail) ]))
              else mret response
            else mret response);
         mret (Response 200 (VObj response))
     end)
    (fun error =>
       Response 500 (VObj [ ("error", VStr "Database error");
                            ("message", VStr "Failed to retrieve job status");
                            ("timestamp", VStr (toISOString env)) ])).

(** The output key computed by [transcodeStart] from [path.parse(s3Key)]:
    [`${name}_${resolutionPreset}${ext}`], below [dir] when there is one. *)
Definition outputS3Key_of (s3Key : string) (resolutionPreset : value) : string :=
  let parsedPath := Path.parse s3Key in
  let nameWithoutExt := Path.name parsedPath in
  let dir := Path.dir parsedPath in
  let newFilename :=
    nameWithoutExt +:+ "_" +:+ to_string resolutionPreset +:+ Path.ext parsedPath in
  if truthy (VStr dir) then dir +:+ "/" +:+ newFilename else newFilename.

(** [`transcode_${Date.now()}_${Math.random().toString(36).substr(2, 9)}`] *)
Definition jobId_of (env : environment) : string :=
  "transcode_" +:+ string_of_Z (Date_now env) +:+ "_" +:+ random_base36 env.

(** [transcodeStart]: POST /transcode *)
Definition transcodeStart (env : environment) (req_body : value)
  : server -> response * server :=
  try_catch
    (s3Key ← eval (destructure req_body "s3Key" VUndefined);
     resolutionPreset ← eval (destructure req_body "resolutionPreset" VUndefined);
     if negb (truthy s3Key) then
       respond 400 [ ("error", VStr "Missing s3Key");
                     ("message", VStr "Please provide S3 object key");
                     ("timestamp", VStr (toISOString env)) ]
     else if negb (truthy resolutionPreset) then
       respond 400 [ ("error", VStr "Missing resolutionPreset");
                     ("message", VStr "Please provide target resolution preset");
                     ("timestamp", VStr (toISOString env)) ]
     else
     match s3Key with
     | VStr key =>
         if String.eqb (trim key) "" then
           respond 400 [ ("error", VStr "Invalid s3Key");
                         ("message", VStr "S3 key must be a non-empty string");
                         ("timestamp", VStr (toISOString env)) ]
         else
         preset ← eval (FFmpegUtils.get_computed FFmpegUtils.QUALITY_TO_PRESETS
                          resolutionPreset);
         if negb (truthy preset) then
           let available :=
             join ", " (Object_keys FFmpegUtils.QUALITY_TO_PRESETS_entries) in
           respond 400 [ ("error", VStr "Invalid resolution preset");
                         ("message", VStr ("Available presets: " +:+ available));
                         ("timestamp", VStr (toISOString env)) ]
         else
         let jobId := jobId_of env in
         let fileName := Path.basename key in
         let outputS3Key := outputS3Key_of key resolutionPreset in
         let jobData :=
           JobRow jobId waiting s3Key (VStr outputS3Key) resolutionPreset
                  (Date_now_submit env) None in
         createResult ← db_create jobData;
         if negb (w_success createResult) then
           respond 500 [ ("error", VStr "Database error");
                         ("message", VStr "Failed to create job record");
                         ("timestamp", VStr (toISOString env)) ]
         else
         let workerArgs :=
           [ VStr jobId; s3Key; VStr outputS3Key; resolutionPreset ] in
         spawn env workerArgs;;
         db_update (UpdateData (Some progressing) None None) jobId;;
         mret (Response 200 (VObj
           [ ("message", VStr "Transcode job started");
             ("method", VStr "POST");
             ("timestamp", VStr (toISOString env));
             ("jobId", VStr jobId);
             ("input", VObj [ ("s3Key", s3Key); ("fileName", VStr fileName) ]);
             ("targetPreset", resolutionPreset);
             ("status", VStr "progressing") ]))
     | _ =>
         respond 400 [ ("error", VStr "Invalid s3Key");
                       ("message", VStr "S3 key must be a non-empty string");
                       ("timestamp", VStr (toISOString env)) ]
     end)
    (fun error =>
       Response 500 (VObj [ ("error", VStr "Transcode job failed to start");
                            ("message", VStr (err_message error));
                            ("timestamp", VStr (toISOString env)) ])).

(** The listener [workerProcess.on('error', ...)] installed by
    [transcodeStart] for the job it started. *)
Definition workerProcess_on_error (jobId : string) (s : server) : server :=
  snd (db_update (UpdateData (Some failed) None None) jobId s).

(** [jobCallback]: POST /jobs/:jobId/callback *)
Definition jobCallback (env : environment) (jobId : string) (req_body : value)
  : server -> response * server :=
  try_catch
    (success ← eval (destructure req_body "success" VUndefined);
     detail ← eval (destructure req_body "detail" VUndefined);
     jobResult ← db_readOne jobId;
     match found jobResult with
     | None =>
         respond 404 [ ("success", VBool false);
                       ("message", VStr ("Job ID " +:+ jobId +:+ " does not exist"));
                       ("timestamp", VStr (toISOString env)) ]
     | Some _ =>
         let updateData :=
           UpdateData (Some (if truthy success then completed else failed))
                      (Some (JSON_stringify req_body))
                      None in
         have_key ← eval (and_lazy (and_lazy (Ok success) (Ok detail))
                                   (get detail "outputS3Key"));
         updateData ←
           (if truthy have_key then
              outputS3Key ← eval (get detail "outputS3Key");
              mret (UpdateData (set_job_state updateData)
                               (set_callback_data updateData)
                               (Some outputS3Key))
            else mret updateData);
         updateResult ← db_update updateData jobId;
         if negb (w_success updateResult) then
           respond 500 [ ("success", VBool false);
                         ("message", VStr "Failed to update job status");
                         ("timestamp", VStr (toISOString env)) ]
         else
         mret (Response 200 (VObj
           [ ("success", VBool true);
             ("message", VStr ("Job " +:+ jobId +:+ " status updated successfully"));
             ("timestamp", VStr (toISOString env)) ]))
     end)
    (fun error =>
       Response 500 (VObj [ ("success", VBool false);
                            ("message", VStr "Database error during callback processing");
                            ("timestamp", VStr (toISOString env)) ])).

End VideoController.

(* ===================================================================== *)
(** ** src/workers/video-transcode-worker.js *)
(* ===================================================================== *)

Module Worker.
Import JS.

(** What a worker run does to the outside: requests to the Blob Store, runs
    of the probe and of the Transcoding Engine, deletions of local files and
    the POST to the Orchestrator's callback route. *)
Inductive event : Type :=
| S3GetObject (key : string)
| S3PutObject (key : string) (metadata : value)
| FFprobe (path : string)
| FFmpeg (input : string) (output : value)
| Unlink (path : string)
| HttpCallback (jobId : string) (result : value).

(** The bucket and the local temp directory (object key or file path to
    content), and the trace of events so far, oldest first. *)
Record world : Type := World {
  bucket : gmap string string;
  files : gmap string string;
  trace : list event
}.

(** What a run reads from its surroundings. [ffprobe] and [ffmpeg] are the
    external tools: given the content of the staged file (if it exists) they
    fail or produce the metadata, respectively the encoded output. *)
Record environment : Type := Environment {
  tempDir : string;
  bucketName : string;
  now_input : Z;
  now_output : Z;
  now_cleanup_input : Z;
  now_cleanup_output : Z;
  jobDuration : string;
  jobDuration_on_error : string;
  processedTimestamp : string;
  library_frames : string;
  ffprobe : option string -> Result value;
  ffmpeg : option string -> value -> Result string
}.

Definition task (A : Type) : Type := world -> Result A * world.

#[global] Instance task_ret : MRet task := fun A a w => (Ok a, w).
#[global] Instance task_bind : MBind task := fun A B k t w =>
  match t w with
  | (Ok a, w') => k a w'
  | (Throw e, w') => (Throw e, w')
  end.

Definition throw {A} (e : js_error) : task A := fun w => (Throw e, w).
Definition eval {A} (r : Result A) : task A := fun w => (r, w).
Definition emit (e : event) : task unit :=
  fun w => (Ok tt, World (bucket w) (files w) (trace w ++ [e])).
Definition existsSync (path : string) : task bool :=
  fun w => (Ok (bool_decide (is_Some (files w !! path))), w).
Definition readFile (path : string) : task (option string) :=
  fun w => (Ok (files w !! path), w).
Definition writeFile (path content : string) : task unit :=
  fun w => (Ok tt, World (bucket w) (<[path := content]> (files w)) (trace w)).
Definition removeFile (path : string) : task unit :=
  fun w => (Ok tt, World (bucket w) (delete path (files w)) (trace w)).
Definition unlinkSync (path : string) : task unit :=
  emit (Unlink path);;
  removeFile path.
Definition getObject (key : string) : task (option string) :=
  fun w => (Ok (bucket w !! key), w).
Definition putObject (key content : string) : task unit :=
  fun w => (Ok tt, World (<[key := content]> (bucket w)) (files w) (trace w)).

(** [if (b) { t }] *)
Definition when (b : bool) (t : task unit) : task unit :=
  if b then t else mret tt.

(** [try { body } catch (error) { handler(error) }] *)
Definition try_catch {A} (body : task A) (handler : js_error -> task A) : task A :=
  fun w => match body w with
           | (Ok a, w') => (Ok a, w')
           | (Throw e, w') => handler e w'
           end.

(** The error the S3 client raises for a key that is not in the bucket. *)
Definition NoSuchKey (env : environment) : js_error :=
  JsError "NoSuchKey" "The specified key does not exist." (library_frames env).

Definition ENOENT (env : environment) (path : string) : js_error :=
  JsError "Error" ("ENOENT: no such file or directory, open '" +:+ path +:+ "'")
          (library_frames env).

(** [path.join(tempDir, name)] for a [name] without separators. *)
Definition in_tempDir (env : environment) (name : string) : string :=
  tempDir env +:+ "/" +:+ name.

(** [s3Service.downloadFile(key, downloadPath)] *)
Definition downloadFile (env : environment) (key downloadPath : string) : task value :=
  emit (S3GetObject key);;
  object ← getObject key;
  match object with
  | None => throw (NoSuchKey env)
  | Some body =>
      writeFile downloadPath body;;
      mret (VObj [ ("success", VBool true);
                   ("key", VStr key);
                   ("downloadPath", VStr downloadPath);
                   ("contentLength", VNum (Z.of_nat (String.length body))) ])
  end.

(** [s3Service.uploadFile(filePath, key, metadata)] *)
Definition uploadFile (env : environment) (filePath key : string) (metadata : value)
  : task value :=
  fileBuffer ← readFile filePath;
  match fileBuffer with
  | None => throw (ENOENT env filePath)
  | Some content =>
      emit (S3PutObject key metadata);;
      putObject key content;;
      mret (VObj [ ("success", VBool true);
                   ("key", VStr key);
                   ("location", VStr ("s3://" +:+ bucketName env +:+ "/" +:+ key)) ])
  end.

(** [callJobCallback(jobId, result)]: the POST is sent; whatever the
    response or the failure, the function returns normally. *)
Definition callJobCallback (jobId : string) (result : value) : task unit :=
  emit (HttpCallback jobId result).

(** [transcoder.getVideoMetadata(inputPath)] *)
Definition getVideoMetadata (env : environment) (inputPath : string) : task value :=
  present ← existsSync inputPath;
  if negb present then throw (Error ("Input file does not exist: " +:+ inputPath))
  else
    emit (FFprobe inputPath);;
    content ← readFile inputPath;
    match ffprobe env content with
    | Ok metadata => mret metadata
    | Throw error => throw (Error ("ffprobe failed: " +:+ err_message error))
    end.

(** [transcoder.executeFFmpeg(command, outputPath, progressCallback)]: the
    command built by [createFluentFFmpegIns(input, output)] is run. *)
Definition executeFFmpeg (env : environment) (inputPath : string) (output : value)
    (outputPath : string) : task value :=
  emit (FFmpeg inputPath output);;
  content ← readFile inputPath;
  match ffmpeg env content output with
  | Ok encoded =>
      writeFile outputPath encoded;;
      mret (VObj [ ("success", VBool true);
                   ("code", VNum 0);
                   ("output", VStr "Transcoding completed successfully") ])
  | Throw error => throw (Error ("FFmpeg failed: " +:+ err_message error))
  end.

(** [transcoder.transcodeVideo(input, output, progressCallback)] with
    [output.path] given: failures of the engine come back as
    [{ success: false, error }]. *)
Definition transcodeVideo (env : environment) (input output : value)
    (outputPath : string) : task value :=
  try_catch
    (path ← eval (get input "path");
     when (negb (truthy path)) (throw (Error "Input path is required"));;
     result ← executeFFmpeg env (to_string path) output outputPath;
     present ← existsSync outputPath;
     size ← readFile outputPath;
     mret (VObj [ ("success", VBool true);
                  ("input", VObj [ ("path", path) ]);
                  ("output", VObj [ ("path", VStr outputPath);
                                    ("size", VNum (Z.of_nat (String.length (default "" size))));
                                    ("exists", VBool present) ]);
                  ("metric", VObj [ ("command", VUndefined); ("result", result) ]) ]))
    (fun error =>
       mret (VObj [ ("success", VBool false);
                    ("error", VStr (err_message error));
                    ("input", input);
                    ("output", output) ])).

(** [{ success, detail: { inputS3Key, outputS3Key, quality, jobId,
    jobDuration, command, errorStack } }] *)
Definition job_result (success : bool)
    (jobId s3Key outputS3Key resolutionPreset jobDuration : string) (command : value)
    (errorStack : string) : value :=
  VObj [ ("success", VBool success);
         ("detail", VObj [ ("inputS3Key", VStr s3Key);
                           ("outputS3Key", VStr outputS3Key);
                           ("quality", VStr resolutionPreset);
                           ("jobId", VStr jobId);
                           ("jobDuration", VStr (jobDuration +:+ " ms"));
                           ("command", command);
                           ("errorStack", VStr errorStack) ]) ].

(** [processVideoFile(jobId, s3Key, outputS3Key, resolutionPreset)], from
    its [try] on: the temp directory exists and the S3 client is built. *)
Definition processVideoFile (env : environment)
    (jobId s3Key outputS3Key resolutionPreset : string) : task value :=
  try_catch
    (let originalFilename := Path.basename s3Key in
     let tempInputPath :=
       in_tempDir env ("input_" +:+ string_of_Z (now_input env) +:+ "_" +:+ originalFilename) in
     let tempOutputPath :=
       in_tempDir env ("output_" +:+ string_of_Z (now_output env) +:+ "_" +:+ originalFilename) in
     downloadResult ← downloadFile env s3Key tempInputPath;
     transcodingConfig ←
       eval (FFmpegUtils.createTranscodingConfig
               (VObj [ ("input", VObj [ ("path", VStr tempInputPath) ]);
                       ("quality", VStr resolutionPreset) ]));
     config_input ← eval (get transcodingConfig "input");
     config_output ← eval (get transcodingConfig "output");
     input_path ← eval (get config_input "path");
     metadata ← getVideoMetadata env (to_string input_path);
     transcodingResult ←
       transcodeVideo env config_input
         (VObj (spread_into (own_enumerable config_output) (VObj [ ("path", VStr tempOutputPath) ])))
         tempOutputPath;
     transcoded ← eval (get transcodingResult "success");
     when (negb (truthy transcoded))
       (error ← eval (get transcodingResult "error");
        throw (Error ("Transcoding failed: " +:+ to_string error)));;
     let newS3Key := outputS3Key in
     let newMetadata :=
       VObj [ ("original-s3-key", VStr s3Key);
              ("resolution-preset", VStr resolutionPreset);
              ("processed-timestamp", VStr (processedTimestamp env));
              ("worker", VStr "video-transcode-worker") ] in
     uploadResult ← uploadFile env tempOutputPath newS3Key newMetadata;
     staged ← existsSync tempInputPath;
     when staged (unlinkSync tempInputPath);;
     produced ← existsSync tempOutputPath;
     when produced (unlinkSync tempOutputPath);;
     metric ← eval (get_opt transcodingResult "metric");
     command ← eval (get_opt metric "command");
     let result :=
       job_result true jobId s3Key outputS3Key resolutionPreset (jobDuration env)
                  (or_else command (VStr "transcoding command")) "" in
     callJobCallback jobId result;;
     mret result)
    (fun error =>
       let tempInputPath :=
         in_tempDir env ("input_" +:+ string_of_Z (now_cleanup_input env) +:+ "_"
                         +:+ Path.basename s3Key) in
       let tempOutputPath :=
         in_tempDir env ("output_" +:+ string_of_Z (now_cleanup_output env) +:+ "_"
                         +:+ Path.basename s3Key) in
       staged ← existsSync tempInputPath;
       when staged (unlinkSync tempInputPath);;
       produced ← existsSync tempOutputPath;
       when produced (unlinkSync tempOutputPath);;
       let errorResult :=
         job_result false jobId s3Key outputS3Key resolutionPreset
                    (jobDuration_on_error env)
                    (VStr "transcoding error command") (error_stack error) in
       callJobCallback jobId errorResult;;
       throw error).

(** [validateS3Key(s3Key)] on a command-line argument *)
Definition validateS3Key (s3Key : string) : Result unit :=
  if negb (truthy (VStr s3Key))
  then Throw (Error "Invalid S3 key: must be a non-empty string")
  else if String.eqb (trim s3Key) ""
  then Throw (Error "Invalid S3 key: cannot be empty")
  else Ok tt.

(** [validateResolutionPreset(preset)] *)
Definition validateResolutionPreset (preset : string) : Result unit :=
  found ← get FFmpegUtils.QUALITY_TO_PRESETS preset;
  if negb (truthy found) then
    Throw (Error ("Invalid resolution preset: " +:+ preset +:+ ". Available: "
                  +:+ join ", " (Object_keys FFmpegUtils.QUALITY_TO_PRESETS_entries)))
  else Ok tt.

(** [main()] on [process.argv.slice(2)]: the exit code of the process. *)
Definition main (env : environment) (args : list string) : world -> Z * world :=
  fun w =>
    match args with
    | jobId :: s3Key :: outputS3Key :: resolutionPreset :: _ =>
        match validateS3Key s3Key ≫= (fun _ => validateResolutionPreset resolutionPreset) with
        | Throw _ => (1, w)
        | Ok _ =>
            match processVideoFile env jobId s3Key outputS3Key resolutionPreset w with
            | (Ok _, w') => (0, w')
            | (Throw _, w') => (1, w')
            end
        end
    | _ => (1, w)
    end.

End Worker.

(* ===================================================================== *)
(** ** src/data-access/data-access.js: QueryBuilder *)
(* ===================================================================== *)

Module QueryBuilder.
Import JS.

(** [{ where, params }] and [{ query, params }] *)
Record where_clause : Type := WhereClause { where_ : string; where_params : list value }.
Record statement : Type := Statement { query : string; params : list value }.

(** [Object.keys(o)], [Object.values(o)] and [Object.entries(o)] list the
    own enumerable properties; [undefined] and [null] cannot be converted
    to an object. *)
Definition Object_entries (o : value) : Result (list (string * value)) :=
  match o with
  | VUndefined | VNull => Throw (TypeError "Cannot convert undefined or null to object")
  | _ => Ok (own_enumerable o)
  end.

Definition Object_keys (o : value) : Result (list string) :=
  entries ← Object_entries o;
  mret (map fst entries).

Definition Object_values (o : value) : Result (list value) :=
  entries ← Object_entries o;
  mret (map snd entries).


(** [xs.forEach(f)] where [f] updates the local variables [s]. *)
Fixpoint forEach {A S} (f : S -> A -> Result S) (xs : list A) (s : S) : Result S :=
  match xs with
  | [] => Ok s
  | x :: rest => s' ← f s x; forEach f rest s'
  end.

(** The callback of the [forEach] in [buildWhereClause], on the local
    arrays [(whereParts, params)]. *)
Definition where_entry (acc : list string * list value) (entry : string * value)
  : Result (list string * list value) :=
  let '(whereParts, params) := acc in
  let '(key, value) := entry in
  match value with
  | VNull => Ok ((whereParts ++ [key +:+ " IS NULL"])%list, params)
  | VUndefined => Ok (whereParts, params)
  | _ =>
      operator ← and_lazy (Ok (VBool (String.eqb (typeof value) "object")))
                          (get value "operator");
      if truthy operator then
        bound ← get value "value";
        Ok ((whereParts ++ [key +:+ " " +:+ to_string operator +:+ " ?"])%list,
            (params ++ [bound])%list)
      else
        Ok ((whereParts ++ [key +:+ " = ?"])%list, (params ++ [value])%list)
  end.

(** [QueryBuilder.buildWhereClause(conditions)] *)
Definition buildWhereClause (conditions : value) : Result where_clause :=
  if negb (truthy conditions) then Ok (WhereClause "" [])
  else
    keys ← Object_keys conditions;
    if (length keys =? 0)%nat then Ok (WhereClause "" [])
    else
      entries ← Object_entries conditions;
      '(whereParts, params) ← forEach where_entry entries ([], []);
      Ok (WhereClause
            (if (0 <? length whereParts)%nat
             then "WHERE " +:+ join " AND " whereParts
             else "")
            params).


(** [QueryBuilder.buildUpdateQuery(table, data, conditions)] *)
Definition buildUpdateQuery (table : string) (data conditions : value) : Result statement :=
  keys ← Object_keys data;
  let setParts := map (fun key => key +:+ " = ?") keys in
  setValues ← Object_values data;
  clause ← buildWhereClause conditions;
  Ok (Statement
        ("UPDATE " +:+ table +:+ " SET " +:+ join ", " setParts +:+ " " +:+ where_ clause)
        (setValues ++ where_params clause)%list).

(** [QueryBuilder.buildDeleteQuery(table, conditions)] *)
Definition buildDeleteQuery (table : string) (conditions : value) : Result statement :=
  clause ← buildWhereClause conditions;
  if negb (truthy (VStr (where_ clause)))
  then Throw (Error "DELETE queries must include WHERE conditions for safety")
  else Ok (Statement ("DELETE FROM " +:+ table +:+ " " +:+ where_ clause)
                     (where_params clause)).

End QueryBuilder.

(* ===================================================================== *)
(** ** src/data-access/sqlite-data-access.js: the statements it issues *)
(* ===================================================================== *)

Module SQLiteDataAccess.
Import JS QueryBuilder.

(** What [sqliteService.executeQuery(query, params)] resolves to: the driver
    ran the statement ([{ success: true, lastID, changes }]) or it failed
    ([{ success: false, error }] with the driver's message). *)
Inductive outcome : Type :=
| Ran (lastID changes : value)
| Refused (error : string).

(** The SQLite service: the statements handed to it so far, oldest first,
    and the driver, whose answer to a statement may depend on all the
    statements before it. *)
Record service : Type := Service {
  driver : list statement -> statement -> outcome;
  issued : list statement
}.

Definition executeQuery (st : statement) (db : service) : outcome * service :=
  (driver db (issued db) st, Service (driver db) (issued db ++ [st])%list).

(** [{ success: result.success, changes: result.changes || 0,
       error: result.error }] *)
Definition changes_result (result : outcome) : value :=
  match result with
  | Ran _ changes =>
      VObj [ ("success", VBool true);
             ("changes", or_else changes (VNum 0));
             ("error", VUndefined) ]
  | Refused error =>
      VObj [ ("success", VBool false);
             ("changes", or_else VUndefined (VNum 0));
             ("error", VStr error) ]
  end.

(** The object returned from the [catch] of [update] and [delete]. *)
Definition failed_result (error : js_error) : value :=
  VObj [ ("success", VBool false);
         ("changes", VNum 0);
         ("error", VStr (err_message error)) ].

(** [update(table, data, conditions = {})] *)
Definition update (table : string) (data conditions : value) (db : service)
  : value * service :=
  let conditions := param_default conditions (VObj []) in
  match (keys ← Object_keys conditions;
         if (length keys =? 0)%nat
         then Throw (Error "Update operations must include WHERE conditions for safety")
         else buildUpdateQuery table data conditions) with
  | Ok st =>
      let '(result, db') := executeQuery st db in
      (changes_result result, db')
  | Throw error => (failed_result error, db)
  end.

(** [delete(table, conditions = {})] *)
Definition delete (table : string) (conditions : value) (db : service)
  : value * service :=
  let conditions := param_default conditions (VObj []) in
  match buildDeleteQuery table conditions with
  | Ok st =>
      let '(result, db') := executeQuery st db in
      (changes_result result, db')
  | Throw error => (failed_result error, db)
  end.

End SQLiteDataAccess.

(* ===================================================================== *)
(** ** src/utils/ffmpeg-utils.js: createFluentFFmpegIns *)
(* ===================================================================== *)

Module FluentCommand.
Import JS.

(** [x === '-vf'] *)
Definition is_vf (x : value) : bool :=
  match x with
  | VStr s => String.eqb s "-vf"
  | _ => false
  end.

(** The first loop of [createFluentFFmpegIns] over the array
    [output.additionalArgs]: at an element [-vf] that is not the last one,
    the next element goes to [videoFilterArgs] and the index skips it. *)
Fixpoint videoFilterArgs (additionalArgs : list value) : list value :=
  match additionalArgs with
  | [] => []
  | x :: rest =>
      match rest with
      | next :: rest' =>
          if is_vf x then next :: videoFilterArgs rest' else videoFilterArgs rest
      | [] => []
      end
  end.

(** The second loop: [-vf] and the element after it are skipped, every
    other element goes to [remainingArgs]. *)
Fixpoint remainingArgs (additionalArgs : list value) : list value :=
  match additionalArgs with
  | [] => []
  | x :: rest =>
      match rest with
      | next :: rest' =>
          if is_vf x then remainingArgs rest' else x :: remainingArgs rest
      | [] => [x]
      end
  end.

End FluentCommand.

(* ===================================================================== *)
(** ** src/workers/video-transcode-worker.js: VideoTranscoder *)
(* ===================================================================== *)

Module VideoTranscoder.
Import JS Worker.

(** [cleanup(filePaths)] *)
Fixpoint cleanup (filePaths : list string) : task unit :=
  match filePaths with
  | [] => mret tt
  | filePath :: rest =>
      try_catch
        (present ← existsSync filePath;
         when present (unlinkSync filePath))
        (fun error => mret tt);;
      cleanup rest
  end.

End VideoTranscoder.

(* ===================================================================== *)
(** ** Vocabulary of the properties *)
(* ===================================================================== *)

Module Notions.
Import JS DataAccess VideoController.

(** The columns written by a callback with body [req_body], whose
    destructuring gave [success] and [detail]. *)
Definition callback_columns (req_body success detail : value) : update_data :=
  UpdateData
    (Some (if truthy success then completed else failed))
    (Some (JSON_stringify req_body))
    (if truthy success && truthy detail
     then match get detail "outputS3Key" with
          | Ok key => if truthy key then Some key else None
          | Throw _ => None
          end
     else None).

(** The [success] and [detail] of an object body. *)
Definition field (props : list (string * value)) (k : string) : value :=
  default VUndefined (assoc k props).

(** The row and the worker arguments of an accepted submission. *)
Definition started_row (env : environment) (key : string) (preset : value) : job_row :=
  JobRow (jobId_of env) progressing (VStr key) (VStr (outputS3Key_of key preset)) preset
         (Date_now_submit env) None.

Definition started_args (env : environment) (key : string) (preset : value) : list value :=
  [ VStr (jobId_of env); VStr key; VStr (outputS3Key_of key preset); preset ].

Definition started_response (env : environment) (key : string) (preset : value) : response :=
  Response 200 (VObj
    [ ("message", VStr "Transcode job started");
      ("method", VStr "POST");
      ("timestamp", VStr (toISOString env));
      ("jobId", VStr (jobId_of env));
      ("input", VObj [ ("s3Key", VStr key); ("fileName", VStr (Path.basename key)) ]);
      ("targetPreset", preset);
      ("status", VStr "progressing") ]).

(** The checks [transcodeStart] makes before it creates the job. *)
Definition passes_validation (body : value) (key : string) (preset : value) : Prop :=
  destructure body "s3Key" VUndefined = Ok (VStr key) /\
  destructure body "resolutionPreset" VUndefined = Ok preset /\
  truthy (VStr key) = true /\
  truthy preset = true /\
  String.eqb (trim key) "" = false /\
  exists found, FFmpegUtils.get_computed FFmpegUtils.QUALITY_TO_PRESETS preset = Ok found
                /\ truthy found = true.

(** A valid submission: an object whose [s3Key] is a string that is not
    blank and whose [resolutionPreset] names an entry of the preset table. *)
Definition valid_submission (body : value) (key name : string) : Prop :=
  exists props,
    body = VObj props /\
    assoc "s3Key" props = Some (VStr key) /\
    assoc "resolutionPreset" props = Some (VStr name) /\
    trim key <> "" /\
    In name (Object_keys FFmpegUtils.QUALITY_TO_PRESETS_entries).

(** The body of a successful status response for a stored row: [jobId] and
    [state], and [callback] when the state is terminal and the row holds a
    (truthy) callback payload. *)
Definition status_body (row : job_row) : list (string * value) :=
  let base := [ ("jobId", VStr (job_id row));
                ("state", VStr (state_text (job_state_of row))) ] in
  if bool_decide (job_state_of row ∈ termState) then
    match callback_data row with
    | Some text =>
        if truthy (JSON_parse text) then
          base ++ [ ("callback",
                     VObj [ ("success", default VUndefined
                                          (match get (JSON_parse text) "success" with
                                           | Ok v => Some v | Throw _ => None end));
                            ("detail", default VUndefined
                                         (match get (JSON_parse text) "detail" with
                                          | Ok v => Some v | Throw _ => None end)) ]) ]
        else base
    | None => base
    end
  else base.

(** What can happen to the server after a submission: further submissions,
    status queries, callbacks, and the launch-error listener of a job. *)
Inductive request : Type :=
| Submit (env : environment) (body : value)
| Status (env : environment) (jobId : string)
| Callback (env : environment) (jobId : string) (body : value)
| WorkerError (jobId : string).

Definition after (r : request) (s : server) : server :=
  match r with
  | Submit env body => (transcodeStart env body s).2
  | Status env jobId => (getJobStatus env jobId s).2
  | Callback env jobId body => (jobCallback env jobId body s).2
  | WorkerError jobId => workerProcess_on_error jobId s
  end.

Definition after_all (rs : list request) (s : server) : server :=
  fold_left (fun s r => after r s) rs s.

(** A task only adds events that satisfy [P] to the trace. *)
Definition emits_only (P : Worker.event -> Prop) {A} (t : Worker.task A) : Prop :=
  forall w, exists evs,
    Worker.trace (t w).2 = (Worker.trace w ++ evs)%list /\ Forall P evs.

(** A callback POST is for [jobId] and echoes [outputS3Key] in its detail. *)
Definition reports_for (jobId outputS3Key : string) (e : Worker.event) : Prop :=
  match e with
  | Worker.HttpCallback j result =>
      j = jobId /\
      exists props detail,
        result = VObj props /\
        get result "detail" = Ok detail /\
        get detail "outputS3Key" = Ok (VStr outputS3Key)
  | _ => True
  end.






(** The options object of the Configuration Resolver; a field that is
    [undefined] is one the caller left out. *)
Definition options_of (input quality videoCodec audioCodec format filters advanced : value)
  : value :=
  VObj [ ("input", input); ("quality", quality); ("videoCodec", videoCodec);
         ("audioCodec", audioCodec); ("format", format);
         ("filters", filters); ("advanced", advanced) ].





(** A name that a table lookup cannot find: neither the table's own key
    nor a member of [Object.prototype]. *)
Definition unknown_name (own : list string) (name : string) : Prop :=
  ~ In name own /\ ~ In name (Object_keys Object_prototype).


End Notions.

(* ===================================================================== *)
(** ** Concrete inputs for the examples *)
(* ===================================================================== *)

Module Samples.
Import JS DataAccess VideoController Notions.

Definition env : environment :=
  Environment 1754662151353 1754662151360 "2025-08-08T14:09:11.353Z" "eb8ys53uz" None.

Definition later : environment :=
  Environment 1754662158000 1754662158001 "2025-08-08T14:09:18.000Z" "k3x9q0a7b" None.

Definition jobId : string := "transcode_1754662151353_eb8ys53uz".

Definition empty_server : server := Server ∅ [].

Definition submission (s3Key resolutionPreset : string) : value :=
  VObj [ ("s3Key", VStr s3Key); ("resolutionPreset", VStr resolutionPreset) ].

(** The server right after [uploads/video.mp4] was submitted for 720p30av1. *)
Definition started : server :=
  (transcodeStart env (submission "uploads/video.mp4" "720p30av1") empty_server).2.

Definition success_payload (outputS3Key : string) : list (string * value) :=
  [ ("success", VBool true);
    ("detail", VObj [ ("inputS3Key", VStr "uploads/video.mp4");
                      ("outputS3Key", VStr outputS3Key);
                      ("quality", VStr "720p30av1");
                      ("jobId", VStr jobId);
                      ("jobDuration", VStr "5321.07 ms");
                      ("command", VStr "transcoding command");
                      ("errorStack", VStr "") ]) ].

Definition failure_payload : list (string * value) :=
  [ ("success", VBool false);
    ("detail", VObj [ ("inputS3Key", VStr "uploads/video.mp4");
                      ("outputS3Key", VStr "uploads/video_720p30av1.mp4");
                      ("quality", VStr "720p30av1");
                      ("jobId", VStr jobId);
                      ("jobDuration", VStr "12.50 ms");
                      ("command", VStr "transcoding error command");
                      ("errorStack", VStr "NoSuchKey: The specified key does not exist.") ]) ].



(** Resolver options: a staged input, a preset and overrides. *)
Definition resolver_options (quality : string) (filters advanced : value) : value :=
  options_of (VObj [ ("path", VStr "/srv/temp/input_100_video.mp4") ]) (VStr quality)
             VUndefined VUndefined VUndefined filters advanced.



(** A worker run: the tools succeed, the bucket holds one video. *)
Definition worker_env : Worker.environment :=
  Worker.Environment "/srv/temp" "test-bucket" 100 101 200 201 "5321.07" "12.50"
    "2025-08-08T14:09:16.700Z"
    (String (ascii_of_nat 10) "    at S3Client.send")
    (fun _ => Ok (VObj [ ("duration", VNum 10) ]))
    (fun content _ => match content with
                      | Some raw => Ok ("av1:" +:+ raw)
                      | None => Throw (Error "No such file or directory")
                      end).

Definition world : Worker.world :=
  Worker.World {[ "uploads/video.mp4" := "RAW" ]} ∅ [].

End Samples.

(* ===================================================================== *)
(** ** Vocabulary of the worker runs and of the whole pipeline *)
(* ===================================================================== *)

Module Runs.
Import JS Worker.

(** The two local files of a run: the staged input and the encoder's
    output, named with the clock readings taken at the start of the run. *)
Definition staged_input (env : environment) (s3Key : string) : string :=
  in_tempDir env ("input_" +:+ string_of_Z (now_input env) +:+ "_" +:+ Path.basename s3Key).

Definition staged_output (env : environment) (s3Key : string) : string :=
  in_tempDir env ("output_" +:+ string_of_Z (now_output env) +:+ "_" +:+ Path.basename s3Key).

(** The two paths the [catch] block computes, with its own clock readings. *)
Definition cleanup_input (env : environment) (s3Key : string) : string :=
  in_tempDir env ("input_" +:+ string_of_Z (now_cleanup_input env) +:+ "_"
                  +:+ Path.basename s3Key).

Definition cleanup_output (env : environment) (s3Key : string) : string :=
  in_tempDir env ("output_" +:+ string_of_Z (now_cleanup_output env) +:+ "_"
                  +:+ Path.basename s3Key).

(** The object metadata of an upload. *)
Definition upload_metadata (env : environment) (s3Key resolutionPreset : string) : value :=
  VObj [ ("original-s3-key", VStr s3Key);
         ("resolution-preset", VStr resolutionPreset);
         ("processed-timestamp", VStr (processedTimestamp env));
         ("worker", VStr "video-transcode-worker") ].

(** The results posted to the callback route. *)
Definition success_result (env : environment)
    (jobId s3Key outputS3Key resolutionPreset : string) : value :=
  job_result true jobId s3Key outputS3Key resolutionPreset (jobDuration env)
             (VStr "transcoding command") "".

Definition failure_result (env : environment)
    (jobId s3Key outputS3Key resolutionPreset : string) (error : js_error) : value :=
  job_result false jobId s3Key outputS3Key resolutionPreset (jobDuration_on_error env)
             (VStr "transcoding error command") (error_stack error).

(** The [catch] block of [processVideoFile]. *)
Definition on_failure (env : environment)
    (jobId s3Key outputS3Key resolutionPreset : string) (error : js_error) : task value :=
  staged ← existsSync (cleanup_input env s3Key);
  when staged (unlinkSync (cleanup_input env s3Key));;
  produced ← existsSync (cleanup_output env s3Key);
  when produced (unlinkSync (cleanup_output env s3Key));;
  callJobCallback jobId (failure_result env jobId s3Key outputS3Key resolutionPreset error);;
  throw error.

(** The deletions of the [catch] block in a state with the local files
    [files w]. *)
Definition cleanup_events (env : environment) (s3Key : string) (w : world) : list event :=
  ((if bool_decide (is_Some (files w !! cleanup_input env s3Key))
    then [Unlink (cleanup_input env s3Key)] else [])
   ++ (if bool_decide (is_Some (files w !! cleanup_output env s3Key))
       then [Unlink (cleanup_output env s3Key)] else []))%list.

(** The configuration handed to the engine: the resolved output and the
    path of the local output file. *)
Definition engine_config (env : environment) (s3Key : string)
    (output : list (string * value)) : value :=
  VObj (spread_into output (VObj [ ("path", VStr (staged_output env s3Key)) ])).

Definition is_callback (e : event) : bool :=
  match e with HttpCallback _ _ => true | _ => false end.

Definition returned {A} (r : Result A) : bool :=
  match r with Ok _ => true | Throw _ => false end.

(** Every state a task can leave is related to the state it started in. *)
Definition within (R : world -> world -> Prop) {A} (t : task A) : Prop :=
  forall w, R w (t w).2.

(** The bucket differs at most at [key], and no object is removed. *)
Definition bucket_frame (key : string) (w w' : world) : Prop :=
  forall k, (k <> key -> bucket w' !! k = bucket w !! k)
            /\ (is_Some (bucket w !! k) -> is_Some (bucket w' !! k)).

(** The local files differ at most at the listed paths. *)
Definition files_frame (paths : list string) (w w' : world) : Prop :=
  forall p, ~ In p paths -> files w' !! p = files w !! p.

(** What a run may change: the object under its output key and its four
    local files. *)
Definition own_paths (env : environment) (s3Key : string) : list string :=
  [ staged_input env s3Key; staged_output env s3Key;
    cleanup_input env s3Key; cleanup_output env s3Key ].

Definition touches_own (env : environment) (s3Key outputS3Key : string)
    (w w' : world) : Prop :=
  bucket_frame outputS3Key w w' /\ files_frame (own_paths env s3Key) w w'.

(** A file name without a path separator. *)
Fixpoint no_separator (name : string) : bool :=
  match name with
  | EmptyString => true
  | String c rest => negb (Ascii.eqb c Path.CHAR_FORWARD_SLASH) && no_separator rest
  end.

(** A task that returns has posted its last event, which satisfies [Q];
    before it, and when the task throws, only events satisfying [P]. *)
Definition ends_with (P Q : event -> Prop) {A} (t : task A) : Prop :=
  forall w, exists evs,
    trace (t w).2 = (trace w ++ evs)%list /\
    match (t w).1 with
    | Ok _ => exists evs' e, evs = (evs' ++ [e])%list /\ Forall P evs' /\ Q e
    | Throw _ => Forall P evs
    end.

End Runs.

Module Pipeline.
Import JS DataAccess VideoController.

(** [process.argv.slice(2)] of the process started by
    [spawn('node', [workerPath, ...workerArgs])]: the arguments as strings. *)
Definition argv (workerArgs : list value) : list string := map to_string workerArgs.

(** The body the callback route parses from the [JSON.stringify(result)]
    that [callJobCallback] posts. *)
Definition posted_body (result : value) : option value :=
  JSON_parse <$> JSON_stringify result.

(** A callback POST of a worker reaches [jobCallback] with the worker's job
    id as [:jobId] (job ids are made of letters, digits and underscores) and
    the parsed body; the other events of a run do not reach the server. *)
Definition deliver (env : environment) (e : Worker.event) (s : server) : server :=
  match e with
  | Worker.HttpCallback jobId result =>
      match posted_body result with
      | Some body => (jobCallback env jobId body s).2
      | None => s
      end
  | _ => s
  end.

Definition deliver_all (env : environment) (evs : list Worker.event) (s : server) : server :=
  fold_left (fun s e => deliver env e s) evs s.

(** The events a run added to the trace of [w]. *)
Definition events_since (w w' : Worker.world) : list Worker.event :=
  drop (length (Worker.trace w)) (Worker.trace w').

(** The rows of a server are stored under their own id, and only rows in a
    terminal state hold a callback payload. *)
Definition consistent (s : server) : Prop :=
  forall jobId row,
    jobs s !! jobId = Some row ->
    job_id row = jobId /\
    (callback_data row <> None -> job_state_of row ∈ termState).

(** The columns of a row that only [transcodeStart] writes. *)
Definition submitted_as (row row' : job_row) : Prop :=
  job_id row' = job_id row /\
  input_s3_key row' = input_s3_key row /\
  target_quality row' = target_quality row /\
  submit_ts row' = submit_ts row.

End Pipeline.

Module Statements.
Import JS QueryBuilder.

(** The number of [?] placeholders of a statement text. *)
Fixpoint placeholders (s : string) : nat :=
  match s with
  | EmptyString => 0
  | String c rest => ((if Ascii.eqb c "?" then 1 else 0) + placeholders rest)%nat
  end.

Definition plain (s : string) : bool := (placeholders s =? 0)%nat.

(** Conditions whose column names and operators contain no [?]. *)
Definition plain_conditions (conditions : value) : bool :=
  forallb (fun kv : string * value =>
             plain kv.1 &&
             match get kv.2 "operator" with
             | Ok operator => plain (to_string operator)
             | Throw _ => true
             end)
          (own_enumerable conditions).


(** A condition that [buildWhereClause] turns into a part of the clause. *)
Definition usable (value : value) : bool :=
  match value with VUndefined => false | _ => true end.

End Statements.

Module Resolving.
Import JS.



End Resolving.

(* ===================================================================== *)
(** ** Further concrete inputs *)
(* ===================================================================== *)

Module Cases.
Import JS DataAccess VideoController.

(** Worker runs whose engine, respectively whose probe, fails. *)
Definition broken_engine : Worker.environment :=
  Worker.Environment "/srv/temp" "test-bucket" 100 101 200 201 "5321.07" "12.50"
    "2025-08-08T14:09:16.700Z"
    (String (ascii_of_nat 10) "    at S3Client.send")
    (fun _ => Ok (VObj [ ("duration", VNum 10) ]))
    (fun _ _ => Throw (Error "ffmpeg exited with code 1")).

Definition broken_probe : Worker.environment :=
  Worker.Environment "/srv/temp" "test-bucket" 100 101 200 201 "5321.07" "12.50"
    "2025-08-08T14:09:16.700Z"
    (String (ascii_of_nat 10) "    at S3Client.send")
    (fun _ => Throw (Error "Invalid data found when processing input"))
    (fun content _ => match content with
                      | Some raw => Ok ("av1:" +:+ raw)
                      | None => Throw (Error "No such file or directory")
                      end).

(** A handler environment whose [spawn] throws. *)
Definition spawn_fails : environment :=
  Environment 1754662151353 1754662151360 "2025-08-08T14:09:11.353Z" "eb8ys53uz"
    (Some (Error "spawn node ENOENT")).

End Cases.

Module Keys.

Definition separator_or_end (o : option ascii) : Prop :=
  o = None \/ o = Some Path.CHAR_FORWARD_SLASH.

(** The state of the scanning loop of [path.parse] before index [n - 1] is
    examined, while the loop has not left through [break]. *)
Definition scanning (path : string) (n : nat) (st : Path.scan) : Prop :=
  Path.startPart st = 0 /\
  (Path.end_ st = -1 /\ Path.matchedSlash st = true /\ Path.startDot st = -1 /\
   (forall i, (n <= i)%nat -> separator_or_end (String.get i path))
   \/ Path.end_ st <> -1 /\ Path.matchedSlash st = false /\
      Z.of_nat n < Path.end_ st <= Z.of_nat (String.length path) /\
      separator_or_end (String.get (Z.to_nat (Path.end_ st)) path) /\
      (forall i, (n <= i)%nat -> Z.of_nat i < Path.end_ st ->
                 String.get i path <> Some Path.CHAR_FORWARD_SLASH) /\
      (Path.startDot st = -1
       \/ Z.of_nat n <= Path.startDot st < Path.end_ st /\
          String.get (Z.to_nat (Path.startDot st)) path = Some Path.CHAR_DOT)).

(** The state the loop ends in, when it scanned down to index [start]. *)
Definition scanned (path : string) (start : nat) (st : Path.scan) : Prop :=
  Path.end_ st = -1 /\ Path.startPart st = 0 /\
  (forall i, (start <= i)%nat -> separator_or_end (String.get i path))
  \/ Path.end_ st <> -1 /\
     (Path.startPart st = 0
      \/ Z.of_nat start < Path.startPart st /\
         String.get (Z.to_nat (Path.startPart st - 1)) path
         = Some Path.CHAR_FORWARD_SLASH) /\
     let first := if Path.startPart st =? 0 then Z.of_nat start else Path.startPart st in
     first < Path.end_ st <= Z.of_nat (String.length path) /\
     separator_or_end (String.get (Z.to_nat (Path.end_ st)) path) /\
     (forall i, first <= Z.of_nat i < Path.end_ st ->
                String.get i path <> Some Path.CHAR_FORWARD_SLASH) /\
     (Path.startDot st = -1
      \/ first <= Path.startDot st < Path.end_ st /\
         String.get (Z.to_nat (Path.startDot st)) path = Some Path.CHAR_DOT).

End Keys.

(* ===================================================================== *)
(** ** Properties *)
(* ===================================================================== *)

Import JS DataAccess Notions.
Local Open Scope list_scope.

(* --------------------------------------------------------------------- *)
(** *** Concrete runs of the model *)
(* --------------------------------------------------------------------- *)

Example parse_uploads_video :
  Path.parse "uploads/video.mp4" = Path.Parsed "" "uploads" "video.mp4" ".mp4" "video".
Proof. reflexivity. Qed.

Example parse_two_extensions :
  Path.parse "clip.tar.gz" = Path.Parsed "" "" "clip.tar.gz" ".gz" "clip.tar".
Proof. reflexivity. Qed.

Example parse_dotfile :
  Path.parse "/a/.bashrc" = Path.Parsed "/" "/a" ".bashrc" "" ".bashrc".
Proof. reflexivity. Qed.

Example parse_trailing_slashes :
  Path.parse "a/b.c//" = Path.Parsed "" "a" "b.c" ".c" "b".
Proof. reflexivity. Qed.

Example basename_uploads_video : Path.basename "uploads/video.mp4" = "video.mp4".
Proof. reflexivity. Qed.

Example trim_spaces : trim "  a b  " = "a b" /\ trim (String (ascii_of_nat 9) " ") = "".
Proof. split; reflexivity. Qed.

Example output_key_without_directory :
  VideoController.outputS3Key_of "video.mp4" (VStr "1080p30av1") = "video_1080p30av1.mp4".
Proof. reflexivity. Qed.

Example output_key_without_extension :
  VideoController.outputS3Key_of "uploads/raw" (VStr "720p30av1") = "uploads/raw_720p30av1".
Proof. reflexivity. Qed.

Example resolve_720p30av1 :
  FFmpegUtils.createTranscodingConfig (Samples.resolver_options "720p30av1" VUndefined VUndefined)
  = Ok (VObj
      [ ("input", VObj [ ("path", VStr "/srv/temp/input_100_video.mp4") ]);
        ("output", VObj
           [ ("videoCodec", VStr "libsvtav1"); ("audioCodec", VStr "aac");
             ("format", VStr "mp4"); ("crf", VNum 49); ("preset", VStr "12");
             ("width", VNum 1280); ("height", VNum 720); ("audioBitrate", VStr "96k");
             ("additionalArgs", VArr
                [ VStr "-svtav1-params";
                  VStr "hierarchical-levels=2:keyint=90:lookahead=11:lp=10:scm=0:enable-tf=0";
                  VStr "-vf"; VStr "fps=30" ]) ]) ]).
Proof. vm_compute. reflexivity. Qed.

Example resolve_unknown_preset_without_overrides :
  FFmpegUtils.createTranscodingConfig (Samples.resolver_options "4k-mystery" VUndefined VUndefined)
  = Throw (TypeError "Cannot read properties of undefined (reading 'filters')").
Proof. vm_compute. reflexivity. Qed.

Example submit_unknown_preset :
  VideoController.transcodeStart Samples.env
    (Samples.submission "uploads/video.mp4" "4k-mystery") Samples.empty_server
  = (VideoController.Response 400 (VObj
       [ ("error", VStr "Invalid resolution preset");
         ("message", VStr "Available presets: 1080p60av1, 1080p30av1, 720p30av1");
         ("timestamp", VStr "2025-08-08T14:09:11.353Z") ]),
     Samples.empty_server).
Proof. vm_compute. reflexivity. Qed.

Example status_after_success_callback :
  (VideoController.getJobStatus Samples.later Samples.jobId
     (VideoController.jobCallback Samples.later Samples.jobId
        (VObj (Samples.success_payload "uploads/video_720p30av1.mp4")) Samples.started).2).1
  = VideoController.Response 200 (VObj
      [ ("jobId", VStr Samples.jobId);
        ("state", VStr "completed");
        ("callback", VObj (Samples.success_payload "uploads/video_720p30av1.mp4")) ]).
Proof. vm_compute. reflexivity. Qed.

Example worker_success_trace :
  Worker.trace
    (Worker.processVideoFile Samples.worker_env Samples.jobId "uploads/video.mp4"
       "uploads/video_720p30av1.mp4" "720p30av1" Samples.world).2
  = [ Worker.S3GetObject "uploads/video.mp4";
      Worker.FFprobe "/srv/temp/input_100_video.mp4";
      Worker.FFmpeg "/srv/temp/input_100_video.mp4"
        (VObj [ ("videoCodec", VStr "libsvtav1"); ("audioCodec", VStr "aac");
                ("format", VStr "mp4"); ("crf", VNum 49); ("preset", VStr "12");
                ("width", VNum 1280); ("height", VNum 720); ("audioBitrate", VStr "96k");
                ("additionalArgs", VArr
                   [ VStr "-svtav1-params";
                     VStr "hierarchical-levels=2:keyint=90:lookahead=11:lp=10:scm=0:enable-tf=0";
                     VStr "-vf"; VStr "fps=30" ]);
                ("path", VStr "/srv/temp/output_101_video.mp4") ]);
      Worker.S3PutObject "uploads/video_720p30av1.mp4"
        (VObj [ ("original-s3-key", VStr "uploads/video.mp4");
                ("resolution-preset", VStr "720p30av1");
                ("processed-timestamp", VStr "2025-08-08T14:09:16.700Z");
                ("worker", VStr "video-transcode-worker") ]);
      Worker.Unlink "/srv/temp/input_100_video.mp4";
      Worker.Unlink "/srv/temp/output_101_video.mp4";
      Worker.HttpCallback Samples.jobId
        (Worker.job_result true Samples.jobId "uploads/video.mp4"
           "uploads/video_720p30av1.mp4" "720p30av1" "5321.07"
           (VStr "transcoding command") "") ].
Proof. vm_compute. reflexivity. Qed.

Ltac run_monad :=
  unfold mbind, mret, Result_bind, Result_ret,
         VideoController.handler_bind, VideoController.handler_ret,
         Worker.task_bind, Worker.task_ret in *.

Section controller_steps.
Import VideoController.

(** Reading a key that [Object.prototype] does not define. *)
Lemma get_own props k :
  assoc k Object_prototype = None ->
  get (VObj props) k = Ok (default VUndefined (assoc k props)).
Proof.
  intros Hk. unfold get. rewrite Hk. destruct (assoc k props); reflexivity.
Qed.

Lemma destructure_own props k d :
  assoc k Object_prototype = None ->
  destructure (VObj props) k d = Ok (param_default (default VUndefined (assoc k props)) d).
Proof.
  intros Hk. unfold destructure. rewrite (get_own _ _ Hk). reflexivity.
Qed.

Lemma param_default_undefined v : param_default v VUndefined = v.
Proof. destruct v; reflexivity. Qed.

Lemma truthy_get_total v k : truthy v = true -> exists x, get v k = Ok x.
Proof. destruct v; simpl; try discriminate; eauto. destruct (assoc k props); eauto. Qed.

Lemma jobCallback_stored env jobId body success detail row s :
  destructure body "success" VUndefined = Ok success ->
  destructure body "detail" VUndefined = Ok detail ->
  jobs s !! jobId = Some row ->
  jobCallback env jobId body s
  = (Response 200 (VObj
       [ ("success", VBool true);
         ("message", VStr ("Job " +:+ jobId +:+ " status updated successfully"));
         ("timestamp", VStr (toISOString env)) ]),
     Server (<[jobId := apply_update (callback_columns body success detail) row]> (jobs s))
            (workers s)).
Proof.
  intros Hsuccess Hdetail Hrow.
  unfold jobCallback, try_catch, callback_columns.
  rewrite Hsuccess, Hdetail.
  run_monad. unfold eval, db_readOne, db_update, readOne, update, found, and_lazy.
  run_monad. cbn. rewrite Hrow. cbn.
  destruct (truthy success) eqn:Hs; cbn.
  - destruct (truthy detail) eqn:Hd; cbn.
    + destruct (truthy_get_total detail "outputS3Key" Hd) as [key Hkey].
      rewrite Hkey.
      destruct (truthy key) eqn:Hk; cbn; rewrite ?Hkey, ?Hrow, ?Hs, ?Hd; cbn;
        rewrite ?Hrow, ?Hk; reflexivity.
    + rewrite ?Hd, ?Hrow; cbn; rewrite ?Hrow, ?Hs, ?Hd; reflexivity.
  - rewrite ?Hs, ?Hrow; cbn; rewrite ?Hrow, ?Hs; reflexivity.
Qed.

Lemma destructure_field props k :
  assoc k Object_prototype = None ->
  destructure (VObj props) k VUndefined = Ok (field props k).
Proof.
  intros Hk. rewrite destructure_own by exact Hk. by rewrite param_default_undefined.
Qed.

Lemma jobCallback_found env jobId props row s :
  jobs s !! jobId = Some row ->
  jobCallback env jobId (VObj props) s
  = (Response 200 (VObj
       [ ("success", VBool true);
         ("message", VStr ("Job " +:+ jobId +:+ " status updated successfully"));
         ("timestamp", VStr (toISOString env)) ]),
     Server (<[jobId := apply_update
                 (callback_columns (VObj props) (field props "success") (field props "detail"))
                 row]> (jobs s))
            (workers s)).
Proof.
  intros Hrow. apply jobCallback_stored; [by apply destructure_field ..|exact Hrow].
Qed.

(** A callback never fails for a stored job unless its body cannot be
    destructured, and then nothing is written. *)
Lemma jobCallback_row env jobId body row s :
  jobs s !! jobId = Some row ->
  (jobCallback env jobId body s).2 = s
  \/ exists success detail,
       (jobCallback env jobId body s).2
       = Server (<[jobId := apply_update (callback_columns body success detail) row]> (jobs s))
                (workers s).
Proof.
  intros Hrow.
  destruct (destructure body "success" VUndefined) as [success|e] eqn:Hs.
  - destruct (destructure body "detail" VUndefined) as [detail|e] eqn:Hd.
    + right. exists success, detail. by rewrite (jobCallback_stored _ _ _ _ _ _ _ Hs Hd Hrow).
    + left. unfold jobCallback, try_catch. rewrite Hs, Hd. reflexivity.
  - left. unfold jobCallback, try_catch. rewrite Hs. reflexivity.
Qed.

Lemma jobCallback_other env jobId body other s :
  other <> jobId ->
  jobs (jobCallback env jobId body s).2 !! other = jobs s !! other.
Proof.
  intros Hne.
  destruct (jobs s !! jobId) as [row|] eqn:Hrow.
  - destruct (jobCallback_row env jobId body row s Hrow) as [->|(su & de & ->)]; [done|].
    cbn. by rewrite lookup_insert_ne.
  - unfold jobCallback, try_catch.
    destruct (destructure body "success" VUndefined) as [success|e]; [|reflexivity].
    destruct (destructure body "detail" VUndefined) as [detail|e]; [|reflexivity].
    run_monad. unfold eval, db_readOne, readOne, found, respond. cbn. rewrite Hrow. reflexivity.
Qed.

Lemma jobCallback_not_found env jobId props s :
  jobs s !! jobId = None ->
  jobCallback env jobId (VObj props) s
  = (Response 404 (VObj
       [ ("success", VBool false);
         ("message", VStr ("Job ID " +:+ jobId +:+ " does not exist"));
         ("timestamp", VStr (toISOString env)) ]),
     s).
Proof.
  intros Hrow.
  unfold jobCallback, try_catch.
  rewrite !destructure_own by reflexivity.
  run_monad. unfold eval, db_readOne, readOne, found, respond.
  cbn. rewrite Hrow. reflexivity.
Qed.

Lemma transcodeStart_accepted env body key preset s :
  passes_validation body key preset ->
  jobs s !! jobId_of env = None ->
  spawn_throws env = None ->
  transcodeStart env body s
  = (started_response env key preset,
     Server (<[jobId_of env := started_row env key preset]> (jobs s))
            (workers s ++ [started_args env key preset])).
Proof.
  intros (Hkey & Hpreset & Htk & Htp & Htrim & found & Hfound & Htf) Hfresh Hspawn.
  unfold transcodeStart, try_catch.
  rewrite Hkey, Hpreset. run_monad. unfold eval. cbn [negb].
  rewrite Htk, Htp. cbn [negb]. rewrite Htrim, Hfound. cbn [negb]. rewrite Htf. cbn [negb].
  unfold db_create, create, spawn, db_update, update. cbn.
  rewrite Hfresh. cbn. rewrite Hspawn. cbn.
  rewrite lookup_insert_eq. cbn. rewrite insert_insert_eq. reflexivity.
Qed.


(** Every run of [transcodeStart] is a validation error that leaves the
    server as it was, an internal error, or an accepted submission. *)
Lemma transcodeStart_cases env body s :
  (status (transcodeStart env body s).1 = 400 /\ (transcodeStart env body s).2 = s)
  \/ status (transcodeStart env body s).1 = 500
  \/ exists key preset,
       passes_validation body key preset /\
       jobs s !! jobId_of env = None /\
       spawn_throws env = None.
Proof.
  unfold transcodeStart, try_catch.
  destruct (destructure body "s3Key" VUndefined) as [s3Key|e] eqn:Hkey;
    [|right; left; reflexivity].
  destruct (destructure body "resolutionPreset" VUndefined) as [preset|e] eqn:Hpreset;
    [|right; left; reflexivity].
  run_monad. unfold eval. cbn [negb].
  destruct (truthy s3Key) eqn:Htk; cbn [negb]; [|left; split; reflexivity].
  destruct (truthy preset) eqn:Htp; cbn [negb]; [|left; split; reflexivity].
  destruct s3Key as [| | | |key| | |]; try (left; split; reflexivity).
  destruct (String.eqb (trim key) "") eqn:Htrim; [left; split; reflexivity|].
  destruct (FFmpegUtils.get_computed FFmpegUtils.QUALITY_TO_PRESETS preset)
    as [found|e] eqn:Hfound; [|right; left; reflexivity].
  destruct (truthy found) eqn:Htf; cbn [negb]; [|left; split; reflexivity].
  unfold db_create, create, spawn. cbn.
  destruct (jobs s !! jobId_of env) eqn:Hfresh; cbn; [right; left; reflexivity|].
  destruct (spawn_throws env) eqn:Hspawn; cbn; [right; left; reflexivity|].
  right; right. exists key, preset. unfold passes_validation. eauto 10.
Qed.

Lemma transcodeStart_200 env body s :
  status (transcodeStart env body s).1 = 200 ->
  exists key preset,
    passes_validation body key preset /\
    transcodeStart env body s
    = (started_response env key preset,
       Server (<[jobId_of env := started_row env key preset]> (jobs s))
              (workers s ++ [started_args env key preset])).
Proof.
  intros H200.
  destruct (transcodeStart_cases env body s) as [[H _]|[H|(key & preset & Hv & Hf & Hs)]].
  - rewrite H in H200. discriminate.
  - rewrite H in H200. discriminate.
  - exists key, preset. split; [exact Hv|]. by apply transcodeStart_accepted.
Qed.

Lemma getJobStatus_found env jobId row s :
  jobs s !! jobId = Some row ->
  getJobStatus env jobId s
  = (Response 200 (VObj (status_body row)), s).
Proof.
  intros Hrow. unfold getJobStatus, try_catch, status_body.
  run_monad. unfold db_readOne, readOne, found. cbn. rewrite Hrow. cbn.
  destruct (bool_decide (job_state_of row ∈ termState)); [|reflexivity].
  destruct (callback_data row) as [text|]; [|reflexivity].
  destruct (truthy (JSON_parse text)) eqn:Ht; [|reflexivity].
  destruct (truthy_get_total _ "success" Ht) as [x Hx].
  destruct (truthy_get_total _ "detail" Ht) as [y Hy].
  unfold eval. rewrite Hx, Hy. reflexivity.
Qed.

Lemma getJobStatus_not_found env jobId s :
  jobs s !! jobId = None ->
  getJobStatus env jobId s
  = (Response 404 (VObj
       [ ("error", VStr "Job not found");
         ("message", VStr ("Job ID " +:+ jobId +:+ " does not exist"));
         ("timestamp", VStr (toISOString env)) ]),
     s).
Proof.
  intros Hrow. unfold getJobStatus, try_catch.
  run_monad. unfold db_readOne, readOne, found, respond. cbn. rewrite Hrow. reflexivity.
Qed.

Lemma getJobStatus_reads env jobId s : (getJobStatus env jobId s).2 = s.
Proof.
  destruct (jobs s !! jobId) as [row|] eqn:Hrow.
  - by rewrite (getJobStatus_found _ _ _ _ Hrow).
  - by rewrite (getJobStatus_not_found _ _ _ Hrow).
Qed.

Lemma transcodeStart_keeps env body jobId row s :
  jobs s !! jobId = Some row ->
  jobs (transcodeStart env body s).2 !! jobId = Some row.
Proof.
  intros Hrow. unfold transcodeStart, try_catch.
  destruct (destructure body "s3Key" VUndefined) as [s3Key|e]; [|exact Hrow].
  destruct (destructure body "resolutionPreset" VUndefined) as [preset|e]; [|exact Hrow].
  run_monad. unfold eval. cbn [negb].
  destruct (truthy s3Key); cbn [negb]; [|exact Hrow].
  destruct (truthy preset); cbn [negb]; [|exact Hrow].
  destruct s3Key as [| | | |key| | |]; try exact Hrow.
  destruct (String.eqb (trim key) ""); [exact Hrow|].
  destruct (FFmpegUtils.get_computed FFmpegUtils.QUALITY_TO_PRESETS preset)
    as [found|e]; [|exact Hrow].
  destruct (truthy found); cbn [negb]; [|exact Hrow].
  unfold db_create, create, spawn, db_update, update. cbn.
  destruct (jobs s !! jobId_of env) eqn:Hfresh; cbn; [exact Hrow|].
  assert (Hne : jobId_of env <> jobId) by congruence.
  destruct (spawn_throws env); cbn.
  - by rewrite lookup_insert_ne.
  - rewrite lookup_insert_eq. cbn. by rewrite !lookup_insert_ne.
Qed.

Lemma workerProcess_on_error_row jobId other row s :
  jobs s !! jobId = Some row ->
  jobs (workerProcess_on_error other s) !! jobId
  = Some (if decide (other = jobId)
          then apply_update (UpdateData (Some failed) None None) row
          else row).
Proof.
  intros Hrow. unfold workerProcess_on_error, db_update, update.
  destruct (decide (other = jobId)) as [->|Hne].
  - rewrite Hrow. cbn. by rewrite lookup_insert_eq.
  - destruct (jobs s !! other); cbn; [by rewrite lookup_insert_ne|done].
Qed.



End controller_steps.

(* --------------------------------------------------------------------- *)
(** *** Completion callbacks *)
(* --------------------------------------------------------------------- *)

Section callbacks.
Import VideoController.

Lemma callback_columns_state props (success : bool) :
  assoc "success" props = Some (VBool success) ->
  let columns :=
    callback_columns (VObj props) (field props "success") (field props "detail") in
  set_job_state columns = Some (if success then completed else failed)
  /\ set_callback_data columns = Some (JSON_stringify (VObj props)).
Proof.
  intros Hs. unfold callback_columns, field. rewrite Hs. cbn. by destruct success.
Qed.

(** The state a callback leaves for any object body: decided by the
    truthiness of its [success], so a body without [success] marks the job
    failed. *)
Lemma jobCallback_state env jobId props row s :
  jobs s !! jobId = Some row ->
  job_state_of <$> jobs (jobCallback env jobId (VObj props) s).2 !! jobId
  = Some (if truthy (field props "success") then completed else failed).
Proof.
  intros Hrow. rewrite (jobCallback_found _ _ _ _ _ Hrow). cbn.
  by rewrite lookup_insert_eq.
Qed.

(** C1. For a known jobId, [jobCallback] answers 200 and persists the
    terminal state that matches the payload's [success] (completed for true,
    failed for false) together with the payload, whatever state the row was
    in; a further callback on the now terminal job is accepted in the same
    way and its state and payload replace the earlier ones; for an unknown
    jobId the answer is 404 and nothing is written. *)
Theorem jobCallback_persists_terminal_state
    env jobId props (success : bool) env2 props2 (success2 : bool) s :
  assoc "success" props = Some (VBool success) ->
  assoc "success" props2 = Some (VBool success2) ->
  let first := jobCallback env jobId (VObj props) s in
  let second := jobCallback env2 jobId (VObj props2) first.2 in
  (forall row, jobs s !! jobId = Some row ->
     status first.1 = 200 /\
     (exists row1, jobs first.2 !! jobId = Some row1 /\
        job_state_of row1 = (if success then completed else failed) /\
        callback_data row1 = JSON_stringify (VObj props)) /\
     status second.1 = 200 /\
     (exists row2, jobs second.2 !! jobId = Some row2 /\
        job_state_of row2 = (if success2 then completed else failed) /\
        callback_data row2 = JSON_stringify (VObj props2)))
  /\ (jobs s !! jobId = None -> status first.1 = 404 /\ first.2 = s).
Proof.
  intros Hs Hs2 first second. split.
  - intros row Hrow.
    destruct (callback_columns_state _ _ Hs) as [Hst Hcb].
    destruct (callback_columns_state _ _ Hs2) as [Hst2 Hcb2].
    set (columns := callback_columns (VObj props) (field props "success")
                                     (field props "detail")) in *.
    assert (Hfirst : first
      = (first.1, Server (<[jobId := apply_update columns row]> (jobs s)) (workers s))).
    { subst first. by rewrite (jobCallback_found _ _ _ _ _ Hrow). }
    assert (H1 : jobs first.2 !! jobId = Some (apply_update columns row)).
    { rewrite Hfirst. cbn. apply lookup_insert_eq. }
    split; [subst first; by rewrite (jobCallback_found _ _ _ _ _ Hrow)|].
    split.
    { eexists. split; [exact H1|]. unfold apply_update. rewrite Hst, Hcb. done. }
    subst second. rewrite (jobCallback_found _ _ _ _ _ H1). cbn.
    split; [done|].
    eexists. split; [apply lookup_insert_eq|].
    unfold apply_update at 1. rewrite Hst2, Hcb2. done.
  - intros Hnone. subst first. by rewrite (jobCallback_not_found _ _ _ _ Hnone).
Qed.

Lemma jobCallback_persists_terminal_state_witness :
  assoc "success" Samples.failure_payload = Some (VBool false) /\
  assoc "success" (Samples.success_payload "uploads/video_720p30av1.mp4") = Some (VBool true) /\
  let first :=
    jobCallback Samples.later Samples.jobId (VObj Samples.failure_payload) Samples.started in
  let second :=
    jobCallback Samples.later Samples.jobId
      (VObj (Samples.success_payload "uploads/video_720p30av1.mp4")) first.2 in
  status first.1 = 200 /\ status second.1 = 200 /\
  (job_state_of <$> jobs first.2 !! Samples.jobId) = Some failed /\
  (job_state_of <$> jobs second.2 !! Samples.jobId) = Some completed.
Proof.
  split; [reflexivity|]. split; [reflexivity|].
  destruct (jobCallback_persists_terminal_state
              Samples.later Samples.jobId Samples.failure_payload false
              Samples.later (Samples.success_payload "uploads/video_720p30av1.mp4") true
              Samples.started eq_refl eq_refl) as [Hknown _].
  destruct (Hknown (started_row Samples.env "uploads/video.mp4" (VStr "720p30av1")))
    as (H1 & (row1 & Hrow1 & Hstate1 & _) & H2 & (row2 & Hrow2 & Hstate2 & _)).
  { vm_compute. reflexivity. }
  cbv zeta. rewrite Hrow1, Hrow2. cbn [fmap option_fmap option_map].
  rewrite Hstate1, Hstate2. auto.
Defined.

End callbacks.

(* --------------------------------------------------------------------- *)
(** *** Submission and status *)
(* --------------------------------------------------------------------- *)

Section submission.
Import VideoController.

Lemma valid_passes body key name :
  valid_submission body key name -> passes_validation body key (VStr name).
Proof.
  intros (props & -> & Hkey & Hname & Htrim & Hin).
  unfold passes_validation.
  rewrite !destructure_own by reflexivity. rewrite Hkey, Hname. cbn [default param_default].
  assert (Hne : key <> "") by (intros ->; apply Htrim; reflexivity).
  repeat split.
  - cbn. destruct (String.eqb_spec key ""); [contradiction|reflexivity].
  - cbn in Hin. destruct Hin as [<-|[<-|[<-|[]]]]; reflexivity.
  - destruct (String.eqb_spec (trim key) ""); [contradiction|reflexivity].
  - cbn in Hin. destruct Hin as [<-|[<-|[<-|[]]]]; eexists; split; reflexivity.
Qed.



(** C3. The output key that [transcodeStart] persists, and hands to the
    worker, is [outputS3Key_of] of the submitted key and preset: it does not
    depend on the clock, the random suffix, the other fields of the body or
    the stored jobs, so two accepted submissions of the same pair get the same
    output key; for "uploads/video.mp4" and "720p30av1" it is
    "uploads/video_720p30av1.mp4". *)
Theorem outputS3Key_is_function_of_key_and_preset
    env1 env2 body1 body2 key preset s1 s2 :
  passes_validation body1 key preset ->
  passes_validation body2 key preset ->
  status (transcodeStart env1 body1 s1).1 = 200 ->
  status (transcodeStart env2 body2 s2).1 = 200 ->
  let stored1 := output_s3_key <$> jobs (transcodeStart env1 body1 s1).2 !! jobId_of env1 in
  let stored2 := output_s3_key <$> jobs (transcodeStart env2 body2 s2).2 !! jobId_of env2 in
  stored1 = Some (VStr (outputS3Key_of key preset)) /\
  stored2 = stored1 /\
  last (workers (transcodeStart env1 body1 s1).2)
  = Some [ VStr (jobId_of env1); VStr key; VStr (outputS3Key_of key preset); preset ] /\
  outputS3Key_of "uploads/video.mp4" (VStr "720p30av1") = "uploads/video_720p30av1.mp4".
Proof.
  intros Hv1 Hv2 H1 H2.
  destruct (transcodeStart_200 _ _ _ H1) as (k1 & p1 & Hv1' & ->).
  destruct (transcodeStart_200 _ _ _ H2) as (k2 & p2 & Hv2' & ->).
  assert (k1 = key /\ p1 = preset) as [-> ->].
  { destruct Hv1 as (Ha & Hb & _), Hv1' as (Ha' & Hb' & _). split; congruence. }
  assert (k2 = key /\ p2 = preset) as [-> ->].
  { destruct Hv2 as (Ha & Hb & _), Hv2' as (Ha' & Hb' & _). split; congruence. }
  cbn. rewrite !lookup_insert_eq. cbn.
  repeat split. apply last_snoc.
Qed.

Lemma outputS3Key_is_function_of_key_and_preset_witness :
  passes_validation (Samples.submission "uploads/video.mp4" "720p30av1")
                    "uploads/video.mp4" (VStr "720p30av1") /\
  (output_s3_key <$> jobs Samples.started !! Samples.jobId)
  = Some (VStr "uploads/video_720p30av1.mp4").
Proof.
  assert (Hp : passes_validation (Samples.submission "uploads/video.mp4" "720p30av1")
                                 "uploads/video.mp4" (VStr "720p30av1")).
  { repeat split. eexists. split; reflexivity. }
  split; [exact Hp|].
  destruct (outputS3Key_is_function_of_key_and_preset
              Samples.env Samples.later _ _ _ _ Samples.empty_server Samples.started
              Hp Hp eq_refl eq_refl) as (H1 & _ & _ & H4).
  unfold Samples.started, Samples.jobId.
  change "transcode_1754662151353_eb8ys53uz" with (jobId_of Samples.env).
  rewrite H1, H4. reflexivity.
Defined.




End submission.

(* --------------------------------------------------------------------- *)
(** *** Rejected submissions *)
(* --------------------------------------------------------------------- *)

Section rejection.
Import VideoController.

Lemma assoc_not_in k (props : list (string * value)) :
  ~ In k (Object_keys props) -> assoc k props = None.
Proof.
  induction props as [|[k' v] rest IH]; [reflexivity|].
  cbn. intros Hnot. destruct (String.eqb_spec k k') as [->|Hne].
  - exfalso. apply Hnot. by left.
  - apply IH. intros Hin. apply Hnot. by right.
Qed.

(** Submissions that [transcodeStart] turns down with 400, leaving no
    trace: the key is missing or empty, or the preset is a name that is
    neither in the preset table nor a member of [Object.prototype]. *)
Lemma transcodeStart_rejects env props s :
  truthy (field props "s3Key") = false
  \/ (exists name, field props "resolutionPreset" = VStr name /\
        ~ In name (Object_keys FFmpegUtils.QUALITY_TO_PRESETS_entries) /\
        ~ In name (Object_keys Object_prototype)) ->
  status (transcodeStart env (VObj props) s).1 = 400 /\
  (transcodeStart env (VObj props) s).2 = s.
Proof.
  intros Hbad. unfold transcodeStart, try_catch.
  rewrite !destructure_field by reflexivity.
  run_monad. unfold eval.
  destruct (truthy (field props "s3Key")) eqn:Htk; cbn [negb]; [|split; reflexivity].
  destruct Hbad as [?|(name & Hname & Hown & Hinh)]; [discriminate|].
  rewrite Hname.
  destruct (truthy (VStr name)); cbn [negb]; [|split; reflexivity].
  destruct (field props "s3Key") as [| | | |key| | |]; try (split; reflexivity).
  destruct (String.eqb (trim key) ""); [split; reflexivity|].
  unfold FFmpegUtils.get_computed, FFmpegUtils.QUALITY_TO_PRESETS, get.
  cbn [to_string]. rewrite (assoc_not_in _ _ Hown), (assoc_not_in _ _ Hinh).
  split; reflexivity.
Qed.

(** A name inherited from [Object.prototype] passes the preset check: with a
    usable key, a fresh id and a launchable worker the submission is accepted. *)
Lemma transcodeStart_accepts_inherited env key name s :
  In name (Object_keys Object_prototype) ->
  String.eqb (trim key) "" = false ->
  jobs s !! jobId_of env = None ->
  spawn_throws env = None ->
  ~ In name (Object_keys FFmpegUtils.QUALITY_TO_PRESETS_entries) /\
  status (transcodeStart env (Samples.submission key name) s).1 = 200.
Proof.
  intros Hin Htrim Hfresh Hspawn.
  assert (Hkey : key <> "").
  { intros ->. discriminate. }
  assert (Hpass : passes_validation (Samples.submission key name) key (VStr name)).
  { unfold passes_validation, Samples.submission.
    rewrite !destructure_own by reflexivity. cbn [assoc String.eqb Ascii.eqb Bool.eqb default
                                                   param_default].
    repeat split; [| |exact Htrim|].
    - cbn. by destruct (String.eqb_spec key "").
    - cbn in Hin. decompose [or] Hin; subst; try reflexivity; contradiction.
    - cbn in Hin. decompose [or] Hin; subst; try contradiction;
        (eexists; split; reflexivity). }
  split.
  - cbn in Hin. cbn. decompose [or] Hin; subst; try contradiction; intuition discriminate.
  - by rewrite (transcodeStart_accepted _ _ _ _ _ Hpass Hfresh Hspawn).
Qed.

(** C5 at the input where the code departs from it: "constructor" is not a
    preset, yet the lookup [QUALITY_TO_PRESETS["constructor"]] finds the
    inherited [Object] function, the submission is accepted with 200, a job
    row is persisted and a worker is launched. *)
Theorem transcodeStart_accepts_inherited_name :
  let body := Samples.submission "uploads/video.mp4" "constructor" in
  let outcome := transcodeStart Samples.env body Samples.empty_server in
  ~ In "constructor" (Object_keys FFmpegUtils.QUALITY_TO_PRESETS_entries) /\
  status outcome.1 = 200 /\
  jobs outcome.2 !! Samples.jobId
  = Some (JobRow Samples.jobId progressing (VStr "uploads/video.mp4")
                 (VStr "uploads/video_constructor.mp4") (VStr "constructor")
                 1754662151360 None) /\
  workers outcome.2
  = [ [ VStr Samples.jobId; VStr "uploads/video.mp4";
        VStr "uploads/video_constructor.mp4"; VStr "constructor" ] ].
Proof.
  cbv zeta. split.
  - cbn. intros [H|[H|[H|[]]]]; discriminate.
  - repeat split; vm_compute; reflexivity.
Qed.

End rejection.

(* --------------------------------------------------------------------- *)
(** *** The worker pipeline *)
(* --------------------------------------------------------------------- *)

Section worker_runs.
Import Worker.

Lemma error_stack_NoSuchKey env : error_stack (NoSuchKey env) <> "".
Proof. unfold error_stack, error_header, NoSuchKey. cbn. discriminate. Qed.

(** The run of [processVideoFile] on a key that the bucket does not hold. *)
Lemma processVideoFile_missing_input
    env jobId s3Key outputS3Key resolutionPreset w :
  bucket w !! s3Key = None ->
  let run := processVideoFile env jobId s3Key outputS3Key resolutionPreset w in
  exists cleanup result detail errorStack,
    run.1 = Throw (NoSuchKey env) /\
    trace run.2 = trace w ++ S3GetObject s3Key :: cleanup ++ [HttpCallback jobId result] /\
    Forall (fun e => exists path, e = Unlink path) cleanup /\
    (forall input output, ~ In (FFmpeg input output) (S3GetObject s3Key :: cleanup
                                                      ++ [HttpCallback jobId result])) /\
    (forall path, ~ In (FFprobe path) (S3GetObject s3Key :: cleanup
                                        ++ [HttpCallback jobId result])) /\
    get result "success" = Ok (VBool false) /\
    get result "detail" = Ok detail /\
    get detail "errorStack" = Ok (VStr errorStack) /\
    errorStack <> "" /\
    bucket run.2 = bucket w.
Proof.
  intros Hmissing. cbv zeta.
  unfold processVideoFile, try_catch, downloadFile, callJobCallback.
  run_monad. unfold emit, getObject, throw. cbn. rewrite Hmissing. cbn.
  set (staged := in_tempDir env _). set (produced := in_tempDir env _).
  assert (Hshape : forall cleanup,
    Forall (fun e => exists path, e = Unlink path) cleanup ->
    forall tool, (forall path, tool <> Unlink path) ->
      tool <> S3GetObject s3Key ->
      (forall result, tool <> HttpCallback jobId result) ->
      ~ In tool
           (S3GetObject s3Key :: cleanup
            ++ [HttpCallback jobId
                  (job_result false jobId s3Key outputS3Key resolutionPreset
                     (jobDuration_on_error env) (VStr "transcoding error command")
                     (error_stack (NoSuchKey env)))])).
  { intros cleanup Hall tool Hunlink Hget Hpost [Heq|Hin]; [by apply Hget|].
    apply in_app_or in Hin as [Hin|[Heq|[]]]; [|by eapply Hpost].
    rewrite Forall_forall in Hall. apply list_elem_of_In in Hin.
    destruct (Hall _ Hin) as [path Hpath]. by eapply Hunlink. }
  unfold when, unlinkSync, emit, removeFile. run_monad.
  destruct (bool_decide (is_Some (files w !! staged))); cbn;
    destruct (bool_decide _); cbn.
  - exists [Unlink staged; Unlink produced]. do 3 eexists.
    split; [reflexivity|]. split; [by rewrite <- !app_assoc|].
    split; [repeat constructor; eauto|].
    split; [intros; apply Hshape; [repeat constructor; eauto|done..]|].
    split; [intros; apply Hshape; [repeat constructor; eauto|done..]|].
    repeat split. apply error_stack_NoSuchKey.
  - exists [Unlink staged]. do 3 eexists.
    split; [reflexivity|]. split; [by rewrite <- !app_assoc|].
    split; [repeat constructor; eauto|].
    split; [intros; apply Hshape; [repeat constructor; eauto|done..]|].
    split; [intros; apply Hshape; [repeat constructor; eauto|done..]|].
    repeat split. apply error_stack_NoSuchKey.
  - exists [Unlink produced]. do 3 eexists.
    split; [reflexivity|]. split; [by rewrite <- !app_assoc|].
    split; [repeat constructor; eauto|].
    split; [intros; apply Hshape; [repeat constructor; eauto|done..]|].
    split; [intros; apply Hshape; [repeat constructor; eauto|done..]|].
    repeat split. apply error_stack_NoSuchKey.
  - exists []. do 3 eexists.
    split; [reflexivity|]. split; [by rewrite <- !app_assoc|].
    split; [constructor|].
    split; [intros; apply Hshape; [constructor|done..]|].
    split; [intros; apply Hshape; [constructor|done..]|].
    repeat split. apply error_stack_NoSuchKey.
Qed.

(** C10. When the input key is not in the bucket, [processVideoFile] throws
    the download error after these events only: the GET on the bucket,
    deletions of local files, and one callback POST for the job, whose result
    has [success: false] and a non-empty [detail.errorStack]. The engine (and
    the probe) never run and the bucket is unchanged. *)
Theorem missing_input_reported_without_engine
    env jobId s3Key outputS3Key resolutionPreset w :
  bucket w !! s3Key = None ->
  let run := processVideoFile env jobId s3Key outputS3Key resolutionPreset w in
  exists cleanup result detail errorStack,
    run.1 = Throw (NoSuchKey env) /\
    trace run.2 = trace w ++ S3GetObject s3Key :: cleanup ++ [HttpCallback jobId result] /\
    Forall (fun e => exists path, e = Unlink path) cleanup /\
    (forall input output, ~ In (FFmpeg input output) (S3GetObject s3Key :: cleanup
                                                      ++ [HttpCallback jobId result])) /\
    (forall path, ~ In (FFprobe path) (S3GetObject s3Key :: cleanup
                                        ++ [HttpCallback jobId result])) /\
    get result "success" = Ok (VBool false) /\
    get result "detail" = Ok detail /\
    get detail "errorStack" = Ok (VStr errorStack) /\
    errorStack <> "" /\
    bucket run.2 = bucket w.
Proof. exact (processVideoFile_missing_input env jobId s3Key outputS3Key resolutionPreset w). Qed.

Lemma missing_input_reported_without_engine_witness :
  bucket Samples.world !! "uploads/missing.mp4" = None /\
  (processVideoFile Samples.worker_env Samples.jobId "uploads/missing.mp4"
     "uploads/missing_720p30av1.mp4" "720p30av1" Samples.world).1
  = Throw (NoSuchKey Samples.worker_env).
Proof.
  assert (Hmissing : bucket Samples.world !! "uploads/missing.mp4" = None).
  { vm_compute. reflexivity. }
  split; [exact Hmissing|].
  destruct (missing_input_reported_without_engine
              Samples.worker_env Samples.jobId "uploads/missing.mp4"
              "uploads/missing_720p30av1.mp4" "720p30av1" Samples.world Hmissing)
    as (cleanup & result & detail & errorStack & Hthrow & _).
  exact Hthrow.
Defined.

(** A run of the worker process on a missing input ends with exit code 1. *)
Lemma main_exits_abnormally env jobId s3Key outputS3Key resolutionPreset w :
  validateS3Key s3Key = Ok tt ->
  validateResolutionPreset resolutionPreset = Ok tt ->
  bucket w !! s3Key = None ->
  (main env [jobId; s3Key; outputS3Key; resolutionPreset] w).1 = 1.
Proof.
  intros Hkey Hpreset Hmissing. unfold main. rewrite Hkey.
  unfold mbind, Result_bind. rewrite Hpreset.
  destruct (processVideoFile_missing_input
              env jobId s3Key outputS3Key resolutionPreset w Hmissing)
    as (cleanup & result & detail & errorStack & Hthrow & _).
  destruct (processVideoFile _ _ _ _ _ w) as [[v|e] w']; [discriminate|reflexivity].
Qed.

Section emitted.
Context (P : event -> Prop).

Lemma emits_only_ret {A} (a : A) : emits_only P (mret a : task A).
Proof. intros w. exists []. by rewrite app_nil_r. Qed.

Lemma emits_only_quiet {A} (t : task A) :
  (forall w, trace (t w).2 = trace w) -> emits_only P t.
Proof. intros Hq w. exists []. by rewrite Hq, app_nil_r. Qed.

Lemma emits_only_bind {A B} (t : task A) (k : A -> task B) :
  emits_only P t -> (forall a, emits_only P (k a)) -> emits_only P (t ≫= k).
Proof.
  intros Ht Hk w. unfold mbind, task_bind.
  destruct (Ht w) as (evs & Htrace & Hall).
  destruct (t w) as [[a|e] w1]; cbn in *.
  - destruct (Hk a w1) as (evs' & Htrace' & Hall').
    exists (evs ++ evs'). rewrite Htrace', Htrace, app_assoc.
    split; [done|]. by apply Forall_app.
  - by exists evs.
Qed.

Lemma emits_only_try_catch {A} (t : task A) (h : js_error -> task A) :
  emits_only P t -> (forall e, emits_only P (h e)) -> emits_only P (try_catch t h).
Proof.
  intros Ht Hh w. unfold try_catch.
  destruct (Ht w) as (evs & Htrace & Hall).
  destruct (t w) as [[a|e] w1]; cbn in *.
  - by exists evs.
  - destruct (Hh e w1) as (evs' & Htrace' & Hall').
    exists (evs ++ evs'). rewrite Htrace', Htrace, app_assoc.
    split; [done|]. by apply Forall_app.
Qed.

Lemma emits_only_emit e : P e -> emits_only P (emit e).
Proof. intros He w. exists [e]. split; [done|]. by constructor. Qed.

Lemma emits_only_when b (t : task unit) : emits_only P t -> emits_only P (when b t).
Proof. intros Ht. destruct b; [exact Ht|apply emits_only_ret]. Qed.

End emitted.

Ltac emits_step :=
  first
    [ apply emits_only_bind; [|intros ?]
    | apply emits_only_try_catch; [|intros ?]
    | apply emits_only_when
    | apply emits_only_ret
    | apply emits_only_emit
    | apply emits_only_quiet; intros ?; reflexivity
    | apply emits_only_quiet; intros ?; unfold eval, throw; reflexivity ].

Lemma emits_only_unlinkSync P path :
  (forall p, P (Unlink p)) -> emits_only P (unlinkSync path).
Proof. intros HP. unfold unlinkSync. repeat emits_step. apply HP. Qed.

(** Every callback POST of a run is addressed to the run's job and echoes
    the output key the run was started with. *)
Lemma processVideoFile_reports env jobId s3Key outputS3Key resolutionPreset :
  emits_only (reports_for jobId outputS3Key)
             (processVideoFile env jobId s3Key outputS3Key resolutionPreset).
Proof.
  assert (Hreport : forall success duration command stack,
    reports_for jobId outputS3Key
      (HttpCallback jobId (job_result success jobId s3Key outputS3Key resolutionPreset
                              duration command stack))).
  { intros. split; [done|]. do 2 eexists. repeat split. }
  unfold processVideoFile, downloadFile, uploadFile, getVideoMetadata, transcodeVideo,
         executeFFmpeg, callJobCallback.
  repeat first
    [ emits_step
    | apply emits_only_unlinkSync; intros ?; exact I
    | exact I
    | apply Hreport
    | match goal with
      | |- emits_only _ (match ?x with _ => _ end) => destruct x
      | |- emits_only _ (if ?x then _ else _) => destruct x
      end ].
Qed.

End worker_runs.

(* --------------------------------------------------------------------- *)
(** *** The output key of a stored job *)
(* --------------------------------------------------------------------- *)

Section output_key.
Import VideoController.

Lemma workerProcess_on_error_key jobId other row s :
  jobs s !! jobId = Some row ->
  output_s3_key <$> jobs (workerProcess_on_error other s) !! jobId
  = Some (output_s3_key row).
Proof.
  intros Hrow. unfold workerProcess_on_error, db_update, update.
  destruct (jobs s !! other) as [r|] eqn:Hother; cbn.
  - destruct (decide (other = jobId)) as [->|Hne].
    + rewrite lookup_insert_eq. cbn. congruence.
    + rewrite lookup_insert_ne by done. by rewrite Hrow.
  - by rewrite Hrow.
Qed.

(** The output key of a job after a callback on it with an object body. *)
Lemma jobCallback_key env jobId props row s :
  jobs s !! jobId = Some row ->
  output_s3_key <$> jobs (jobCallback env jobId (VObj props) s).2 !! jobId
  = Some (default (output_s3_key row)
            (set_output_s3_key
               (callback_columns (VObj props) (field props "success")
                                 (field props "detail")))).
Proof.
  intros Hrow. rewrite (jobCallback_found _ _ _ _ _ Hrow). cbn.
  by rewrite lookup_insert_eq.
Qed.

(** C6 fails as stated: a success callback that carries another
    [detail.outputS3Key] replaces the output key persisted at creation. *)
Lemma jobCallback_rewrites_output_key :
  (output_s3_key <$> jobs Samples.started !! Samples.jobId)
  = Some (VStr "uploads/video_720p30av1.mp4") /\
  (output_s3_key <$>
     jobs (jobCallback Samples.later Samples.jobId
             (VObj (Samples.success_payload "elsewhere/other.mp4")) Samples.started).2
     !! Samples.jobId)
  = Some (VStr "elsewhere/other.mp4").
Proof. split; vm_compute; reflexivity. Qed.

(** C6, amended. The output key persisted at creation is left as it is by
    status queries, by the launch-error listener, by further submissions, by
    callbacks for other jobs, and by a callback for the job whose [success]
    or [detail] is falsy or whose [detail.outputS3Key] is falsy or equal to
    the stored key; the callbacks posted by the worker run started for the
    job with that key are of this kind. A callback with truthy [success],
    [detail] and [detail.outputS3Key] stores that key instead. *)
Theorem output_key_after_creation jobId row s :
  jobs s !! jobId = Some row ->
  let key_after (s' : server) := output_s3_key <$> jobs s' !! jobId in
  (forall env j, key_after (getJobStatus env j s).2 = Some (output_s3_key row)) /\
  (forall j, key_after (workerProcess_on_error j s) = Some (output_s3_key row)) /\
  (forall env body, key_after (transcodeStart env body s).2 = Some (output_s3_key row)) /\
  (forall env j body,
     j <> jobId -> key_after (jobCallback env j body s).2 = Some (output_s3_key row)) /\
  (forall env props,
     truthy (field props "success") = false
     \/ truthy (field props "detail") = false
     \/ (exists key, get (field props "detail") "outputS3Key" = Ok key /\
                     (truthy key = false \/ key = output_s3_key row)) ->
     key_after (jobCallback env jobId (VObj props) s).2 = Some (output_s3_key row)) /\
  (forall env props key,
     truthy (field props "success") = true ->
     truthy (field props "detail") = true ->
     get (field props "detail") "outputS3Key" = Ok key ->
     truthy key = true ->
     key_after (jobCallback env jobId (VObj props) s).2 = Some key) /\
  (forall wenv s3Key outputS3Key preset w evs j result env,
     output_s3_key row = VStr outputS3Key ->
     Worker.trace (Worker.processVideoFile wenv jobId s3Key outputS3Key preset w).2
     = Worker.trace w ++ evs ->
     In (Worker.HttpCallback j result) evs ->
     j = jobId /\
     key_after (jobCallback env j result s).2 = Some (output_s3_key row)).
Proof.
  intros Hrow key_after. subst key_after. cbv beta.
  assert (Hquiet : forall env props,
    truthy (field props "success") = false
    \/ truthy (field props "detail") = false
    \/ (exists key, get (field props "detail") "outputS3Key" = Ok key /\
                    (truthy key = false \/ key = output_s3_key row)) ->
    output_s3_key <$> jobs (jobCallback env jobId (VObj props) s).2 !! jobId
    = Some (output_s3_key row)).
  { intros env props Hcase. rewrite (jobCallback_key _ _ _ _ _ Hrow).
    unfold callback_columns. cbn [set_output_s3_key].
    destruct Hcase as [Hs|[Hd|(key & Hkey & Hk)]].
    - rewrite Hs. reflexivity.
    - rewrite Hd, andb_false_r. reflexivity.
    - rewrite Hkey. destruct (truthy _ && truthy _); [|reflexivity].
      destruct Hk as [Hk| ->]; [by rewrite Hk|]. by destruct (truthy _). }
  split; [intros; by rewrite getJobStatus_reads, Hrow|].
  split; [intros; by apply workerProcess_on_error_key|].
  split; [intros; by rewrite (transcodeStart_keeps _ _ _ _ _ Hrow)|].
  split; [intros env j body Hne; by rewrite jobCallback_other, Hrow|].
  split; [exact Hquiet|].
  split.
  - intros env props key Hs Hd Hkey Hk. rewrite (jobCallback_key _ _ _ _ _ Hrow).
    unfold callback_columns. cbn [set_output_s3_key]. by rewrite Hs, Hd, Hkey, Hk.
  - intros wenv s3Key outputS3Key preset w evs j result env Hstored Htrace Hin.
    destruct (processVideoFile_reports wenv jobId s3Key outputS3Key preset w)
      as (evs' & Htrace' & Hall).
    rewrite Htrace in Htrace'. apply app_inv_head in Htrace' as <-.
    rewrite Forall_forall in Hall. apply list_elem_of_In in Hin.
    destruct (Hall _ Hin) as (-> & props & detail & -> & Hdetail & Hkey).
    split; [reflexivity|]. apply Hquiet. right. right.
    rewrite get_own in Hdetail by reflexivity. injection Hdetail as <-.
    exists (VStr outputS3Key). split; [exact Hkey|]. by right.
Qed.

Lemma output_key_after_creation_witness :
  jobs Samples.started !! Samples.jobId
  = Some (started_row Samples.env "uploads/video.mp4" (VStr "720p30av1")) /\
  (output_s3_key <$>
     jobs (jobCallback Samples.later Samples.jobId (VObj Samples.failure_payload)
             Samples.started).2 !! Samples.jobId)
  = Some (VStr "uploads/video_720p30av1.mp4").
Proof.
  assert (Hrow : jobs Samples.started !! Samples.jobId
                 = Some (started_row Samples.env "uploads/video.mp4" (VStr "720p30av1"))).
  { vm_compute. reflexivity. }
  split; [exact Hrow|].
  destruct (output_key_after_creation _ _ _ Hrow) as (_ & _ & _ & _ & Hquiet & _).
  rewrite (Hquiet Samples.later Samples.failure_payload); [reflexivity|].
  left. reflexivity.
Defined.

End output_key.

(* --------------------------------------------------------------------- *)
(** *** The filter chain *)
(* --------------------------------------------------------------------- *)

Section filter_chain.
Import FFmpegUtils.

Lemma bind_Ok_inv {A B} (r : Result A) (k : A -> Result B) b :
  r ≫= k = Ok b -> exists a, r = Ok a /\ k a = Ok b.
Proof. destruct r as [a|e]; [eauto|discriminate]. Qed.














End filter_chain.

(* --------------------------------------------------------------------- *)
(** *** The Configuration Resolver *)
(* --------------------------------------------------------------------- *)

Section resolver.
Import FFmpegUtils.



Lemma known_preset_cases q preset :
  assoc q QUALITY_TO_PRESETS_entries = Some preset ->
  (q = "1080p60av1" /\ preset = quality_preset 1920 1080 49 "10" 60
       "hierarchical-levels=3:keyint=180:lookahead=11:lp=14:scm=0")
  \/ (q = "1080p30av1" /\ preset = quality_preset 1920 1080 49 "10" 30
       "hierarchical-levels=2:keyint=90:lookahead=11:lp=10:scm=0:enable-tf=0")
  \/ (q = "720p30av1" /\ preset = quality_preset 1280 720 49 "12" 30
       "hierarchical-levels=2:keyint=90:lookahead=11:lp=10:scm=0:enable-tf=0").
Proof.
  unfold QUALITY_TO_PRESETS_entries. cbn [assoc].
  destruct (String.eqb_spec q "1080p60av1") as [->|_]; [intros [= <-]; auto|].
  destruct (String.eqb_spec q "1080p30av1") as [->|_]; [intros [= <-]; auto|].
  destruct (String.eqb_spec q "720p30av1") as [->|_]; [intros [= <-]; auto 10|].
  discriminate.
Qed.













Lemma get_unknown_name own table name :
  Object_keys table = own -> unknown_name own name ->
  get_computed (VObj table) (VStr name) = Ok VUndefined.
Proof.
  intros <- [Hown Hinh]. unfold get_computed, get. cbn [to_string].
  by rewrite (assoc_not_in _ _ Hown), (assoc_not_in _ _ Hinh).
Qed.

Lemma get_known_codec name codec :
  assoc name VIDEO_CODECS_entries = Some codec ->
  get_computed VIDEO_CODECS (VStr name) = Ok codec.
Proof. intros Hc. unfold get_computed, VIDEO_CODECS, get. cbn [to_string]. by rewrite Hc. Qed.





End resolver.

(* ===================================================================== *)
(** ** Runs of the worker *)
(* ===================================================================== *)

Section worker_steps.
Import Worker Runs.

Lemma bind_returns {A B} (t : task A) (k : A -> task B) w a w' :
  t w = (Ok a, w') -> (t ≫= k) w = k a w'.
Proof. intros H. unfold mbind, task_bind. by rewrite H. Qed.

Lemma bind_throws {A B} (t : task A) (k : A -> task B) w e w' :
  t w = (Throw e, w') -> (t ≫= k) w = (Throw e, w').
Proof. intros H. unfold mbind, task_bind. by rewrite H. Qed.

Lemma bind_steps {A B} (t : task A) (k : A -> task B) w r w' :
  t w = (r, w') ->
  (t ≫= k) w = match r with Ok a => k a w' | Throw e => (Throw e, w') end.
Proof. intros H. unfold mbind, task_bind. by rewrite H. Qed.

Lemma bind_eval {A B} (r : Result A) (k : A -> task B) w a :
  r = Ok a -> (eval r ≫= k) w = k a w.
Proof. intros ->. reflexivity. Qed.

Lemma bind_eval_throws {A B} (r : Result A) (k : A -> task B) w e :
  r = Throw e -> (eval r ≫= k) w = (Throw e, w).
Proof. intros ->. reflexivity. Qed.

Lemma append_inj_l (s a b : string) : s +:+ a = s +:+ b -> a = b.
Proof. induction s as [|c s IH]; cbn; [done|]. intros [= H]. by apply IH. Qed.

Lemma append_nonempty (a : string) c b : truthy (VStr (a +:+ String c b)) = true.
Proof. destruct a; reflexivity. Qed.

Lemma staged_input_truthy env s3Key : truthy (VStr (staged_input env s3Key)) = true.
Proof. apply append_nonempty. Qed.

Lemma input_not_output env a b x y :
  in_tempDir env ("input_" +:+ a +:+ x) <> in_tempDir env ("output_" +:+ b +:+ y).
Proof.
  unfold in_tempDir. intros H. apply append_inj_l in H. cbn in H. discriminate.
Qed.

Lemma staged_paths_differ env s3Key : staged_input env s3Key <> staged_output env s3Key.
Proof. apply input_not_output. Qed.

Lemma downloadFile_found env key path w body :
  bucket w !! key = Some body ->
  downloadFile env key path w
  = (Ok (VObj [ ("success", VBool true);
                ("key", VStr key);
                ("downloadPath", VStr path);
                ("contentLength", VNum (Z.of_nat (String.length body))) ]),
     World (bucket w) (<[path := body]> (files w)) (trace w ++ [S3GetObject key])).
Proof.
  intros Hfound. unfold downloadFile. run_monad.
  unfold emit, getObject, writeFile. cbn. rewrite Hfound. reflexivity.
Qed.

Lemma getVideoMetadata_probes env path w content :
  files w !! path = Some content ->
  getVideoMetadata env path w
  = (match ffprobe env (Some content) with
     | Ok metadata => Ok metadata
     | Throw error => Throw (Error ("ffprobe failed: " +:+ err_message error))
     end,
     World (bucket w) (files w) (trace w ++ [FFprobe path])).
Proof.
  intros Hfile. unfold getVideoMetadata. run_monad.
  unfold existsSync, emit, readFile, throw. cbn. rewrite Hfile.
  rewrite bool_decide_eq_true_2 by eauto. cbn. rewrite ?Hfile.
  destruct (ffprobe env (Some content)); reflexivity.
Qed.

Lemma transcodeVideo_runs env path output outputPath w content :
  files w !! path = Some content ->
  truthy (VStr path) = true ->
  transcodeVideo env (VObj [ ("path", VStr path) ]) output outputPath w
  = match ffmpeg env (Some content) output with
    | Ok encoded =>
        (Ok (VObj [ ("success", VBool true);
                    ("input", VObj [ ("path", VStr path) ]);
                    ("output", VObj [ ("path", VStr outputPath);
                                      ("size", VNum (Z.of_nat (String.length encoded)));
                                      ("exists", VBool true) ]);
                    ("metric", VObj [ ("command", VUndefined);
                                      ("result", VObj [ ("success", VBool true);
                                                        ("code", VNum 0);
                                                        ("output", VStr "Transcoding completed successfully") ]) ]) ]),
         World (bucket w) (<[outputPath := encoded]> (files w))
               (trace w ++ [FFmpeg path output]))
    | Throw error =>
        (Ok (VObj [ ("success", VBool false);
                    ("error", VStr ("FFmpeg failed: " +:+ err_message error));
                    ("input", VObj [ ("path", VStr path) ]);
                    ("output", output) ]),
         World (bucket w) (files w) (trace w ++ [FFmpeg path output]))
    end.
Proof.
  intros Hfile Hpath. unfold transcodeVideo, try_catch, executeFFmpeg. run_monad.
  unfold eval, when, emit, readFile, writeFile, existsSync, throw.
  cbn. cbn in Hpath. rewrite Hpath. cbn. rewrite Hfile.
  destruct (ffmpeg env (Some content) output) as [encoded|error]; cbn; [|reflexivity].
  rewrite lookup_insert_eq. reflexivity.
Qed.

Lemma uploadFile_found env filePath key metadata w content :
  files w !! filePath = Some content ->
  uploadFile env filePath key metadata w
  = (Ok (VObj [ ("success", VBool true);
                ("key", VStr key);
                ("location", VStr ("s3://" +:+ bucketName env +:+ "/" +:+ key)) ]),
     World (<[key := content]> (bucket w)) (files w) (trace w ++ [S3PutObject key metadata])).
Proof.
  intros Hfile. unfold uploadFile. run_monad.
  unfold readFile, emit, putObject. cbn. rewrite Hfile. reflexivity.
Qed.

(** [if (fs.existsSync(path)) fs.unlinkSync(path)] *)
Lemma unlink_present path w (k : task value) :
  is_Some (files w !! path) ->
  (existsSync path ≫= (fun present => when present (unlinkSync path) ≫= (fun _ => k))) w
  = k (World (bucket w) (delete path (files w)) (trace w ++ [Unlink path])).
Proof.
  intros Hfile. run_monad. unfold existsSync, when, unlinkSync, emit, removeFile.
  cbn. rewrite bool_decide_eq_true_2 by done. reflexivity.
Qed.

Lemma known_preset_resolves preset path :
  In preset (Object_keys FFmpegUtils.QUALITY_TO_PRESETS_entries) ->
  truthy (VStr path) = true ->
  exists output,
    FFmpegUtils.createTranscodingConfig
      (VObj [ ("input", VObj [ ("path", VStr path) ]); ("quality", VStr preset) ])
    = Ok (VObj [ ("input", VObj [ ("path", VStr path) ]); ("output", VObj output) ]).
Proof.
  intros Hin Hpath. destruct path as [|c path]; [discriminate|].
  cbn in Hin. destruct Hin as [<-|[<-|[<-|[]]]]; eexists; vm_compute; reflexivity.
Qed.

End worker_steps.

Section worker_outcomes.
Import Worker Runs.

Lemma on_failure_runs env jobId s3Key outputS3Key resolutionPreset error w :
  on_failure env jobId s3Key outputS3Key resolutionPreset error w
  = (Throw error,
     World (bucket w)
           (delete (cleanup_output env s3Key) (delete (cleanup_input env s3Key) (files w)))
           (trace w ++ cleanup_events env s3Key w
            ++ [HttpCallback jobId
                  (failure_result env jobId s3Key outputS3Key resolutionPreset error)])).
Proof.
  assert (Hne : cleanup_input env s3Key <> cleanup_output env s3Key)
    by apply input_not_output.
  unfold on_failure, cleanup_events, callJobCallback. run_monad.
  unfold existsSync, when, unlinkSync, emit, removeFile, throw. run_monad. cbn.
  destruct (files w !! cleanup_input env s3Key) as [x|] eqn:Hin;
    destruct (files w !! cleanup_output env s3Key) as [y|] eqn:Hout; cbn;
    rewrite ?lookup_delete_ne by done; rewrite ?Hout; cbn.
  - by rewrite <- !app_assoc.
  - rewrite (delete_id _ (cleanup_output env s3Key)) by (by rewrite lookup_delete_ne).
    by rewrite <- !app_assoc.
  - rewrite (delete_id _ (cleanup_input env s3Key)) by done.
    by rewrite <- !app_assoc.
  - rewrite (delete_id _ (cleanup_input env s3Key)) by done.
    by rewrite delete_id.
Qed.

Lemma processVideoFile_catch env jobId s3Key outputS3Key resolutionPreset :
  processVideoFile env jobId s3Key outputS3Key resolutionPreset
  = try_catch
      (downloadResult ← downloadFile env s3Key (staged_input env s3Key);
       transcodingConfig ←
         eval (FFmpegUtils.createTranscodingConfig
                 (VObj [ ("input", VObj [ ("path", VStr (staged_input env s3Key)) ]);
                         ("quality", VStr resolutionPreset) ]));
       config_input ← eval (get transcodingConfig "input");
       config_output ← eval (get transcodingConfig "output");
       input_path ← eval (get config_input "path");
       metadata ← getVideoMetadata env (to_string input_path);
       transcodingResult ←
         transcodeVideo env config_input
           (VObj (spread_into (own_enumerable config_output)
                    (VObj [ ("path", VStr (staged_output env s3Key)) ])))
           (staged_output env s3Key);
       transcoded ← eval (get transcodingResult "success");
       when (negb (truthy transcoded))
         (error ← eval (get transcodingResult "error");
          throw (Error ("Transcoding failed: " +:+ to_string error)));;
       uploadResult ← uploadFile env (staged_output env s3Key) outputS3Key
                        (upload_metadata env s3Key resolutionPreset);
       staged ← existsSync (staged_input env s3Key);
       when staged (unlinkSync (staged_input env s3Key));;
       produced ← existsSync (staged_output env s3Key);
       when produced (unlinkSync (staged_output env s3Key));;
       metric ← eval (get_opt transcodingResult "metric");
       command ← eval (get_opt metric "command");
       callJobCallback jobId
         (job_result true jobId s3Key outputS3Key resolutionPreset (jobDuration env)
            (or_else command (VStr "transcoding command")) "");;
       mret (job_result true jobId s3Key outputS3Key resolutionPreset (jobDuration env)
               (or_else command (VStr "transcoding command")) ""))
      (on_failure env jobId s3Key outputS3Key resolutionPreset).
Proof. reflexivity. Qed.

(** The run on an input that the bucket holds, for a preset of the table:
    what happens next depends on the probe and on the engine only. *)
Lemma processVideoFile_staged env jobId s3Key outputS3Key resolutionPreset w raw :
  bucket w !! s3Key = Some raw ->
  In resolutionPreset (Object_keys FFmpegUtils.QUALITY_TO_PRESETS_entries) ->
  exists output,
    FFmpegUtils.createTranscodingConfig
      (VObj [ ("input", VObj [ ("path", VStr (staged_input env s3Key)) ]);
              ("quality", VStr resolutionPreset) ])
    = Ok (VObj [ ("input", VObj [ ("path", VStr (staged_input env s3Key)) ]);
                 ("output", VObj output) ]) /\
    let tin := staged_input env s3Key in
    let tout := staged_output env s3Key in
    let probed :=
      World (bucket w) (<[tin := raw]> (files w))
            (trace w ++ [S3GetObject s3Key; FFprobe tin]) in
    let encoding :=
      World (bucket w) (<[tin := raw]> (files w))
            (trace w ++ [S3GetObject s3Key; FFprobe tin;
                         FFmpeg tin (engine_config env s3Key output)]) in
    processVideoFile env jobId s3Key outputS3Key resolutionPreset w
    = match ffprobe env (Some raw) with
      | Throw error =>
          on_failure env jobId s3Key outputS3Key resolutionPreset
            (Error ("ffprobe failed: " +:+ err_message error)) probed
      | Ok _ =>
          match ffmpeg env (Some raw) (engine_config env s3Key output) with
          | Throw error =>
              on_failure env jobId s3Key outputS3Key resolutionPreset
                (Error ("Transcoding failed: FFmpeg failed: " +:+ err_message error))
                encoding
          | Ok encoded =>
              (Ok (success_result env jobId s3Key outputS3Key resolutionPreset),
               World (<[outputS3Key := encoded]> (bucket w))
                     (delete tout (delete tin (<[tout := encoded]> (<[tin := raw]> (files w)))))
                     (trace w ++ [S3GetObject s3Key; FFprobe tin;
                                  FFmpeg tin (engine_config env s3Key output);
                                  S3PutObject outputS3Key
                                    (upload_metadata env s3Key resolutionPreset);
                                  Unlink tin; Unlink tout;
                                  HttpCallback jobId
                                    (success_result env jobId s3Key outputS3Key
                                       resolutionPreset)]))
          end
      end.
Proof.
  intros Hraw Hpreset.
  destruct (known_preset_resolves resolutionPreset (staged_input env s3Key) Hpreset
              (staged_input_truthy env s3Key)) as [output Hconfig].
  exists output. split; [exact Hconfig|]. cbv zeta.
  pose proof (staged_paths_differ env s3Key) as Hne.
  rewrite processVideoFile_catch. unfold try_catch.
  rewrite (bind_returns _ _ _ _ _ (downloadFile_found env _ _ _ _ Hraw)).
  rewrite (bind_eval _ _ _ _ Hconfig).
  do 3 (erewrite bind_eval by reflexivity).
  cbn [to_string own_enumerable].
  fold (engine_config env s3Key output).
  rewrite (bind_steps _ _ _ _ _ (getVideoMetadata_probes env _ _ raw (lookup_insert_eq _ _ _))).
  cbn [bucket files trace].
  destruct (ffprobe env (Some raw)) as [metadata|error]; [|by rewrite <- app_assoc].
  match goal with
  | |- context [(transcodeVideo ?e ?i ?o ?p ≫= _) ?w0] =>
      pose proof (transcodeVideo_runs e _ o p w0 raw (lookup_insert_eq _ _ _)
                    (staged_input_truthy env s3Key)) as Hrun
  end.
  cbn [bucket files trace] in Hrun.
  destruct (ffmpeg env (Some raw) (engine_config env s3Key output)) as [encoded|error];
    rewrite (bind_steps _ _ _ _ _ Hrun); clear Hrun.
  - erewrite bind_eval by reflexivity. cbn [truthy negb when].
    rewrite (bind_returns (mret tt) _ _ _ _ eq_refl).
    rewrite (bind_returns _ _ _ _ _
               (uploadFile_found env _ _ _ _ encoded (lookup_insert_eq _ _ _))).
    cbn [bucket files trace].
    rewrite unlink_present
      by (cbn [files]; rewrite lookup_insert_ne by done; rewrite lookup_insert_eq; eauto).
    cbn [bucket files trace].
    rewrite unlink_present
      by (cbn [files]; rewrite lookup_delete_ne by done; rewrite lookup_insert_eq; eauto).
    cbn [bucket files trace].
    do 2 (erewrite bind_eval by reflexivity).
    unfold callJobCallback, success_result, emit. run_monad. cbn.
    by rewrite <- !app_assoc.
  - erewrite bind_eval by reflexivity. cbn [truthy negb when].
    erewrite bind_throws.
    2: { erewrite bind_eval by reflexivity. reflexivity. }
    cbn [to_string]. rewrite <- !app_assoc. reflexivity.
Qed.

End worker_outcomes.

Section worker_properties.
Import Worker Runs.

Lemma length_append (a b : string) :
  String.length (a +:+ b) = (String.length a + String.length b)%nat.
Proof.
  induction a as [|x a IH]; [done|].
  change (S (String.length (a +:+ b)) = S (String.length a + String.length b)).
  by rewrite IH.
Qed.

Lemma append_inj_r (a b c : string) : a +:+ c = b +:+ c -> a = b.
Proof.
  revert b. induction a as [|x a IH]; intros [|y b] H.
  - reflexivity.
  - apply (f_equal String.length) in H.
    change (String.length c = S (String.length (b +:+ c))) in H.
    rewrite length_append in H. lia.
  - apply (f_equal String.length) in H.
    change (S (String.length (a +:+ c)) = String.length c) in H.
    rewrite length_append in H. lia.
  - injection H as -> H. f_equal. by apply IH.
Qed.

Lemma string_of_Z_inj a b : string_of_Z a = string_of_Z b -> a = b.
Proof.
  assert (Hnil : forall n, Z.to_int n <> Decimal.Pos Decimal.Nil
                           /\ Z.to_int n <> Decimal.Neg Decimal.Nil).
  { intros [|p|p]; cbn; split; try discriminate; intros [= H];
      by apply DecimalPos.Unsigned.to_uint_nonnil in H. }
  unfold string_of_Z. intros H.
  apply (f_equal NilZero.int_of_string) in H.
  rewrite !NilZero.isi in H by apply Hnil.
  injection H as H. by apply DecimalZ.to_int_inj.
Qed.

Lemma cleanup_input_staged env s3Key :
  cleanup_input env s3Key = staged_input env s3Key <->
  now_cleanup_input env = now_input env.
Proof.
  unfold cleanup_input, staged_input, in_tempDir. split; [|by intros ->].
  intros H. do 2 apply append_inj_l in H.
  change ("input_" +:+ ?x) with ("input_" +:+ x) in H.
  apply (append_inj_l "input_") in H.
  apply append_inj_r in H. by apply string_of_Z_inj.
Qed.

(** X1. A run on an input that the bucket holds, for a preset of the table,
    with a probe and an engine that succeed: the run returns the success
    result; the events are, in this order, the download, the probe, the
    engine, the upload under [outputS3Key] with the job's metadata, the
    deletion of both local files, and the callback with the success
    result; afterwards the bucket holds the engine's output under
    [outputS3Key], both local files are gone and no other local file
    changed. *)
Theorem processVideoFile_succeeds
    env jobId s3Key outputS3Key resolutionPreset w raw metadata encoded :
  bucket w !! s3Key = Some raw ->
  In resolutionPreset (Object_keys FFmpegUtils.QUALITY_TO_PRESETS_entries) ->
  ffprobe env (Some raw) = Ok metadata ->
  (forall output, ffmpeg env (Some raw) output = Ok encoded) ->
  let run := processVideoFile env jobId s3Key outputS3Key resolutionPreset w in
  run.1 = Ok (success_result env jobId s3Key outputS3Key resolutionPreset) /\
  (exists config,
     trace run.2
     = trace w ++ [ S3GetObject s3Key;
                    FFprobe (staged_input env s3Key);
                    FFmpeg (staged_input env s3Key) config;
                    S3PutObject outputS3Key (upload_metadata env s3Key resolutionPreset);
                    Unlink (staged_input env s3Key);
                    Unlink (staged_output env s3Key);
                    HttpCallback jobId
                      (success_result env jobId s3Key outputS3Key resolutionPreset) ]) /\
  bucket run.2 = <[outputS3Key := encoded]> (bucket w) /\
  files run.2 !! staged_input env s3Key = None /\
  files run.2 !! staged_output env s3Key = None /\
  (forall path, path <> staged_input env s3Key -> path <> staged_output env s3Key ->
                files run.2 !! path = files w !! path).
Proof.
  intros Hraw Hpreset Hprobe Hengine. cbv zeta.
  destruct (processVideoFile_staged env jobId s3Key outputS3Key resolutionPreset w raw
              Hraw Hpreset) as (output & _ & Hrun).
  cbv zeta in Hrun. rewrite Hprobe, Hengine in Hrun. rewrite Hrun. cbn [fst snd bucket files trace].
  pose proof (staged_paths_differ env s3Key) as Hne.
  split; [reflexivity|]. split; [by eexists|]. split; [reflexivity|].
  split; [by rewrite lookup_delete_ne, lookup_delete_eq|].
  split; [by rewrite lookup_delete_eq|].
  intros path Hin Hout. by rewrite !lookup_delete_ne, !lookup_insert_ne.
Qed.

Lemma processVideoFile_succeeds_witness :
  (processVideoFile Samples.worker_env Samples.jobId "uploads/video.mp4"
     "uploads/video_720p30av1.mp4" "720p30av1" Samples.world).1
  = Ok (success_result Samples.worker_env Samples.jobId "uploads/video.mp4"
          "uploads/video_720p30av1.mp4" "720p30av1").
Proof.
  refine (proj1 (processVideoFile_succeeds Samples.worker_env Samples.jobId
                   "uploads/video.mp4" "uploads/video_720p30av1.mp4" "720p30av1"
                   Samples.world "RAW" (VObj [ ("duration", VNum 10) ]) "av1:RAW"
                   _ _ _ _)).
  - vm_compute. reflexivity.
  - vm_compute. tauto.
  - reflexivity.
  - intros output. reflexivity.
Defined.

(** X2. When the engine fails on an input that was staged and probed, the
    run throws "Transcoding failed: FFmpeg failed: " followed by the
    engine's message; after the engine it only deletes local files and
    posts one callback, whose result has [success: false] and the stack of
    that error; nothing is uploaded and the bucket is unchanged. *)
Theorem engine_failure_is_reported
    env jobId s3Key outputS3Key resolutionPreset w raw metadata error :
  bucket w !! s3Key = Some raw ->
  In resolutionPreset (Object_keys FFmpegUtils.QUALITY_TO_PRESETS_entries) ->
  ffprobe env (Some raw) = Ok metadata ->
  (forall output, ffmpeg env (Some raw) output = Throw error) ->
  let run := processVideoFile env jobId s3Key outputS3Key resolutionPreset w in
  let failure := Error ("Transcoding failed: FFmpeg failed: " +:+ err_message error) in
  run.1 = Throw failure /\
  (exists config cleanup,
     trace run.2
     = trace w ++ [ S3GetObject s3Key;
                    FFprobe (staged_input env s3Key);
                    FFmpeg (staged_input env s3Key) config ]
       ++ cleanup
       ++ [ HttpCallback jobId
              (failure_result env jobId s3Key outputS3Key resolutionPreset failure) ] /\
     Forall (fun e => exists path, e = Unlink path) cleanup) /\
  bucket run.2 = bucket w.
Proof.
  intros Hraw Hpreset Hprobe Hengine. cbv zeta.
  destruct (processVideoFile_staged env jobId s3Key outputS3Key resolutionPreset w raw
              Hraw Hpreset) as (output & _ & Hrun).
  cbv zeta in Hrun. rewrite Hprobe, Hengine in Hrun.
  rewrite Hrun, on_failure_runs. cbn [fst snd bucket files trace].
  split; [reflexivity|]. split; [|reflexivity].
  eexists (engine_config env s3Key output), (cleanup_events env s3Key _).
  split; [rewrite <- app_assoc; reflexivity|].
  unfold cleanup_events. repeat case_bool_decide; repeat constructor; eauto.
Qed.

Lemma engine_failure_is_reported_witness :
  (processVideoFile Cases.broken_engine Samples.jobId "uploads/video.mp4"
     "uploads/video_720p30av1.mp4" "720p30av1" Samples.world).1
  = Throw (Error "Transcoding failed: FFmpeg failed: ffmpeg exited with code 1").
Proof.
  refine (proj1 (engine_failure_is_reported Cases.broken_engine Samples.jobId
                   "uploads/video.mp4" "uploads/video_720p30av1.mp4" "720p30av1"
                   Samples.world "RAW" (VObj [ ("duration", VNum 10) ])
                   (Error "ffmpeg exited with code 1") _ _ _ _)).
  - vm_compute. reflexivity.
  - vm_compute. tauto.
  - reflexivity.
  - intros output. reflexivity.
Defined.

(** X3. A failure of the probe is fatal: the run throws "ffprobe failed: "
    followed by the probe's message, the engine is never started, nothing
    is uploaded, and the callback reports the failure. *)
Theorem probe_failure_is_fatal
    env jobId s3Key outputS3Key resolutionPreset w raw error :
  bucket w !! s3Key = Some raw ->
  In resolutionPreset (Object_keys FFmpegUtils.QUALITY_TO_PRESETS_entries) ->
  ffprobe env (Some raw) = Throw error ->
  let run := processVideoFile env jobId s3Key outputS3Key resolutionPreset w in
  let failure := Error ("ffprobe failed: " +:+ err_message error) in
  run.1 = Throw failure /\
  (exists cleanup,
     trace run.2
     = trace w ++ [ S3GetObject s3Key; FFprobe (staged_input env s3Key) ]
       ++ cleanup
       ++ [ HttpCallback jobId
              (failure_result env jobId s3Key outputS3Key resolutionPreset failure) ] /\
     Forall (fun e => exists path, e = Unlink path) cleanup) /\
  bucket run.2 = bucket w.
Proof.
  intros Hraw Hpreset Hprobe. cbv zeta.
  destruct (processVideoFile_staged env jobId s3Key outputS3Key resolutionPreset w raw
              Hraw Hpreset) as (output & _ & Hrun).
  cbv zeta in Hrun. rewrite Hprobe in Hrun.
  rewrite Hrun, on_failure_runs. cbn [fst snd bucket files trace].
  split; [reflexivity|]. split; [|reflexivity].
  eexists (cleanup_events env s3Key _).
  split; [rewrite <- app_assoc; reflexivity|].
  unfold cleanup_events. repeat case_bool_decide; repeat constructor; eauto.
Qed.

Lemma probe_failure_is_fatal_witness :
  (processVideoFile Cases.broken_probe Samples.jobId "uploads/video.mp4"
     "uploads/video_720p30av1.mp4" "720p30av1" Samples.world).1
  = Throw (Error "ffprobe failed: Invalid data found when processing input").
Proof.
  refine (proj1 (probe_failure_is_fatal Cases.broken_probe Samples.jobId
                   "uploads/video.mp4" "uploads/video_720p30av1.mp4" "720p30av1"
                   Samples.world "RAW" (Error "Invalid data found when processing input")
                   _ _ _)).
  - vm_compute. reflexivity.
  - vm_compute. tauto.
  - reflexivity.
Defined.

(** X4. The [catch] block looks for the local files under names built from
    a new clock reading. When a run fails after its input was staged, the
    staged input is deleted only if that reading equals the one the file
    was named with; otherwise the file stays in the temp directory. *)
Theorem failed_run_keeps_staged_input
    env jobId s3Key outputS3Key resolutionPreset w raw failure :
  bucket w !! s3Key = Some raw ->
  In resolutionPreset (Object_keys FFmpegUtils.QUALITY_TO_PRESETS_entries) ->
  let run := processVideoFile env jobId s3Key outputS3Key resolutionPreset w in
  run.1 = Throw failure ->
  files run.2 !! staged_input env s3Key
  = if decide (now_cleanup_input env = now_input env) then None else Some raw.
Proof.
  intros Hraw Hpreset. cbv zeta.
  destruct (processVideoFile_staged env jobId s3Key outputS3Key resolutionPreset w raw
              Hraw Hpreset) as (output & _ & Hrun).
  cbv zeta in Hrun. rewrite Hrun. clear Hrun.
  assert (Hout : cleanup_output env s3Key <> staged_input env s3Key).
  { intros H. symmetry in H. revert H. apply input_not_output. }
  assert (Hcleaned : forall trace,
    files (on_failure env jobId s3Key outputS3Key resolutionPreset failure
             (World (bucket w) (<[staged_input env s3Key := raw]> (files w)) trace)).2
      !! staged_input env s3Key
    = if decide (now_cleanup_input env = now_input env) then None else Some raw).
  { intros tr. rewrite on_failure_runs. cbn [fst snd files].
    rewrite lookup_delete_ne by done.
    destruct (decide (now_cleanup_input env = now_input env)) as [Heq|Hne].
    - apply (cleanup_input_staged env s3Key) in Heq. rewrite Heq.
      by rewrite lookup_delete_eq.
    - rewrite lookup_delete_ne by (by rewrite cleanup_input_staged).
      by rewrite lookup_insert_eq. }
  destruct (ffprobe env (Some raw)) as [metadata|error].
  - destruct (ffmpeg env (Some raw) _) as [encoded|error]; [discriminate|].
    rewrite on_failure_runs. cbn [fst]. intros [= <-].
    rewrite <- (Hcleaned (trace w ++ [S3GetObject s3Key])). by rewrite !on_failure_runs.
  - rewrite on_failure_runs. cbn [fst]. intros [= <-].
    rewrite <- (Hcleaned (trace w ++ [S3GetObject s3Key])). by rewrite !on_failure_runs.
Qed.

Lemma failed_run_keeps_staged_input_witness :
  files (processVideoFile Cases.broken_engine Samples.jobId "uploads/video.mp4"
           "uploads/video_720p30av1.mp4" "720p30av1" Samples.world).2
    !! "/srv/temp/input_100_video.mp4"
  = Some "RAW".
Proof.
  refine (failed_run_keeps_staged_input Cases.broken_engine Samples.jobId
            "uploads/video.mp4" "uploads/video_720p30av1.mp4" "720p30av1"
            Samples.world "RAW"
            (Error "Transcoding failed: FFmpeg failed: ffmpeg exited with code 1")
            _ _ _).
  - vm_compute. reflexivity.
  - vm_compute. tauto.
  - vm_compute. reflexivity.
Defined.

End worker_properties.

Section worker_frames.
Import Worker Runs.

Section ending.
Context (P Q : event -> Prop).

Lemma ends_with_bind {A B} (t : task A) (k : A -> task B) :
  emits_only P t -> (forall a, ends_with P Q (k a)) -> ends_with P Q (t ≫= k).
Proof.
  intros Ht Hk w. unfold mbind, task_bind.
  destruct (Ht w) as (evs & Htrace & Hall).
  destruct (t w) as [[a|e] w1]; cbn in *.
  - destruct (Hk a w1) as (evs' & Htrace' & Hres).
    exists (evs ++ evs'). rewrite Htrace', Htrace, app_assoc. split; [done|].
    destruct (k a w1).1 as [b|e].
    + destruct Hres as (evs1 & e1 & -> & Hall1 & He1).
      exists (evs ++ evs1), e1. rewrite app_assoc. split; [done|].
      split; [by apply Forall_app|done].
    + by apply Forall_app.
  - by exists evs.
Qed.

Lemma ends_with_post {A} e (a : A) :
  Q e -> ends_with P Q (emit e ≫= fun _ => mret a).
Proof.
  intros He w. exists [e]. split; [reflexivity|].
  cbn. exists [], e. by repeat split.
Qed.

End ending.

Ltac quiet_step :=
  first
    [ apply emits_only_bind; [|intros ?]
    | apply emits_only_try_catch; [|intros ?]
    | apply emits_only_when
    | apply emits_only_ret
    | apply emits_only_emit
    | apply emits_only_quiet; intros ?; reflexivity
    | apply emits_only_quiet; intros ?; unfold eval, throw; reflexivity ].

Lemma processVideoFile_callback env jobId s3Key outputS3Key resolutionPreset w :
  let run := processVideoFile env jobId s3Key outputS3Key resolutionPreset w in
  exists evs result,
    trace run.2 = trace w ++ evs ++ [HttpCallback jobId result] /\
    Forall (fun e => is_callback e = false) evs /\
    get result "success" = Ok (VBool (returned run.1)).
Proof.
  cbv zeta. rewrite processVideoFile_catch. unfold try_catch.
  match goal with
  | |- context [match ?body w with _ => _ end] =>
      assert (Hbody : ends_with (fun e => is_callback e = false)
                        (fun e => exists result,
                           e = HttpCallback jobId result /\
                           get result "success" = Ok (VBool true))
                        body)
  end.
  { unfold downloadFile, uploadFile, getVideoMetadata, transcodeVideo,
           executeFFmpeg, callJobCallback.
    repeat first
      [ apply ends_with_post; eexists; split; reflexivity
      | apply ends_with_bind; [|intros ?]
      | quiet_step
      | apply emits_only_unlinkSync; intros ?; reflexivity
      | reflexivity
      | match goal with
        | |- emits_only _ (match ?x with _ => _ end) => destruct x
        | |- emits_only _ (if ?x then _ else _) => destruct x
        end ]. }
  destruct (Hbody w) as (evs & Htrace & Hres).
  match goal with
  | |- context [match ?body w with _ => _ end] => destruct (body w) as [[a|e] w1]
  end; cbn [fst snd] in *.
  - destruct Hres as (evs' & e & -> & Hall & result & -> & Hsuccess).
    by exists evs', result.
  - rewrite on_failure_runs. cbn [fst snd trace].
    exists (evs ++ cleanup_events env s3Key w1),
           (failure_result env jobId s3Key outputS3Key resolutionPreset e).
    rewrite Htrace, <- !app_assoc. split; [done|]. split; [|reflexivity].
    apply Forall_app. split; [done|].
    unfold cleanup_events. repeat case_bool_decide; repeat constructor.
Qed.

(** X5. Every run of [processVideoFile], whatever the bucket, the tools
    and the arguments, posts exactly one callback, as its last event and
    for its own job; the result it posts has [success: true] when the run
    returns and [success: false] when it throws. *)
Theorem processVideoFile_posts_one_callback
    env jobId s3Key outputS3Key resolutionPreset w :
  let run := processVideoFile env jobId s3Key outputS3Key resolutionPreset w in
  exists evs result,
    trace run.2 = trace w ++ evs ++ [HttpCallback jobId result] /\
    Forall (fun e => is_callback e = false) evs /\
    get result "success" = Ok (VBool (returned run.1)).
Proof. exact (processVideoFile_callback env jobId s3Key outputS3Key resolutionPreset w). Qed.

Section framing.
Context (R : world -> world -> Prop).
Context (R_refl : forall w, R w w).
Context (R_trans : forall a b c, R a b -> R b c -> R a c).

Lemma within_ret {A} (a : A) : within R (mret a : task A).
Proof. intros w. apply R_refl. Qed.

Lemma within_bind {A B} (t : task A) (k : A -> task B) :
  within R t -> (forall a, within R (k a)) -> within R (t ≫= k).
Proof.
  intros Ht Hk w. unfold mbind, task_bind.
  pose proof (Ht w) as H1. destruct (t w) as [[a|e] w1]; cbn in *; [|done].
  exact (R_trans _ _ _ H1 (Hk a w1)).
Qed.

Lemma within_try_catch {A} (t : task A) (h : js_error -> task A) :
  within R t -> (forall e, within R (h e)) -> within R (try_catch t h).
Proof.
  intros Ht Hh w. unfold try_catch.
  pose proof (Ht w) as H1. destruct (t w) as [[a|e] w1]; cbn in *; [done|].
  exact (R_trans _ _ _ H1 (Hh e w1)).
Qed.

Lemma within_when b (t : task unit) : within R t -> within R (when b t).
Proof. intros Ht. destruct b; [exact Ht|apply within_ret]. Qed.

Lemma within_same {A} (t : task A) :
  (forall w, (t w).2 = w) -> within R t.
Proof. intros H w. rewrite H. apply R_refl. Qed.

End framing.

Lemma touches_own_refl env s3Key outputS3Key w : touches_own env s3Key outputS3Key w w.
Proof. split; [intros k; split; done|intros p _; done]. Qed.

Lemma touches_own_trans env s3Key outputS3Key a b c :
  touches_own env s3Key outputS3Key a b -> touches_own env s3Key outputS3Key b c ->
  touches_own env s3Key outputS3Key a c.
Proof.
  intros [Hb1 Hf1] [Hb2 Hf2]. split.
  - intros k. destruct (Hb1 k) as [H1 H1'], (Hb2 k) as [H2 H2']. split.
    + intros Hne. by rewrite H2, H1.
    + auto.
  - intros p Hp. by rewrite Hf2, Hf1.
Qed.

Lemma touches_own_emit env s3Key outputS3Key e :
  within (touches_own env s3Key outputS3Key) (emit e).
Proof. intros w. split; [intros k; split; done|intros p _; done]. Qed.

Lemma touches_own_writeFile env s3Key outputS3Key path content :
  In path (own_paths env s3Key) ->
  within (touches_own env s3Key outputS3Key) (writeFile path content).
Proof.
  intros Hin w. split; [intros k; split; done|].
  intros p Hp. cbn. rewrite lookup_insert_ne; [done|]. by intros ->.
Qed.

Lemma touches_own_unlinkSync env s3Key outputS3Key path :
  In path (own_paths env s3Key) ->
  within (touches_own env s3Key outputS3Key) (unlinkSync path).
Proof.
  intros Hin w. unfold unlinkSync, emit, removeFile. run_monad. cbn.
  split; [intros k; split; done|].
  intros p Hp. cbn. rewrite lookup_delete_ne; [done|]. by intros ->.
Qed.

Lemma touches_own_putObject env s3Key outputS3Key content :
  within (touches_own env s3Key outputS3Key) (putObject outputS3Key content).
Proof.
  intros w. split; [|intros p _; done].
  intros k. cbn. split.
  - intros Hne. by rewrite lookup_insert_ne.
  - intros Hsome. destruct (decide (k = outputS3Key)) as [->|Hne].
    + rewrite lookup_insert_eq. eauto.
    + by rewrite lookup_insert_ne.
Qed.

Lemma processVideoFile_touches_own env jobId s3Key outputS3Key resolutionPreset :
  within (touches_own env s3Key outputS3Key)
         (processVideoFile env jobId s3Key outputS3Key resolutionPreset).
Proof.
  pose proof (touches_own_refl env s3Key outputS3Key) as Hrefl.
  pose proof (touches_own_trans env s3Key outputS3Key) as Htrans.
  rewrite processVideoFile_catch.
  unfold on_failure, downloadFile, uploadFile, getVideoMetadata, transcodeVideo,
         executeFFmpeg, callJobCallback.
  repeat first
    [ apply within_bind; [exact Htrans| |intros ?]
    | apply within_try_catch; [exact Htrans| |intros ?]
    | apply within_when; [exact Hrefl|]
    | apply within_ret; exact Hrefl
    | apply touches_own_emit
    | apply touches_own_putObject
    | apply touches_own_writeFile; unfold own_paths; cbn; tauto
    | apply touches_own_unlinkSync; unfold own_paths; cbn; tauto
    | apply within_same; [exact Hrefl|intros ?; reflexivity]
    | match goal with
      | |- within _ (match ?x with _ => _ end) => destruct x
      | |- within _ (if ?x then _ else _) => destruct x
      end ].
Qed.

(** X6. Whatever happens in a run, the bucket afterwards differs from the
    bucket before at most under [outputS3Key], and every object that
    was in the bucket is still there: a run never deletes an object and
    never writes under another key. *)
Theorem processVideoFile_writes_only_output_key
    env jobId s3Key outputS3Key resolutionPreset w :
  let run := processVideoFile env jobId s3Key outputS3Key resolutionPreset w in
  (forall key, key <> outputS3Key -> bucket run.2 !! key = bucket w !! key) /\
  (forall key, is_Some (bucket w !! key) -> is_Some (bucket run.2 !! key)).
Proof.
  cbv zeta.
  destruct (processVideoFile_touches_own env jobId s3Key outputS3Key resolutionPreset w)
    as [Hbucket _].
  split; intros key; by apply Hbucket.
Qed.

(** X7. Whatever happens in a run, the only local files it creates,
    overwrites or deletes are the staged input, the encoder's output and
    the two files the [catch] block looks for. *)
Theorem processVideoFile_touches_only_temp_files
    env jobId s3Key outputS3Key resolutionPreset w path :
  path <> staged_input env s3Key ->
  path <> staged_output env s3Key ->
  path <> cleanup_input env s3Key ->
  path <> cleanup_output env s3Key ->
  files (processVideoFile env jobId s3Key outputS3Key resolutionPreset w).2 !! path
  = files w !! path.
Proof.
  intros H1 H2 H3 H4.
  destruct (processVideoFile_touches_own env jobId s3Key outputS3Key resolutionPreset w)
    as [_ Hfiles].
  apply Hfiles. unfold own_paths. cbn. intros [?|[?|[?|[?|[]]]]]; congruence.
Qed.

Lemma processVideoFile_touches_only_temp_files_witness :
  files (processVideoFile Samples.worker_env Samples.jobId "uploads/video.mp4"
           "uploads/video_720p30av1.mp4" "720p30av1"
           (World (bucket Samples.world) {[ "/srv/temp/keep.txt" := "kept" ]} [])).2
    !! "/srv/temp/keep.txt"
  = Some "kept".
Proof.
  refine (processVideoFile_touches_only_temp_files Samples.worker_env Samples.jobId
            "uploads/video.mp4" "uploads/video_720p30av1.mp4" "720p30av1"
            (World (bucket Samples.world) {[ "/srv/temp/keep.txt" := "kept" ]} [])
            "/srv/temp/keep.txt" _ _ _ _); vm_compute; discriminate.
Defined.

End worker_frames.

Section worker_process.
Import Worker Runs.

Lemma trim_empty : trim "" = "".
Proof. reflexivity. Qed.

Lemma validateS3Key_blank s3Key :
  trim s3Key = "" -> exists e, validateS3Key s3Key = Throw e.
Proof.
  intros Hblank. unfold validateS3Key.
  destruct (negb (truthy (VStr s3Key))); [by eexists|].
  rewrite Hblank. cbn. by eexists.
Qed.

Lemma validateResolutionPreset_unknown preset :
  unknown_name (Object_keys FFmpegUtils.QUALITY_TO_PRESETS_entries) preset ->
  exists e, validateResolutionPreset preset = Throw e.
Proof.
  intros Hunknown. unfold validateResolutionPreset.
  pose proof (get_unknown_name _ FFmpegUtils.QUALITY_TO_PRESETS_entries preset
                eq_refl Hunknown) as Hget.
  unfold FFmpegUtils.get_computed in Hget. cbn [to_string] in Hget.
  unfold FFmpegUtils.QUALITY_TO_PRESETS. rewrite Hget. cbn. by eexists.
Qed.

(** X8. A worker process started with fewer than four arguments, with a
    blank input key or with a preset name that is neither in the preset
    table nor a member of [Object.prototype] exits with code 1 before it
    does anything: no download, no local file, no callback. *)
Theorem main_rejects_arguments_silently env args w :
  (length args < 4)%nat
  \/ (exists jobId s3Key outputS3Key resolutionPreset rest,
        args = jobId :: s3Key :: outputS3Key :: resolutionPreset :: rest /\
        (trim s3Key = ""
         \/ unknown_name (Object_keys FFmpegUtils.QUALITY_TO_PRESETS_entries)
                         resolutionPreset)) ->
  main env args w = (1, w).
Proof.
  intros [Hshort|(jobId & s3Key & outputS3Key & resolutionPreset & rest & -> & Hbad)].
  - destruct args as [|a [|b [|c [|d rest]]]]; cbn in Hshort; try reflexivity; lia.
  - unfold main. destruct Hbad as [Hblank|Hunknown].
    + destruct (validateS3Key_blank s3Key Hblank) as [e ->]. reflexivity.
    + destruct (validateResolutionPreset_unknown _ Hunknown) as [e ->].
      destruct (validateS3Key s3Key); reflexivity.
Qed.

Lemma main_rejects_arguments_silently_witness :
  main Samples.worker_env [ Samples.jobId; "uploads/video.mp4";
                            "uploads/video_480p.mp4"; "480p" ] Samples.world
  = (1, Samples.world).
Proof.
  apply main_rejects_arguments_silently. right.
  exists Samples.jobId, "uploads/video.mp4", "uploads/video_480p.mp4", "480p", [].
  split; [reflexivity|]. right.
  split; vm_compute; intros H; repeat destruct H as [H|H]; try discriminate H; exact H.
Defined.

(** X9. The exit code of the worker process tells how the run ended: it is
    0 only after a callback with [success: true] was posted as the last
    event, and 1 otherwise, in which case either the arguments were
    rejected and nothing happened, or the last event is a callback with
    [success: false]. *)
Theorem main_exit_code_follows_callback env args w :
  let run := main env args w in
  (run.1 = 0 /\
   exists evs jobId result,
     trace run.2 = trace w ++ evs ++ [HttpCallback jobId result] /\
     get result "success" = Ok (VBool true))
  \/ (run.1 = 1 /\
      (run.2 = w
       \/ exists evs jobId result,
            trace run.2 = trace w ++ evs ++ [HttpCallback jobId result] /\
            get result "success" = Ok (VBool false))).
Proof.
  cbv zeta. unfold main.
  destruct args as [|jobId [|s3Key [|outputS3Key [|resolutionPreset rest]]]];
    try (right; split; [reflexivity|left; reflexivity]).
  destruct (validateS3Key s3Key ≫= _);
    [|right; split; [reflexivity|left; reflexivity]].
  destruct (processVideoFile_callback env jobId s3Key outputS3Key resolutionPreset w)
    as (evs & result & Htrace & _ & Hsuccess).
  cbv zeta in Htrace, Hsuccess.
  destruct (processVideoFile env jobId s3Key outputS3Key resolutionPreset w)
    as [[v|e] w']; cbn [fst snd returned] in *.
  - left. split; [reflexivity|]. by exists evs, jobId, result.
  - right. split; [reflexivity|]. right. by exists evs, jobId, result.
Qed.

End worker_process.

(* ===================================================================== *)
(** ** From submission to status: the handlers and the worker together *)
(* ===================================================================== *)

Section pipeline.
Import VideoController Pipeline Runs.

Lemma downloadFile_missing env key path w :
  Worker.bucket w !! key = None ->
  Worker.downloadFile env key path w
  = (Throw (Worker.NoSuchKey env),
     Worker.World (Worker.bucket w) (Worker.files w)
                  (Worker.trace w ++ [Worker.S3GetObject key])).
Proof.
  intros Hmissing. unfold Worker.downloadFile. run_monad.
  unfold Worker.emit, Worker.getObject, Worker.throw. cbn. by rewrite Hmissing.
Qed.

Lemma processVideoFile_missing env jobId s3Key outputS3Key resolutionPreset w :
  Worker.bucket w !! s3Key = None ->
  Worker.processVideoFile env jobId s3Key outputS3Key resolutionPreset w
  = on_failure env jobId s3Key outputS3Key resolutionPreset (Worker.NoSuchKey env)
      (Worker.World (Worker.bucket w) (Worker.files w)
                    (Worker.trace w ++ [Worker.S3GetObject s3Key])).
Proof.
  intros Hmissing. rewrite processVideoFile_catch. unfold Worker.try_catch.
  by rewrite (bind_throws _ _ _ _ _ (downloadFile_missing env _ _ _ Hmissing)).
Qed.

Lemma events_since_app w evs bucket files :
  events_since w (Worker.World bucket files (Worker.trace w ++ evs)) = evs.
Proof. unfold events_since. cbn. by rewrite drop_app_length. Qed.

Lemma deliver_all_app env evs evs' s :
  deliver_all env (evs ++ evs') s = deliver_all env evs' (deliver_all env evs s).
Proof. unfold deliver_all. by rewrite fold_left_app. Qed.

Lemma deliver_all_quiet env evs s :
  Forall (fun e => is_callback e = false) evs -> deliver_all env evs s = s.
Proof.
  induction 1 as [|e evs He _ IH]; [reflexivity|].
  unfold deliver_all in *. cbn. destruct e; try discriminate; exact IH.
Qed.

Lemma valid_arguments key name :
  trim key <> "" ->
  In name (Object_keys FFmpegUtils.QUALITY_TO_PRESETS_entries) ->
  Worker.validateS3Key key ≫= (fun _ => Worker.validateResolutionPreset name) = Ok tt.
Proof.
  intros Htrim Hin. unfold Worker.validateS3Key.
  assert (Hne : key <> "") by (intros ->; by apply Htrim).
  cbn [truthy]. destruct (String.eqb_spec key ""); [done|]. cbn [negb].
  destruct (String.eqb_spec (trim key) ""); [done|].
  cbn in Hin. destruct Hin as [<-|[<-|[<-|[]]]]; reflexivity.
Qed.

Lemma dispatched env body key name s :
  valid_submission body key name ->
  jobs s !! jobId_of env = None ->
  spawn_throws env = None ->
  (transcodeStart env body s).2
  = Server (<[jobId_of env := started_row env key (VStr name)]> (jobs s))
           (workers s ++ [started_args env key (VStr name)]).
Proof.
  intros Hvalid Hfresh Hspawn.
  by rewrite (transcodeStart_accepted _ _ _ _ _ (valid_passes _ _ _ Hvalid) Hfresh Hspawn).
Qed.

(** X10. The whole path of a job whose input is in the bucket. A valid
    submission is accepted; the worker process is run on the arguments the
    handler dispatched, with a probe and an engine that succeed; the
    callbacks it posts are delivered to [jobCallback]. Then the worker exits
    with code 0, the bucket holds the engine's output under the output key
    computed at submission, and a status query reports "completed" with a
    callback whose [detail.outputS3Key] is that key. *)
Theorem submitted_job_completes
    env callback_env status_env worker_env body key name s w raw metadata encoded :
  valid_submission body key name ->
  jobs s !! jobId_of env = None ->
  spawn_throws env = None ->
  Worker.bucket w !! key = Some raw ->
  Worker.ffprobe worker_env (Some raw) = Ok metadata ->
  (forall output, Worker.ffmpeg worker_env (Some raw) output = Ok encoded) ->
  let accepted := (transcodeStart env body s).2 in
  forall workerArgs, last (workers accepted) = Some workerArgs ->
  let run := Worker.main worker_env (argv workerArgs) w in
  let reported := deliver_all callback_env (events_since w run.2) accepted in
  run.1 = 0 /\
  Worker.bucket run.2 !! outputS3Key_of key (VStr name) = Some encoded /\
  exists detail,
    (getJobStatus status_env (jobId_of env) reported).1
    = Response 200 (VObj [ ("jobId", VStr (jobId_of env));
                           ("state", VStr "completed");
                           ("callback", VObj [ ("success", VBool true);
                                               ("detail", detail) ]) ]) /\
    get detail "outputS3Key" = Ok (VStr (outputS3Key_of key (VStr name))).
Proof.
  intros Hvalid Hfresh Hspawn Hraw Hprobe Hengine accepted workerArgs Hlast run reported.
  subst accepted run reported.
  rewrite (dispatched _ _ _ _ _ Hvalid Hfresh Hspawn) in *. cbn [workers] in Hlast.
  rewrite last_snoc in Hlast. injection Hlast as <-.
  destruct Hvalid as (props & -> & Hkey & Hname & Htrim & Hin).
  unfold argv, started_args. cbn [map to_string]. unfold Worker.main.
  rewrite (valid_arguments _ _ Htrim Hin).
  destruct (processVideoFile_staged worker_env (jobId_of env) key
              (outputS3Key_of key (VStr name)) name w raw Hraw Hin)
    as (output & _ & Hrun).
  cbv zeta in Hrun. rewrite Hprobe, Hengine in Hrun. rewrite Hrun. cbn [fst snd].
  split; [reflexivity|]. split; [cbn; by rewrite lookup_insert_eq|].
  rewrite events_since_app.
  unfold deliver_all. cbn [fold_left deliver].
  unfold posted_body, success_result. cbn [JSON_stringify normalize fmap option_fmap option_map
                                            Worker.job_result JSON_parse denotes].
  rewrite (jobCallback_found callback_env (jobId_of env) _
             (started_row env key (VStr name)))
    by (cbn; apply lookup_insert_eq).
  cbn [snd].
  erewrite getJobStatus_found by (cbn [jobs]; apply lookup_insert_eq).
  eexists. split; [reflexivity|reflexivity].
Qed.

Lemma submitted_job_completes_witness :
  Worker.bucket
    (Worker.main Samples.worker_env
       (argv [ VStr Samples.jobId; VStr "uploads/video.mp4";
               VStr "uploads/video_720p30av1.mp4"; VStr "720p30av1" ])
       Samples.world).2
    !! "uploads/video_720p30av1.mp4"
  = Some "av1:RAW".
Proof.
  refine (proj1 (proj2 (submitted_job_completes Samples.env Samples.later Samples.later
                          Samples.worker_env
                          (Samples.submission "uploads/video.mp4" "720p30av1")
                          "uploads/video.mp4" "720p30av1" Samples.empty_server
                          Samples.world "RAW" (VObj [ ("duration", VNum 10) ]) "av1:RAW"
                          _ _ _ _ _ _
                          [ VStr Samples.jobId; VStr "uploads/video.mp4";
                            VStr "uploads/video_720p30av1.mp4"; VStr "720p30av1" ] _))).
  - eexists. split; [reflexivity|]. repeat split; [discriminate|]. cbn. auto.
  - reflexivity.
  - reflexivity.
  - vm_compute. reflexivity.
  - reflexivity.
  - intros output. reflexivity.
  - vm_compute. reflexivity.
Defined.

(** X11. The whole path of a job whose input is not in the bucket. A valid
    submission is accepted and the worker is run on the dispatched
    arguments; its callback is delivered. Then the worker exits with code
    1 and has left the bucket as it was, and a status query reports
    "failed" with a callback whose [success] is false and whose
    [detail.errorStack] is the stack of the download error. *)
Theorem submitted_job_with_missing_input_fails
    env callback_env status_env worker_env body key name s w :
  valid_submission body key name ->
  jobs s !! jobId_of env = None ->
  spawn_throws env = None ->
  Worker.bucket w !! key = None ->
  let accepted := (transcodeStart env body s).2 in
  forall workerArgs, last (workers accepted) = Some workerArgs ->
  let run := Worker.main worker_env (argv workerArgs) w in
  let reported := deliver_all callback_env (events_since w run.2) accepted in
  run.1 = 1 /\
  Worker.bucket run.2 = Worker.bucket w /\
  exists detail,
    (getJobStatus status_env (jobId_of env) reported).1
    = Response 200 (VObj [ ("jobId", VStr (jobId_of env));
                           ("state", VStr "failed");
                           ("callback", VObj [ ("success", VBool false);
                                               ("detail", detail) ]) ]) /\
    get detail "errorStack" = Ok (VStr (error_stack (Worker.NoSuchKey worker_env))).
Proof.
  intros Hvalid Hfresh Hspawn Hmissing accepted workerArgs Hlast run reported.
  subst accepted run reported.
  rewrite (dispatched _ _ _ _ _ Hvalid Hfresh Hspawn) in *. cbn [workers] in Hlast.
  rewrite last_snoc in Hlast. injection Hlast as <-.
  destruct Hvalid as (props & -> & Hkey & Hname & Htrim & Hin).
  unfold argv, started_args. cbn [map to_string]. unfold Worker.main.
  rewrite (valid_arguments _ _ Htrim Hin).
  rewrite (processVideoFile_missing _ _ _ _ _ _ Hmissing), on_failure_runs.
  cbn [fst snd Worker.bucket Worker.files Worker.trace].
  split; [reflexivity|]. split; [reflexivity|].
  rewrite <- app_assoc, events_since_app.
  rewrite (deliver_all_app _ [Worker.S3GetObject key]).
  rewrite (deliver_all_quiet _ [Worker.S3GetObject key]) by (by repeat constructor).
  rewrite deliver_all_app.
  rewrite (deliver_all_quiet _ (cleanup_events _ _ _))
    by (unfold cleanup_events; repeat case_bool_decide; by repeat constructor).
  unfold deliver_all. cbn [fold_left deliver].
  unfold posted_body, failure_result. cbn [JSON_stringify normalize fmap option_fmap option_map
                                            Worker.job_result JSON_parse denotes].
  rewrite (jobCallback_found callback_env (jobId_of env) _
             (started_row env key (VStr name)))
    by (cbn; apply lookup_insert_eq).
  cbn [snd].
  erewrite getJobStatus_found by (cbn [jobs]; apply lookup_insert_eq).
  eexists. split; [reflexivity|reflexivity].
Qed.

Lemma submitted_job_with_missing_input_fails_witness :
  (Worker.main Samples.worker_env
     (argv [ VStr Samples.jobId; VStr "uploads/missing.mp4";
             VStr "uploads/missing_720p30av1.mp4"; VStr "720p30av1" ])
     Samples.world).1
  = 1.
Proof.
  refine (proj1 (submitted_job_with_missing_input_fails Samples.env Samples.later
                   Samples.later Samples.worker_env
                   (Samples.submission "uploads/missing.mp4" "720p30av1")
                   "uploads/missing.mp4" "720p30av1" Samples.empty_server
                   Samples.world _ _ _ _
                   [ VStr Samples.jobId; VStr "uploads/missing.mp4";
                     VStr "uploads/missing_720p30av1.mp4"; VStr "720p30av1" ] _)).
  - eexists. split; [reflexivity|]. repeat split; [discriminate|]. cbn. auto.
  - reflexivity.
  - reflexivity.
  - vm_compute. reflexivity.
  - vm_compute. reflexivity.
Defined.

End pipeline.

(* ===================================================================== *)
(** ** The job table under the three handlers *)
(* ===================================================================== *)

Section job_table.
Import VideoController Pipeline.

(** The row [transcodeStart] inserts before it launches the worker. *)
Lemma transcodeStart_effect env body s :
  let answer := transcodeStart env body s in
  (status answer.1 = 400 /\ answer.2 = s)
  \/ (status answer.1 = 500 /\ answer.2 = s)
  \/ (exists key preset,
        status answer.1 = 500 /\
        jobs s !! jobId_of env = None /\
        spawn_throws env <> None /\
        answer.2
        = Server (<[jobId_of env :=
                      JobRow (jobId_of env) waiting (VStr key)
                             (VStr (outputS3Key_of key preset)) preset
                             (Date_now_submit env) None]> (jobs s))
                 (workers s))
  \/ (exists key preset,
        status answer.1 = 200 /\
        jobs s !! jobId_of env = None /\
        answer.2
        = Server (<[jobId_of env := started_row env key preset]> (jobs s))
                 (workers s ++ [started_args env key preset])).
Proof.
  cbv zeta. unfold transcodeStart, try_catch.
  destruct (destructure body "s3Key" VUndefined) as [s3Key|e] eqn:Hkey;
    [|right; left; split; reflexivity].
  destruct (destructure body "resolutionPreset" VUndefined) as [preset|e] eqn:Hpreset;
    [|right; left; split; reflexivity].
  run_monad. unfold eval. cbn [negb].
  destruct (truthy s3Key) eqn:Htk; cbn [negb]; [|left; split; reflexivity].
  destruct (truthy preset) eqn:Htp; cbn [negb]; [|left; split; reflexivity].
  destruct s3Key as [| | | |key| | |]; try (left; split; reflexivity).
  destruct (String.eqb (trim key) "") eqn:Htrim; [left; split; reflexivity|].
  destruct (FFmpegUtils.get_computed FFmpegUtils.QUALITY_TO_PRESETS preset)
    as [found|e] eqn:Hfound; [|right; left; split; reflexivity].
  destruct (truthy found) eqn:Htf; cbn [negb]; [|left; split; reflexivity].
  unfold db_create, create, spawn, db_update, update. cbn.
  destruct (jobs s !! jobId_of env) eqn:Hfresh; cbn;
    [right; left; split; [reflexivity|by destruct s]|].
  destruct (spawn_throws env) eqn:Hspawn; cbn.
  - right; right; left. exists key, preset. repeat split; done.
  - right; right; right. exists key, preset.
    rewrite lookup_insert_eq. cbn. rewrite insert_insert_eq. repeat split; done.
Qed.


(** X13. When [spawn] throws for a valid submission under a free job id,
    the answer is 500 with the message of the error, no worker is
    recorded, and the row of the job stays in the table in state
    "waiting": the handler does not undo the insert. *)
Theorem failed_launch_leaves_waiting_row env body key name s error :
  valid_submission body key name ->
  jobs s !! jobId_of env = None ->
  spawn_throws env = Some error ->
  let answer := transcodeStart env body s in
  answer.1
  = Response 500 (VObj [ ("error", VStr "Transcode job failed to start");
                         ("message", VStr (err_message error));
                         ("timestamp", VStr (toISOString env)) ]) /\
  workers answer.2 = workers s /\
  jobs answer.2 !! jobId_of env
  = Some (JobRow (jobId_of env) waiting (VStr key)
                 (VStr (outputS3Key_of key (VStr name))) (VStr name)
                 (Date_now_submit env) None).
Proof.
  intros Hvalid Hfresh Hspawn.
  destruct (valid_passes _ _ _ Hvalid)
    as (Hkey & Hpreset & Htk & Htp & Htrim & found & Hfound & Htf).
  cbv zeta. unfold transcodeStart, try_catch.
  rewrite Hkey, Hpreset. run_monad. unfold eval. cbn [negb].
  rewrite Htk, Htp. cbn [negb]. rewrite Htrim, Hfound. cbn [negb]. rewrite Htf. cbn [negb].
  unfold db_create, create, spawn. cbn.
  rewrite Hfresh. cbn. rewrite Hspawn. cbn.
  repeat split. apply lookup_insert_eq.
Qed.

Lemma failed_launch_leaves_waiting_row_witness :
  jobs (transcodeStart Cases.spawn_fails
          (Samples.submission "uploads/video.mp4" "720p30av1")
          Samples.empty_server).2
    !! Samples.jobId
  = Some (JobRow Samples.jobId waiting (VStr "uploads/video.mp4")
                 (VStr "uploads/video_720p30av1.mp4") (VStr "720p30av1")
                 1754662151360 None).
Proof.
  refine (proj2 (proj2 (failed_launch_leaves_waiting_row Cases.spawn_fails
                          (Samples.submission "uploads/video.mp4" "720p30av1")
                          "uploads/video.mp4" "720p30av1" Samples.empty_server
                          (Error "spawn node ENOENT") _ _ _))).
  - eexists. split; [reflexivity|]. repeat split; [discriminate|]. cbn. auto.
  - reflexivity.
  - reflexivity.
Defined.

(** The state of the server after a callback does not depend on the
    handler's clock. *)
Lemma jobCallback_effect env jobId body s :
  (jobCallback env jobId body s).2 = s
  \/ exists row success detail,
       destructure body "success" VUndefined = Ok success /\
       destructure body "detail" VUndefined = Ok detail /\
       jobs s !! jobId = Some row /\
       (jobCallback env jobId body s).2
       = Server (<[jobId := apply_update (callback_columns body success detail) row]> (jobs s))
                (workers s).
Proof.
  destruct (destructure body "success" VUndefined) as [success|e] eqn:Hs.
  - destruct (destructure body "detail" VUndefined) as [detail|e] eqn:Hd.
    + destruct (jobs s !! jobId) as [row|] eqn:Hrow.
      * right. exists row, success, detail.
        by rewrite (jobCallback_stored _ _ _ _ _ _ _ Hs Hd Hrow).
      * left. unfold jobCallback, try_catch. rewrite Hs, Hd.
        run_monad. unfold eval, db_readOne, readOne, found, respond. cbn.
        by rewrite Hrow.
    + left. unfold jobCallback, try_catch. by rewrite Hs, Hd.
  - left. unfold jobCallback, try_catch. by rewrite Hs.
Qed.

Lemma workerProcess_on_error_effect jobId s :
  workerProcess_on_error jobId s = s
  \/ exists row,
       jobs s !! jobId = Some row /\
       workerProcess_on_error jobId s
       = Server (<[jobId := apply_update (UpdateData (Some failed) None None) row]> (jobs s))
                (workers s).
Proof.
  unfold workerProcess_on_error, db_update, update.
  destruct (jobs s !! jobId) as [row|]; cbn.
  - right. by exists row.
  - left. by destruct s.
Qed.

(** What one request does to a stored row: nothing, or an update that
    sets a terminal state. *)
Lemma after_row r jobId row s :
  jobs s !! jobId = Some row ->
  exists row',
    jobs (after r s) !! jobId = Some row' /\
    (row' = row
     \/ exists u state,
          row' = apply_update u row /\
          set_job_state u = Some state /\
          state ∈ termState).
Proof.
  intros Hrow. destruct r as [env body|env j|env j body|j]; cbn [after].
  - exists row. split; [by apply transcodeStart_keeps|by left].
  - exists row. rewrite getJobStatus_reads. split; [done|by left].
  - destruct (decide (j = jobId)) as [->|Hne].
    + destruct (jobCallback_effect env jobId body s)
        as [->|(row0 & su & de & _ & _ & Hrow0 & ->)].
      * exists row. split; [done|by left].
      * assert (row0 = row) as -> by congruence.
        eexists. cbn. rewrite lookup_insert_eq. split; [reflexivity|].
        right. eexists _, _. split; [reflexivity|]. split; [reflexivity|].
        destruct (truthy su); unfold termState; set_solver.
    + exists row. rewrite jobCallback_other by done. split; [done|by left].
  - rewrite (workerProcess_on_error_row _ _ _ _ Hrow).
    destruct (decide (j = jobId)); eexists; (split; [reflexivity|]); [|by left].
    right. eexists _, _. split; [reflexivity|]. split; [reflexivity|].
    unfold termState. set_solver.
Qed.

(** X14. Terminal states are absorbing as a pair: once a stored job is
    "completed" or "failed", whatever submissions, status queries,
    callbacks and launch errors follow, its row is still there and its
    state is still one of the two. *)
Theorem terminal_jobs_stay_terminal requests jobId row s :
  jobs s !! jobId = Some row ->
  job_state_of row ∈ termState ->
  exists row',
    jobs (after_all requests s) !! jobId = Some row' /\
    job_state_of row' ∈ termState.
Proof.
  revert row s. induction requests as [|r requests IH]; intros row s Hrow Hstate.
  - by exists row.
  - destruct (after_row r jobId row s Hrow) as (row1 & Hrow1 & Hcase).
    apply (IH row1 (after r s) Hrow1).
    destruct Hcase as [->|(u & state & -> & Hu & Hterm)]; [done|].
    cbn. by rewrite Hu.
Qed.

Lemma terminal_jobs_stay_terminal_witness :
  exists row',
    jobs (after_all
            [ Notions.Callback Samples.later Samples.jobId (VObj Samples.failure_payload);
              Notions.Submit Samples.later
                (Samples.submission "uploads/video.mp4" "720p30av1") ]
            (workerProcess_on_error Samples.jobId Samples.started))
      !! Samples.jobId = Some row' /\
    job_state_of row' ∈ termState.
Proof.
  refine (terminal_jobs_stay_terminal _ Samples.jobId
            (JobRow Samples.jobId failed (VStr "uploads/video.mp4")
                    (VStr "uploads/video_720p30av1.mp4") (VStr "720p30av1")
                    1754662151360 None)
            (workerProcess_on_error Samples.jobId Samples.started) _ _).
  - vm_compute. reflexivity.
  - apply (bool_decide_unpack _). by vm_compute.
Defined.

(** X15. The handlers never delete a row and never rewrite what the
    submission stored in it: after any requests a stored job still has its
    job id, input key, preset and submission time. *)
Theorem submitted_columns_never_change requests jobId row s :
  jobs s !! jobId = Some row ->
  exists row',
    jobs (after_all requests s) !! jobId = Some row' /\
    submitted_as row row'.
Proof.
  revert row s. induction requests as [|r requests IH]; intros row s Hrow.
  - exists row. by repeat split.
  - destruct (after_row r jobId row s Hrow) as (row1 & Hrow1 & Hcase).
    destruct (IH row1 (after r s) Hrow1) as (row' & Hrow' & H1 & H2 & H3 & H4).
    exists row'. split; [exact Hrow'|].
    destruct Hcase as [->|(u & state & -> & _)]; [by repeat split|].
    cbn in *. by repeat split.
Qed.

Lemma submitted_columns_never_change_witness :
  exists row',
    jobs (after_all
            [ Notions.Callback Samples.later Samples.jobId
                (VObj (Samples.success_payload "elsewhere/out.mp4")) ]
            Samples.started)
      !! Samples.jobId = Some row' /\
    submitted_as (started_row Samples.env "uploads/video.mp4" (VStr "720p30av1")) row'.
Proof.
  refine (submitted_columns_never_change _ Samples.jobId
            (started_row Samples.env "uploads/video.mp4" (VStr "720p30av1"))
            Samples.started _).
  vm_compute. reflexivity.
Defined.

(** X16. Rows are created by submissions only, under the job id the
    submission generates: a status query, a callback or a launch error for
    a job id that is not in the table never adds a row. *)
Theorem rows_are_created_by_submissions_only r jobId s :
  is_Some (jobs (after r s) !! jobId) ->
  is_Some (jobs s !! jobId)
  \/ exists env body,
       r = Notions.Submit env body /\
       jobId = jobId_of env /\
       status (transcodeStart env body s).1 <> 400.
Proof.
  destruct r as [env body|env j|env j body|j]; cbn [after].
  - destruct (transcodeStart_effect env body s)
      as [[H400 ->]|[[H500 ->]|[(key & preset & H500 & Hfresh & Hspawn & ->)
                               |(key & preset & H200 & Hfresh & ->)]]];
      [by left|by left|..]; cbn [jobs];
      (destruct (decide (jobId = jobId_of env)) as [->|Hne];
       [intros _; right; exists env, body; repeat split; congruence
       |rewrite lookup_insert_ne by done; by left]).
  - rewrite getJobStatus_reads. by left.
  - destruct (jobCallback_effect env j body s)
      as [->|(row & su & de & _ & _ & Hrow & ->)]; [by left|].
    cbn [jobs]. destruct (decide (jobId = j)) as [->|Hne].
    + intros _. left. eauto.
    + rewrite lookup_insert_ne by done. by left.
  - destruct (workerProcess_on_error_effect j s) as [->|(row & Hrow & ->)]; [by left|].
    cbn [jobs]. destruct (decide (jobId = j)) as [->|Hne].
    + intros _. left. eauto.
    + rewrite lookup_insert_ne by done. by left.
Qed.

Lemma rows_are_created_by_submissions_only_witness :
  is_Some (jobs Samples.started !! Samples.jobId)
  \/ exists env body,
       Notions.Callback Samples.later Samples.jobId (VObj Samples.failure_payload)
       = Notions.Submit env body /\
       Samples.jobId = jobId_of env /\
       status (transcodeStart env body Samples.started).1 <> 400.
Proof.
  refine (rows_are_created_by_submissions_only
            (Notions.Callback Samples.later Samples.jobId (VObj Samples.failure_payload))
            Samples.jobId Samples.started _).
  vm_compute. eauto.
Defined.

Lemma consistent_insert jobId row s workers' :
  consistent s ->
  job_id row = jobId ->
  (callback_data row <> None -> job_state_of row ∈ termState) ->
  consistent (Server (<[jobId := row]> (jobs s)) workers').
Proof.
  intros Hs Hid Hpayload j r. cbn [jobs].
  destruct (decide (j = jobId)) as [->|Hne].
  - rewrite lookup_insert_eq. intros [= <-]. done.
  - rewrite lookup_insert_ne by done. apply Hs.
Qed.

Lemma consistent_after r s : consistent s -> consistent (after r s).
Proof.
  intros Hs. destruct r as [env body|env j|env j body|j]; cbn [after].
  - destruct (transcodeStart_effect env body s)
      as [[H400 ->]|[[H500 ->]|[(key & preset & H500 & Hfresh & Hspawn & ->)
                               |(key & preset & H200 & Hfresh & ->)]]];
      [done|done|..]; by apply consistent_insert.
  - by rewrite getJobStatus_reads.
  - destruct (jobCallback_effect env j body s)
      as [->|(row & su & de & _ & _ & Hrow & ->)]; [done|].
    destruct (Hs j row Hrow) as [Hid _].
    apply consistent_insert; [done|done|].
    intros _. cbn. destruct (truthy su); unfold termState; set_solver.
  - destruct (workerProcess_on_error_effect j s) as [->|(row & Hrow & ->)]; [done|].
    destruct (Hs j row Hrow) as [Hid _].
    apply consistent_insert; [done|done|].
    intros _. cbn. unfold termState. set_solver.
Qed.

(** X17. Two facts about the table hold after any requests if they held
    before: every row is stored under its own job id, and a row holds a
    callback payload only when its state is "completed" or "failed". *)
Theorem table_stays_consistent requests s :
  consistent s -> consistent (after_all requests s).
Proof.
  revert s. induction requests as [|r requests IH]; intros s Hs; [done|].
  apply IH. by apply consistent_after.
Qed.

Lemma table_stays_consistent_witness :
  consistent
    (after_all
       [ Notions.Submit Samples.env (Samples.submission "uploads/video.mp4" "720p30av1");
         Notions.Callback Samples.later Samples.jobId (VObj Samples.failure_payload) ]
       Samples.empty_server).
Proof.
  apply table_stays_consistent.
  intros jobId row Hrow. cbn in Hrow. by rewrite lookup_empty in Hrow.
Defined.

Lemma apply_update_twice u row : apply_update u (apply_update u row) = apply_update u row.
Proof.
  destruct u as [[state|] [payload|] [key|]]; reflexivity.
Qed.

(** X18. Delivering the same callback twice leaves the server as
    delivering it once: a retried POST changes nothing. *)
Theorem jobCallback_is_idempotent env env' jobId body s :
  (jobCallback env' jobId body (jobCallback env jobId body s).2).2
  = (jobCallback env jobId body s).2.
Proof.
  destruct (jobCallback_effect env jobId body s)
    as [Hsame|(row & su & de & Hsu & Hde & Hrow & Hupdated)].
  - rewrite Hsame.
    destruct (jobCallback_effect env' jobId body s)
      as [Hsame'|(row & su & de & Hsu & Hde & Hrow & Hupdated)]; [done|].
    rewrite (jobCallback_stored env _ _ _ _ _ _ Hsu Hde Hrow) in Hsame.
    by rewrite (jobCallback_stored env' _ _ _ _ _ _ Hsu Hde Hrow).
  - rewrite Hupdated.
    erewrite (jobCallback_stored env' _ _ _ _ _ _ Hsu Hde)
      by (cbn [jobs]; apply lookup_insert_eq).
    cbn [snd jobs workers]. by rewrite apply_update_twice, insert_insert_eq.
Qed.

End job_table.

(* ===================================================================== *)
(** ** The resolver and the command built from its configuration *)
(* ===================================================================== *)

Section command_arguments.
Import FFmpegUtils FluentCommand.

Lemma split_arguments_length args :
  (length (remainingArgs args) + 2 * length (videoFilterArgs args) = length args)%nat.
Proof.
  assert (H : forall n args, (length args <= n)%nat ->
    (length (remainingArgs args) + 2 * length (videoFilterArgs args) = length args)%nat).
  { clear args. induction n as [|n IH]; intros [|x [|next rest]] Hlen; cbn in *;
      try reflexivity; try lia.
    destruct (is_vf x).
    - specialize (IH rest). cbn. lia.
    - specialize (IH (next :: rest)). cbn in *. lia. }
  by apply (H (length args)).
Qed.

Lemma split_arguments_prefix before x rest :
  Forall (fun a => is_vf a = false) before ->
  videoFilterArgs (before ++ x :: rest) = videoFilterArgs (x :: rest) /\
  remainingArgs (before ++ x :: rest) = before ++ remainingArgs (x :: rest).
Proof.
  induction 1 as [|a before Ha _ [IHv IHr]]; [done|].
  change ((a :: before) ++ x :: rest) with (a :: (before ++ x :: rest)).
  destruct (before ++ x :: rest) as [|y l] eqn:Heq.
  - by destruct before.
  - rewrite <- Heq in *. cbn [videoFilterArgs remainingArgs].
    rewrite Heq, Ha. rewrite <- Heq. rewrite IHv, IHr. done.
Qed.

(** X19. How [createFluentFFmpegIns] divides an array of additional
    arguments: a [-vf] that has an argument after it sends that argument
    to the video filters, and both are kept out of the output options;
    every other argument, a last [-vf] included, is an output option. So
    arguments before the first such [-vf] are output options unchanged,
    and no argument is lost or used twice. *)
Theorem additional_arguments_are_divided :
  (forall args,
     length (remainingArgs args) + 2 * length (videoFilterArgs args) = length args)%nat
  /\ (forall before filter rest,
        Forall (fun a => is_vf a = false) before ->
        videoFilterArgs (before ++ VStr "-vf" :: filter :: rest)
        = filter :: videoFilterArgs rest /\
        remainingArgs (before ++ VStr "-vf" :: filter :: rest)
        = before ++ remainingArgs rest)
  /\ (forall before,
        Forall (fun a => is_vf a = false) before ->
        videoFilterArgs (before ++ [VStr "-vf"]) = [] /\
        remainingArgs (before ++ [VStr "-vf"]) = before ++ [VStr "-vf"]).
Proof.
  split; [exact split_arguments_length|]. split.
  - intros before filter rest Hbefore.
    destruct (split_arguments_prefix before (VStr "-vf") (filter :: rest) Hbefore)
      as [-> ->]. done.
  - intros before Hbefore.
    destruct (split_arguments_prefix before (VStr "-vf") [] Hbefore) as [-> ->]. done.
Qed.

Lemma additional_arguments_are_divided_witness :
  videoFilterArgs ([VStr "-svtav1-params"; VStr "keyint=90"]
                   ++ VStr "-vf" :: VStr "fps=30" :: [])
  = [VStr "fps=30"]
  /\ remainingArgs ([VStr "-svtav1-params"; VStr "keyint=90"]
                    ++ VStr "-vf" :: VStr "fps=30" :: [])
     = [VStr "-svtav1-params"; VStr "keyint=90"].
Proof.
  refine (proj1 (proj2 additional_arguments_are_divided)
            [VStr "-svtav1-params"; VStr "keyint=90"] (VStr "fps=30") [] _).
  repeat constructor.
Defined.

(** X20. Every preset of the table resolves, for any non-empty input
    path, to a configuration that passes validation; its output carries the
    preset's crf, encoder preset, width and height and the default codecs,
    and of its additional arguments the command builder sends exactly the
    preset's [fps] filter to the video filters and exactly the preset's
    advanced arguments to the output options. *)
Theorem table_presets_resolve name preset path :
  assoc name QUALITY_TO_PRESETS_entries = Some preset ->
  path <> "" ->
  exists output additionalArgs fps advanced,
    createTranscodingConfig
      (VObj [ ("input", VObj [ ("path", VStr path) ]); ("quality", VStr name) ])
    = Ok (VObj [ ("input", VObj [ ("path", VStr path) ]); ("output", VObj output) ]) /\
    (forall k, In k ["crf"; "preset"; "width"; "height"] ->
               get (VObj output) k = get preset k) /\
    get (VObj output) "videoCodec" = Ok (VStr "libsvtav1") /\
    get (VObj output) "audioCodec" = Ok (VStr "aac") /\
    get (VObj output) "additionalArgs" = Ok (VArr additionalArgs) /\
    (filters ← get preset "filters"; get filters "fps") = Ok fps /\
    (advanced ← get preset "advanced"; get advanced "additionalArgs") = Ok (VArr advanced) /\
    videoFilterArgs additionalArgs = [VStr ("fps=" +:+ to_string fps)] /\
    remainingArgs additionalArgs = advanced.
Proof.
  intros Hpreset Hpath. destruct path as [|c path]; [done|].
  destruct (known_preset_cases name preset Hpreset) as [[-> ->]|[[-> ->]|[-> ->]]];
    eexists _, _, _, _;
    (split; [vm_compute; reflexivity|]);
    (split; [intros k [<-|[<-|[<-|[<-|[]]]]]; reflexivity|]);
    repeat split.
Qed.

Lemma table_presets_resolve_witness :
  exists output,
    createTranscodingConfig
      (VObj [ ("input", VObj [ ("path", VStr "/srv/temp/input_100_video.mp4") ]);
              ("quality", VStr "1080p60av1") ])
    = Ok (VObj [ ("input", VObj [ ("path", VStr "/srv/temp/input_100_video.mp4") ]);
                 ("output", VObj output) ]) /\
    get (VObj output) "width" = Ok (VNum 1920).
Proof.
  destruct (table_presets_resolve "1080p60av1"
              (quality_preset 1920 1080 49 "10" 60
                 "hierarchical-levels=3:keyint=180:lookahead=11:lp=14:scm=0")
              "/srv/temp/input_100_video.mp4" eq_refl)
    as (output & additionalArgs & fps & advanced & Hconfig & Hvalues & _);
    [discriminate|].
  exists output. split; [exact Hconfig|].
  rewrite (Hvalues "width") by (cbn; tauto). reflexivity.
Defined.

End command_arguments.

Section resolver_errors.
Import FFmpegUtils Resolving Runs.

Lemma destructure_total o k d :
  o <> VUndefined -> o <> VNull -> exists v, destructure o k d = Ok v.
Proof.
  intros Hu Hn. destruct o; try done; cbn; eauto.
  destruct (assoc k props); cbn; eauto.
Qed.


Lemma generateScaleFilter_null w h :
  exists e, generateScaleFilter w h VNull = Throw e /\ err_name e = "TypeError".
Proof. eexists. split; reflexivity. Qed.




(** X22. The resolver checks the input before anything else: when the
    options can be destructured and [input.path] reads as a falsy value it
    throws "Input path is required", and for a truthy value that is not a
    string "Input path must be a string", whatever the other options are;
    and every configuration it returns holds the caller's [input], whose
    path is a non-empty string. *)
Theorem createTranscodingConfig_checks_input_first options input path :
  destructure options "input" VUndefined = Ok input ->
  get input "path" = Ok path ->
  (truthy path = false ->
   createTranscodingConfig options = Throw (Error "Input path is required"))
  /\ (truthy path = true -> typeof path <> "string" ->
      createTranscodingConfig options = Throw (Error "Input path must be a string"))
  /\ (forall cfg,
        createTranscodingConfig options = Ok cfg ->
        get cfg "input" = Ok input /\ exists s, path = VStr s /\ s <> "").
Proof.
  intros Hinput Hpath.
  assert (Ho : options <> VUndefined /\ options <> VNull).
  { split; intros ->; discriminate. }
  destruct Ho as [Hu Hn].
  unfold createTranscodingConfig. rewrite Hinput.
  destruct (destructure_total options "quality" (VStr "720p30av1") Hu Hn) as [q ->].
  destruct (destructure_total options "videoCodec" (VStr "av1") Hu Hn) as [vc ->].
  destruct (destructure_total options "audioCodec" (VStr "aac") Hu Hn) as [ac ->].
  destruct (destructure_total options "format" (VStr "mp4") Hu Hn) as [fo ->].
  destruct (destructure_total options "filters" (VObj []) Hu Hn) as [fi ->].
  destruct (destructure_total options "advanced" (VObj []) Hu Hn) as [ad ->].
  cbn [mbind Result_bind]. unfold validateInput. rewrite Hpath. cbn [mbind Result_bind].
  split; [by intros ->|]. split.
  - intros -> Htype. cbn [negb].
    destruct (String.eqb_spec (typeof path) "string"); [done|reflexivity].
  - intros cfg. destruct (truthy path) eqn:Ht; cbn [negb]; [|discriminate].
    destruct (String.eqb_spec (typeof path) "string") as [Htype|]; [|discriminate].
    cbn [negb mret Result_ret]. intros H.
    assert (Hcfg : exists output, cfg = VObj [ ("input", input); ("output", output) ]).
    { repeat (apply bind_Ok_inv in H as (? & _ & H)).
      repeat match type of H with
             | (if ?c then Throw _ else _) = Ok _ => destruct c; [discriminate|]
             end.
      do 12 (apply bind_Ok_inv in H as (? & _ & H)).
      injection H as <-. eauto. }
    destruct Hcfg as [output ->]. split; [reflexivity|].
    destruct path; try discriminate. exists s. split; [done|].
    intros ->. discriminate.
Qed.

Lemma createTranscodingConfig_checks_input_first_witness :
  createTranscodingConfig
    (VObj [ ("input", VObj [ ("path", VStr "") ]); ("videoCodec", VStr "h264") ])
  = Throw (Error "Input path is required").
Proof.
  refine (proj1 (createTranscodingConfig_checks_input_first
                   (VObj [ ("input", VObj [ ("path", VStr "") ]);
                           ("videoCodec", VStr "h264") ])
                   (VObj [ ("path", VStr "") ]) (VStr "") _ _) _); reflexivity.
Defined.

End resolver_errors.

(* ===================================================================== *)
(** ** The statements of the data access layer *)
(* ===================================================================== *)

Section statements.
Import QueryBuilder Statements.

Lemma placeholders_append a b :
  placeholders (a +:+ b) = (placeholders a + placeholders b)%nat.
Proof.
  induction a as [|c a IH]; [reflexivity|].
  change (String c a +:+ b) with (String c (a +:+ b)).
  cbn [placeholders]. rewrite IH. lia.
Qed.



(** What the callback of [buildWhereClause] adds for one entry. *)
Lemma where_entry_adds whereParts params key value :
  exists part bound,
    where_entry (whereParts, params) (key, value)
    = Ok (whereParts ++ (if usable value then [part] else []),
          params ++ bound) /\
    part <> "" /\
    (value = VUndefined -> bound = []) /\
    (plain key = true ->
     match get value "operator" with
     | Ok operator => plain (to_string operator) = true
     | Throw _ => True
     end ->
     placeholders part = length bound).
Proof.
  assert (Hsuffix : forall s : string, key +:+ s = "" -> s = "").
  { intros s. destruct key; [done|discriminate]. }
  assert (Hplain : forall s, plain s = true -> placeholders s = 0%nat).
  { intros s. unfold plain. by intros ?%Nat.eqb_eq. }
  destruct value as [| |b|n|s|xs|props|f]; cbn [where_entry usable].
  - exists "-", []. rewrite !app_nil_r. repeat split; done.
  - exists (key +:+ " IS NULL"), []. rewrite app_nil_r.
    split; [done|]. split; [by intros ?%Hsuffix|]. split; [done|].
    intros Hkey _. by rewrite placeholders_append, (Hplain _ Hkey).
  - exists (key +:+ " = ?"), [VBool b]. split; [done|]. split; [by intros ?%Hsuffix|]. split; [done|].
    intros Hkey _. by rewrite placeholders_append, (Hplain _ Hkey).
  - exists (key +:+ " = ?"), [VNum n]. split; [done|]. split; [by intros ?%Hsuffix|]. split; [done|].
    intros Hkey _. by rewrite placeholders_append, (Hplain _ Hkey).
  - exists (key +:+ " = ?"), [VStr s]. split; [done|]. split; [by intros ?%Hsuffix|]. split; [done|].
    intros Hkey _. by rewrite placeholders_append, (Hplain _ Hkey).
  - exists (key +:+ " = ?"), [VArr xs]. split; [done|]. split; [by intros ?%Hsuffix|]. split; [done|].
    intros Hkey _. by rewrite placeholders_append, (Hplain _ Hkey).
  - unfold and_lazy. cbn [typeof String.eqb Ascii.eqb Bool.eqb mbind Result_bind truthy].
    destruct (truthy_get_total (VObj props) "operator" eq_refl) as [operator Hop].
    destruct (truthy_get_total (VObj props) "value" eq_refl) as [bound Hbound].
    rewrite Hop. cbn [mbind Result_bind].
    destruct (truthy operator).
    + rewrite Hbound. cbn [mbind Result_bind].
      exists (key +:+ " " +:+ to_string operator +:+ " ?"), [bound].
      split; [done|]. split; [by intros ?%Hsuffix|]. split; [done|].
      intros Hkey Hoperator.
      by rewrite !placeholders_append, (Hplain _ Hkey), (Hplain _ Hoperator).
    + exists (key +:+ " = ?"), [VObj props]. split; [done|]. split; [by intros ?%Hsuffix|]. split; [done|].
      intros Hkey _. by rewrite placeholders_append, (Hplain _ Hkey).
  - exists (key +:+ " = ?"), [VFun f]. split; [done|]. split; [by intros ?%Hsuffix|]. split; [done|].
    intros Hkey _. by rewrite placeholders_append, (Hplain _ Hkey).
Qed.

Lemma forEach_where_entry entries whereParts params :
  exists parts bound,
    forEach where_entry entries (whereParts, params)
    = Ok (whereParts ++ parts, params ++ bound) /\
    Forall (fun part => part <> "") parts /\
    length parts = length (filter (fun kv : string * value => usable kv.2) entries) /\
    (Forall (fun kv : string * value => kv.2 = VUndefined) entries -> bound = []) /\
    (forallb (fun kv : string * value =>
                plain kv.1 &&
                match get kv.2 "operator" with
                | Ok operator => plain (to_string operator)
                | Throw _ => true
                end) entries = true ->
     list_sum (map placeholders parts) = length bound).
Proof.
  revert whereParts params.
  induction entries as [|[key value] entries IH]; intros whereParts params.
  - exists [], []. rewrite !app_nil_r. repeat split; done.
  - destruct (where_entry_adds whereParts params key value)
      as (part & bound & Hentry & Hpart & Hnone & Hcount).
    cbn [forEach]. rewrite Hentry. cbn [mbind Result_bind].
    destruct (IH (whereParts ++ (if usable value then [part] else [])) (params ++ bound))
      as (parts & bound' & -> & Hparts & Hlen & Hnone' & Hcounts).
    exists ((if usable value then [part] else []) ++ parts), (bound ++ bound').
    rewrite <- !app_assoc. split; [done|]. split; [|split; [|split]].
    + apply Forall_app. split; [|done]. destruct (usable value); by repeat constructor.
    + rewrite filter_cons. cbn [snd]. rewrite length_app.
      destruct (usable value); cbn; [|done].
      rewrite decide_True by done. cbn. lia.
    + intros Hall. apply Forall_cons in Hall as [Hvalue Hall]. cbn [snd] in Hvalue.
      by rewrite (Hnone Hvalue), (Hnone' Hall).
    + cbn [forallb fst snd]. intros [[Hkey Hop]%andb_prop Hrest]%andb_prop.
      rewrite map_app, list_sum_app, length_app, (Hcounts Hrest).
      assert (Hpart' : placeholders part = length bound).
      { apply Hcount; [done|]. destruct (get value "operator"); done. }
      destruct (usable value) eqn:Husable; cbn [map list_sum fold_right]; [lia|].
      destruct value; try discriminate.
      cbn in Hentry. injection Hentry as _ Hb.
      apply (f_equal length) in Hb. rewrite length_app in Hb.
      assert (length bound = 0)%nat by lia. lia.
Qed.



(** The clause [buildWhereClause] builds, in terms of its parts. *)
Lemma buildWhereClause_parts conditions :
  exists parts bound,
    buildWhereClause conditions
    = Ok (WhereClause (if (0 <? length parts)%nat
                       then "WHERE " +:+ join " AND " parts
                       else "")
                      bound) /\
    Forall (fun part => part <> "") parts /\
    length parts
    = length (filter (fun kv : string * value => usable kv.2) (own_enumerable conditions)) /\
    (Forall (fun kv : string * value => kv.2 = VUndefined) (own_enumerable conditions) ->
     bound = []) /\
    (plain_conditions conditions = true ->
     list_sum (map placeholders parts) = length bound).
Proof.
  unfold buildWhereClause.
  destruct (truthy conditions) eqn:Htruthy; cbn [negb].
  - assert (Hentries : Object_entries conditions = Ok (own_enumerable conditions))
      by (by destruct conditions).
    unfold Object_keys. rewrite Hentries. cbn [mbind Result_bind mret Result_ret].
    rewrite length_map.
    destruct (own_enumerable conditions) as [|entry entries] eqn:Hown.
    + exists [], []. repeat split; done.
    + cbn [length Nat.eqb].
      destruct (forEach_where_entry (entry :: entries) [] [])
        as (parts & bound & -> & Hparts & Hlen & Hnone & Hcount).
      exists parts, bound. cbn [app]. repeat split; try done.
      unfold plain_conditions. by rewrite Hown.
  - exists [], []. split; [done|]. split; [done|].
    split; [|done].
    destruct conditions as [| |[]|n|[|c s]| | |]; try discriminate; reflexivity.
Qed.







(** X26. The guard of [update] looks at the keys of the conditions. With
    conditions that have no key (none given, [{}]) it refuses with "Update
    operations must include WHERE conditions for safety" and hands nothing
    to the service. *)
Theorem update_refuses_conditions_without_keys table data conditions db :
  conditions <> VNull ->
  own_enumerable conditions = [] ->
  SQLiteDataAccess.update table data conditions db
  = (SQLiteDataAccess.failed_result
       (Error "Update operations must include WHERE conditions for safety"),
     db).
Proof.
  intros Hnull Hkeys. unfold SQLiteDataAccess.update, Object_keys.
  assert (Hentries : Object_entries (param_default conditions (VObj [])) = Ok []).
  { destruct conditions; try done; cbn in *; by rewrite ?Hkeys. }
  by rewrite Hentries.
Qed.

Lemma update_refuses_conditions_without_keys_witness :
  SQLiteDataAccess.update "transcoding_jobs" (VObj [ ("job_state", VStr "failed") ])
    VUndefined (SQLiteDataAccess.Service (fun _ _ => SQLiteDataAccess.Ran VUndefined (VNum 1)) [])
  = (SQLiteDataAccess.failed_result
       (Error "Update operations must include WHERE conditions for safety"),
     SQLiteDataAccess.Service (fun _ _ => SQLiteDataAccess.Ran VUndefined (VNum 1)) []).
Proof.
  apply update_refuses_conditions_without_keys; [discriminate|reflexivity].
Defined.

(** X27. But the guard of [update] does not look at the values: when the
    conditions have a key and every value is [undefined] (a lookup by an
    id that was never set), the guard passes, [buildWhereClause] skips
    every condition, and the statement handed to the service is an UPDATE
    of the table with no WHERE clause, binding the new values only. *)
Theorem update_with_undefined_conditions_has_no_where table data conditions db :
  data <> VUndefined -> data <> VNull ->
  own_enumerable conditions <> [] ->
  Forall (fun kv : string * value => kv.2 = VUndefined) (own_enumerable conditions) ->
  SQLiteDataAccess.issued (SQLiteDataAccess.update table data conditions db).2
  = SQLiteDataAccess.issued db
    ++ [Statement ("UPDATE " +:+ table +:+ " SET "
                   +:+ join ", " (map (fun kv : string * value => kv.1 +:+ " = ?")
                                      (own_enumerable data))
                   +:+ " ")
                  (map snd (own_enumerable data))].
Proof.
  intros Hu Hn Hkeys Hall.
  assert (Hconditions : param_default conditions (VObj []) = conditions)
    by (by destruct conditions).
  assert (Hentries : Object_entries conditions = Ok (own_enumerable conditions))
    by (by destruct conditions).
  assert (Hdata : Object_entries data = Ok (own_enumerable data)) by (by destruct data).
  unfold SQLiteDataAccess.update, Object_keys. rewrite Hconditions, Hentries.
  cbn [mbind Result_bind mret Result_ret]. rewrite length_map.
  destruct (own_enumerable conditions) as [|entry entries] eqn:Hown; [done|].
  cbn [length Nat.eqb].
  unfold buildUpdateQuery, Object_keys, Object_values. rewrite Hdata.
  cbn [mbind Result_bind mret Result_ret].
  destruct (buildWhereClause_parts conditions)
    as (parts & bound & -> & Hparts & Hlen & Hnone & _).
  rewrite Hown in Hlen, Hnone. rewrite (Hnone Hall).
  assert (Hempty : parts = []).
  { apply length_zero_iff_nil. rewrite Hlen. clear -Hall.
    induction Hall as [|[k v] l Hv _ IH]; [done|].
    rewrite filter_cons. cbn [snd] in *. rewrite Hv. cbn [usable].
    by rewrite decide_False by (intros H; exact H). }
  rewrite Hempty. cbn [mbind Result_bind length Nat.ltb Nat.leb where_ where_params].
  cbn [SQLiteDataAccess.executeQuery SQLiteDataAccess.issued snd].
  unfold SQLiteDataAccess.executeQuery. cbn [SQLiteDataAccess.issued snd].
  rewrite app_nil_r, map_map. reflexivity.
Qed.

Lemma update_with_undefined_conditions_has_no_where_witness :
  SQLiteDataAccess.issued
    (SQLiteDataAccess.update "transcoding_jobs" (VObj [ ("job_state", VStr "failed") ])
       (VObj [ ("job_id", VUndefined) ])
       (SQLiteDataAccess.Service (fun _ _ => SQLiteDataAccess.Ran VUndefined (VNum 1)) [])).2
  = [Statement "UPDATE transcoding_jobs SET job_state = ? " [VStr "failed"]].
Proof.
  refine (update_with_undefined_conditions_has_no_where "transcoding_jobs"
            (VObj [ ("job_state", VStr "failed") ]) (VObj [ ("job_id", VUndefined) ])
            (SQLiteDataAccess.Service (fun _ _ => SQLiteDataAccess.Ran VUndefined (VNum 1)) [])
            _ _ _ _);
    first [discriminate | by repeat constructor].
Defined.

End statements.

(* ===================================================================== *)
(** ** Local files *)
(* ===================================================================== *)

Section local_files.
Import Worker Runs.

Lemma char_is_false c o : Path.char_is c o = false -> o <> Some c.
Proof.
  destruct o as [c'|]; cbn; [|done].
  intros H [= ->]. by rewrite Ascii.eqb_refl in H.
Qed.

(** The scanning loop of [path.basename]: what the loop has accepted so
    far lies between [n] and [e] and holds no separator. *)
Lemma basename_loop_span path n start e matched :
  (n <= String.length path)%nat ->
  (e = -1 /\ matched = true /\ start = 0
   \/ matched = false /\ start = 0 /\ Z.of_nat n <= e /\
      forall j, (n <= j)%nat -> Z.of_nat j < e ->
                String.get j path <> Some Path.CHAR_FORWARD_SLASH) ->
  let '(start', e', _) := Path.basename_loop path n (start, e, matched) in
  e' = -1
  \/ 0 <= start' <= e' /\
     forall j, start' <= Z.of_nat j < e' ->
               String.get j path <> Some Path.CHAR_FORWARD_SLASH.
Proof.
  revert start e matched. induction n as [|i IH]; intros start e matched Hlen Hinv.
  - cbn. destruct Hinv as [(-> & _ & _)|(_ & -> & He & Hspan)]; [by left|].
    right. split; [lia|]. intros j [Hj1 Hj2]. apply Hspan; lia.
  - cbn [Path.basename_loop].
    destruct (Path.char_is Path.CHAR_FORWARD_SLASH (String.get i path)) eqn:Hchar.
    + destruct Hinv as [(-> & -> & ->)|(-> & -> & He & Hspan)]; cbn [negb].
      * apply IH; [lia|]. by left.
      * right. split; [lia|]. intros j [Hj1 Hj2]. apply Hspan; lia.
    + apply char_is_false in Hchar.
      destruct Hinv as [(-> & -> & ->)|(-> & -> & He & Hspan)].
      * cbn [Z.eqb]. apply IH; [lia|]. right. repeat split; [lia|].
        intros j Hj1 Hj2. assert (j = i) as -> by lia. exact Hchar.
      * destruct (Z.eqb_spec e (-1)); [lia|].
        apply IH; [lia|]. right. repeat split; [lia|].
        intros j Hj1 Hj2. destruct (decide (j = i)) as [->|Hne]; [exact Hchar|].
        apply Hspan; lia.
Qed.

Lemma basename_has_no_separator path j :
  String.get j (Path.basename path) <> Some Path.CHAR_FORWARD_SLASH.
Proof.
  unfold Path.basename.
  pose proof (basename_loop_span path (String.length path) 0 (-1) true (le_n _)) as Hloop.
  destruct (Path.basename_loop path (String.length path) (0, -1, true))
    as [[start e] matched].
  destruct Hloop as [->|[Hrange Hspan]]; [by left| |].
  - cbn. by destruct j.
  - destruct (Z.eqb_spec e (-1)); [by destruct j|].
    unfold Path.slice.
    destruct (decide (j < Z.to_nat (e - start))%nat) as [Hin|Hout].
    + rewrite substring_correct1 by done. apply Hspan. lia.
    + rewrite substring_correct2 by lia. done.
Qed.

Lemma no_separator_get name :
  (forall j, String.get j name <> Some Path.CHAR_FORWARD_SLASH) -> no_separator name = true.
Proof.
  induction name as [|c name IH]; intros Hget; [reflexivity|].
  cbn [no_separator]. apply andb_true_intro. split.
  - destruct (Ascii.eqb_spec c Path.CHAR_FORWARD_SLASH) as [->|]; [|reflexivity].
    by destruct (Hget 0%nat).
  - apply IH. intros j. exact (Hget (S j)).
Qed.

Lemma no_separator_append a b :
  no_separator (a +:+ b) = no_separator a && no_separator b.
Proof.
  induction a as [|c a IH]; [reflexivity|].
  change (String c a +:+ b) with (String c (a +:+ b)).
  cbn [no_separator]. by rewrite IH, andb_assoc.
Qed.

Lemma no_separator_digits d : no_separator (NilEmpty.string_of_uint d) = true.
Proof. induction d; cbn; done. Qed.

Lemma no_separator_string_of_Z n : no_separator (string_of_Z n) = true.
Proof.
  unfold string_of_Z, NilZero.string_of_int, NilZero.string_of_uint.
  destruct (Z.to_int n) as [d|d]; destruct d; try reflexivity;
    cbn [no_separator]; rewrite ?no_separator_digits; try reflexivity;
    apply (no_separator_digits (_ _)).
Qed.

(** X28. The local files of a run are direct children of the temp
    directory: each of the four paths a run may touch is the temp
    directory, a separator, and a name that contains no separator,
    whatever the input key is. *)
Theorem local_files_are_children_of_temp_directory env s3Key path :
  In path (own_paths env s3Key) ->
  exists name, path = in_tempDir env name /\ no_separator name = true.
Proof.
  assert (Hname : forall prefix n,
    no_separator prefix = true ->
    no_separator (prefix +:+ string_of_Z n +:+ "_" +:+ Path.basename s3Key) = true).
  { intros prefix n Hprefix.
    rewrite !no_separator_append, Hprefix, no_separator_string_of_Z.
    rewrite (no_separator_get _ (basename_has_no_separator s3Key)). reflexivity. }
  unfold own_paths. intros [<-|[<-|[<-|[<-|[]]]]]; eexists; (split; [reflexivity|]);
    by apply Hname.
Qed.

Lemma local_files_are_children_of_temp_directory_witness :
  exists name,
    "/srv/temp/input_100_c.mp4" = in_tempDir Samples.worker_env name /\
    no_separator name = true.
Proof.
  refine (local_files_are_children_of_temp_directory Samples.worker_env "a/b/c.mp4"
            "/srv/temp/input_100_c.mp4" _).
  vm_compute. tauto.
Defined.

Section cleaning.
Import VideoTranscoder.



End cleaning.

End local_files.

(* ===================================================================== *)
(** ** The output key *)
(* ===================================================================== *)

Section output_keys.
Import VideoController Keys.

Lemma char_is_true c o : Path.char_is c o = true -> o = Some c.
Proof.
  destruct o as [c'|]; cbn; [|done]. by intros ->%Ascii.eqb_eq.
Qed.

Lemma get_beyond s i : (String.length s <= i)%nat -> String.get i s = None.
Proof.
  revert i. induction s as [|c s IH]; intros i Hi; [by destruct i|].
  destruct i as [|i]; cbn in *; [lia|]. apply IH. lia.
Qed.

Lemma parse_loop_scanned path start n st :
  (start <= n <= String.length path)%nat ->
  scanning path n st ->
  scanned path start (Path.parse_loop path start n st).
Proof.
  assert (Hdone : forall st, scanning path start st -> scanned path start st).
  { intros st' [Hpart [(He & _ & _ & Hsep)|(He & _ & Hrange & Hend & Hspan & Hdot)]].
    - left. done.
    - right. split; [done|]. split; [by left|]. rewrite Hpart. cbn [Z.eqb].
      split; [lia|]. split; [done|]. split.
      + intros i [Hi1 Hi2]. apply Hspan; lia.
      + destruct Hdot as [?|[? ?]]; [by left|right; split; [lia|done]]. }
  revert st. induction n as [|i IH]; intros st Hn Hinv.
  - cbn. assert (start = 0)%nat as -> by lia. by apply Hdone.
  - cbn [Path.parse_loop].
    destruct (Nat.ltb_spec i start) as [Hlt|Hge].
    { assert (start = S i) as -> by lia. by apply Hdone. }
    destruct st as [sd sp e m pd]. unfold scanning in Hinv.
    cbn [Path.startDot Path.startPart Path.end_ Path.matchedSlash Path.preDotState] in *.
    destruct Hinv as [-> Hinv].
    destruct (Path.char_is Path.CHAR_FORWARD_SLASH (String.get i path)) eqn:Hslash.
    + apply char_is_true in Hslash.
      destruct Hinv as [(-> & -> & -> & Hsep)|(He & -> & Hrange & Hend & Hspan & Hdot)];
        cbn [negb].
      * apply IH; [lia|]. split; [done|]. left. repeat split; try done.
        intros j Hj. destruct (decide (j = i)) as [->|Hne]; [by right|].
        apply Hsep. lia.
      * right. cbn [Path.end_ Path.startPart Path.startDot]. split; [done|].
        split.
        { right. split; [lia|]. by replace (Z.to_nat (Z.of_nat i + 1 - 1)) with i by lia. }
        destruct (Z.eqb_spec (Z.of_nat i + 1) 0); [lia|].
        split; [lia|]. split; [done|]. split.
        -- intros j [Hj1 Hj2]. apply Hspan; lia.
        -- destruct Hdot as [?|[? ?]]; [by left|right; split; [lia|done]].
    + apply char_is_false in Hslash.
      apply IH; [lia|].
      destruct Hinv as [(-> & -> & -> & Hsep)|(He & -> & Hrange & Hend & Hspan & Hdot)].
      * assert (Hnext : separator_or_end (String.get (Z.to_nat (Z.of_nat i + 1)) path)).
        { replace (Z.to_nat (Z.of_nat i + 1)) with (S i) by lia. apply Hsep. lia. }
        assert (Hone : forall j, (i <= j)%nat -> Z.of_nat j < Z.of_nat i + 1 ->
                                 String.get j path <> Some Path.CHAR_FORWARD_SLASH).
        { intros j Hj1 Hj2. assert (j = i) as -> by lia. done. }
        destruct (Path.char_is Path.CHAR_DOT (String.get i path)) eqn:Hchar; cbn;
          unfold scanning;
          cbn [Path.startDot Path.startPart Path.end_ Path.matchedSlash Path.preDotState].
        -- apply char_is_true in Hchar.
           split; [done|]. right.
           split; [lia|]. split; [done|]. split; [lia|]. split; [done|].
           split; [done|]. right. split; [lia|]. by rewrite Nat2Z.id.
        -- split; [done|]. right.
           split; [lia|]. split; [done|]. split; [lia|]. split; [done|].
           split; [done|]. by left.
      * destruct (Z.eqb_spec e (-1)); [done|].
        assert (Hspan' : forall j, (i <= j)%nat -> Z.of_nat j < e ->
                                   String.get j path <> Some Path.CHAR_FORWARD_SLASH).
        { intros j Hj1 Hj2. destruct (decide (j = i)) as [->|Hne]; [done|].
          apply Hspan; lia. }
        assert (Hkept : forall sd' pd',
                  (sd' = -1 \/ Z.of_nat i <= sd' < e /\
                               String.get (Z.to_nat sd') path = Some Path.CHAR_DOT) ->
                  scanning path i (Path.Scan sd' 0 e false pd')).
        { intros sd' pd' Hsd. unfold scanning.
          cbn [Path.startDot Path.startPart Path.end_ Path.matchedSlash Path.preDotState].
          split; [done|]. right.
          split; [done|]. split; [done|]. split; [lia|]. split; [done|]. split; done. }
        assert (Hdot' : sd = -1 \/ Z.of_nat i <= sd < e /\
                                   String.get (Z.to_nat sd) path = Some Path.CHAR_DOT).
        { destruct Hdot as [?|[? ?]]; [by left|right; split; [lia|done]]. }
        cbn [Path.startDot Path.startPart Path.end_ Path.matchedSlash Path.preDotState].
        destruct (Path.char_is Path.CHAR_DOT (String.get i path)) eqn:Hchar.
        -- apply char_is_true in Hchar.
           destruct (Z.eqb_spec sd (-1)) as [Hnone|Hsome].
           ++ apply Hkept. right. split; [lia|]. by rewrite Nat2Z.id.
           ++ destruct (negb (pd =? 1)); by apply Hkept.
        -- destruct (negb (sd =? -1)); by apply Hkept.
Qed.


Lemma length_substring s a m :
  (a + m <= String.length s)%nat -> String.length (substring a m s) = m.
Proof.
  revert a m. induction s as [|c s IH]; intros a m H; cbn in H.
  - assert (a = 0 /\ m = 0)%nat as [-> ->] by lia. reflexivity.
  - destruct a as [|a]; cbn.
    + destruct m as [|m]; [reflexivity|]. cbn. f_equal. apply IH. lia.
    + apply IH. lia.
Qed.

Lemma get_after a c b : String.get (String.length a) (a +:+ String c b) = Some c.
Proof. exact (eq_sym (append_correct2 a (String c b) 0)). Qed.

(** X30. The output key that [transcodeStart] computes from the input key
    and the preset is never the input key itself, whatever the key is: the
    key with a base name gets [_] where the key has the end of its name or
    the dot of its extension, the key without one becomes [_<preset>] or
    [//_<preset>]. *)
Theorem output_key_differs_from_input key preset : outputS3Key_of key preset <> key.
Proof.
  unfold outputS3Key_of, Path.parse.
  destruct (Nat.eqb_spec (String.length key) 0) as [Hempty|Hnonempty].
  { destruct key; [|discriminate]. lazy. discriminate. }
  set (isAbsolute := Path.char_is _ (String.get 0 key)).
  set (start := if isAbsolute then 1%nat else 0%nat).
  assert (Hsc : scanned key start
                  (Path.parse_loop key start (String.length key) Path.scan_init)).
  { apply parse_loop_scanned; [subst start; destruct isAbsolute; lia|].
    split; [done|]. left. repeat split; try done.
    intros i Hi. left. by apply get_beyond. }
  destruct (Path.parse_loop key start (String.length key) Path.scan_init)
    as [sd sp e m pd].
  unfold scanned in Hsc.
  cbn [Path.startDot Path.startPart Path.end_ Path.matchedSlash Path.preDotState] in *.
  destruct Hsc as [(-> & -> & Hsep)|(He & Hpart & Hrange & Hend & Hspan & Hdot)].
  - cbn. destruct isAbsolute; cbn; intros H.
    + assert (Hget := Hsep 2%nat ltac:(subst start; lia)). rewrite <- H in Hget.
      destruct Hget as [Hget|Hget]; lazy in Hget; discriminate.
    + assert (Hget := Hsep 0%nat ltac:(subst start; lia)). rewrite <- H in Hget.
      destruct Hget as [Hget|Hget]; lazy in Hget; discriminate.
  - destruct (Z.eqb_spec e (-1)); [done|]. cbn [negb].
    set (first := if (sp =? 0) && isAbsolute then 1 else sp).
    assert (Hfirst : (if sp =? 0 then Z.of_nat start else sp) = first).
    { subst first start. destruct (Z.eqb_spec sp 0), isAbsolute; cbn; lia. }
    rewrite Hfirst in *.
    set (cond := (sd =? -1) || (pd =? 0) || (pd =? 1) && (sd =? e - 1) && (sd =? sp + 1)).
    assert (Hname : exists kend ext,
      (if cond
       then (Path.slice key first e, "", Path.slice key first e)
       else (Path.slice key first e, Path.slice key sd e, Path.slice key first sd))
      = (Path.slice key first e, ext, Path.slice key first kend) /\
      first <= kend <= e /\
      String.get (Z.to_nat kend) key <> Some "_"%char).
    { destruct cond eqn:Hcond.
      - exists e, "". split; [done|]. split; [lia|]. destruct Hend as [-> | ->]; discriminate.
      - subst cond. apply orb_false_elim in Hcond as [[Hsd _]%orb_false_elim _].
        apply Z.eqb_neq in Hsd. destruct Hdot as [?|[Hr Hg]]; [done|].
        exists sd. eexists. split; [done|]. split; [lia|]. rewrite Hg. discriminate. }
    destruct Hname as (kend & ext & -> & Hk & Hnot).
    cbn [Path.dir Path.name Path.ext].
    assert (Hlen : String.length (Path.slice key first kend) = Z.to_nat (kend - first)).
    { unfold Path.slice. apply length_substring. subst first start.
      destruct (Z.eqb_spec sp 0), isAbsolute; cbn in *; lia. }
    set (name := Path.slice key first kend) in *.
    set (tail := to_string preset +:+ ext).
    destruct (Z.ltb_spec 0 sp) as [Hsp|Hsp].
    + assert (Hfst : first = sp).
      { subst first. destruct (Z.eqb_spec sp 0); [lia|done]. }
      destruct Hpart as [?|[Hstart Hslash]]; [lia|].
      assert (Htwo : 2 <= sp).
      { destruct (Z.eq_dec sp 1) as [->|]; [|lia].
        change (Z.to_nat (1 - 1)) with 0%nat in Hslash.
        subst start isAbsolute. rewrite Hslash in Hstart. cbn in Hstart. lia. }
      assert (Hdir : String.length (Path.slice key 0 (sp - 1)) = Z.to_nat (sp - 1)).
      { unfold Path.slice. rewrite Z.sub_0_r. apply length_substring. cbn. lia. }
      set (dir := Path.slice key 0 (sp - 1)) in *.
      assert (Htruthy : truthy (VStr dir) = true).
      { destruct dir; [cbn in Hdir; lia|done]. }
      rewrite Htruthy. intros Hkey.
      apply Hnot. rewrite <- Hkey at 1.
      replace (Z.to_nat kend) with ((1 + String.length name) + String.length dir)%nat by lia.
      rewrite <- append_correct2.
      change ("/" +:+ name +:+ "_" +:+ tail) with (String "/" (name +:+ String "_" tail)).
      cbn [String.get Nat.add]. apply get_after.
    + assert (sp = 0) as -> by (destruct Hpart as [?|[? _]]; lia).
      subst first start. destruct isAbsolute; cbn in Hrange, Hspan, Hk, Hlen |- *; intros Hkey.
      * apply (Hspan 1%nat); [lia|]. rewrite <- Hkey. reflexivity.
      * apply Hnot. rewrite <- Hkey at 1.
        replace (Z.to_nat kend) with (String.length name) by lia.
        apply get_after.
Qed.

End output_keys.
